(** * Public Legal Record System: the integrity subsystem

    A shallow embedding of the hashing, auditing, bundle verification and
    chain-of-custody code of the repository, with the properties its
    specification states about them.

    Layout: the Python values the scripts work on ([Py]), the slice of the
    [json] module they call ([Json]), one module per source file, and then
    the theorems. *)

From Stdlib Require Import String Ascii DecimalString.
From Stdlib Require DecimalZ DecimalPos.
From Stdlib Require Import ZArith NArith Bool Lia SpecFloat.
From Stdlib Require Import List Permutation Sorted.
Import ListNotations.

Local Open Scope Z_scope.

(* ================================================================== *)
(** * Python values *)

Module Py.

(** A [str] is a sequence of Unicode code points, [bytes] a sequence of
    octets. *)
Definition pystr := list N.
Definition pybytes := list N.

(** An ASCII literal of the source as a [str]. *)
Definition lit (s : string) : pystr := map N_of_ascii (list_ascii_of_string s).

(** The exceptions the modelled code raises or catches.  A [ValueError]
    carries the fixed part of its message. *)
Inductive pyexn : Type :=
| TypeError
| ValueError (msg : string)
| OverflowError
| UnicodeEncodeError
| AttributeError
| KeyError
| FileNotFoundError.

Inductive result (A : Type) : Type :=
| Ok (a : A)
| Raise (e : pyexn).
Arguments Ok {A} a.
Arguments Raise {A} e.

Definition bind {A B} (r : result A) (k : A -> result B) : result B :=
  match r with
  | Ok a => k a
  | Raise e => Raise e
  end.

Definition raises {A} (r : result A) : bool :=
  match r with
  | Ok _ => false
  | Raise _ => true
  end.

(** The values [json.load] builds, and [PyOpaque]: an instance of a class
    with [object]'s default behaviour (compared by identity, always true,
    unordered, no [__int__], no rule in the JSON encoder).  A [dict] keeps
    its items in insertion order; its keys are [str], as in every mapping
    read from a JSON file, and pairwise distinct. *)
#[local] Set Warnings "-register-all".
Inductive pyvalue : Type :=
| PyNone
| PyBool (b : bool)
| PyInt (z : Z)
| PyFloat (f : spec_float)
| PyStr (s : pystr)
| PyList (l : list pyvalue)
| PyDict (d : list (pystr * pyvalue))
| PyOpaque (ident : nat).

Definition pydict := list (pystr * pyvalue).

(** ** Strings *)

Fixpoint str_eqb (s t : pystr) : bool :=
  match s, t with
  | [], [] => true
  | c :: s', d :: t' => (c =? d)%N && str_eqb s' t'
  | _, _ => false
  end.

(** [s <= t] on [str]: lexicographic on code points. *)
Fixpoint str_leb (s t : pystr) : bool :=
  match s, t with
  | [], _ => true
  | _ :: _, [] => false
  | c :: s', d :: t' =>
      if (c <? d)%N then true
      else if (c =? d)%N then str_leb s' t'
      else false
  end.

Definition str_endswith_char (s : pystr) (c : N) : bool :=
  match rev s with
  | [] => false
  | d :: _ => (d =? c)%N
  end.

Definition str_contains_char (s : pystr) (c : N) : bool :=
  existsb (fun d => (d =? c)%N) s.

(** ** Dictionaries *)

Fixpoint dict_lookup (d : pydict) (k : pystr) : option pyvalue :=
  match d with
  | [] => None
  | (k', v) :: r => if str_eqb k' k then Some v else dict_lookup r k
  end.

(** [d.get(k)] *)
Definition dict_get (d : pydict) (k : pystr) : pyvalue :=
  match dict_lookup d k with
  | Some v => v
  | None => PyNone
  end.

(** [d[k]] *)
Definition dict_item (d : pydict) (k : pystr) : result pyvalue :=
  match dict_lookup d k with
  | Some v => Ok v
  | None => Raise KeyError
  end.

(** [d[k] = v]: a present key keeps its place, a new one goes last. *)
Fixpoint dict_set (d : pydict) (k : pystr) (v : pyvalue) : pydict :=
  match d with
  | [] => [(k, v)]
  | (k', v') :: r =>
      if str_eqb k' k then (k', v) :: r else (k', v') :: dict_set r k v
  end.

(** ** Numbers

    [bool], [int] and [float] compare with one another by exact value.  A
    finite number is [m * 2^e]. *)
Inductive pynum : Type :=
| NumNaN
| NumInf (neg : bool)
| NumFin (m e : Z).

Definition num_of_float (f : spec_float) : pynum :=
  match f with
  | S754_zero _ => NumFin 0 0
  | S754_infinity s => NumInf s
  | S754_nan => NumNaN
  | S754_finite s m e => NumFin (if s then Z.neg m else Z.pos m) e
  end.

Definition num_of (v : pyvalue) : option pynum :=
  match v with
  | PyBool b => Some (NumFin (if b then 1 else 0) 0)
  | PyInt z => Some (NumFin z 0)
  | PyFloat f => Some (num_of_float f)
  | _ => None
  end.

(** [None] when one side is a NaN. *)
Definition num_compare (a b : pynum) : option comparison :=
  match a, b with
  | NumNaN, _ | _, NumNaN => None
  | NumInf s, NumInf t =>
      Some (if s then (if t then Eq else Lt) else (if t then Gt else Eq))
  | NumInf s, NumFin _ _ => Some (if s then Lt else Gt)
  | NumFin _ _, NumInf t => Some (if t then Gt else Lt)
  | NumFin m1 e1, NumFin m2 e2 =>
      let e := Z.min e1 e2 in
      Some (Z.compare (m1 * 2 ^ (e1 - e)) (m2 * 2 ^ (e2 - e)))
  end.

Definition num_eqb (a b : pynum) : bool :=
  match num_compare a b with
  | Some Eq => true
  | _ => false
  end.

Definition num_leb (a b : pynum) : bool :=
  match num_compare a b with
  | Some Eq | Some Lt => true
  | _ => false
  end.

Definition is_nan (v : pyvalue) : bool :=
  match v with
  | PyFloat S754_nan => true
  | _ => false
  end.

(** ** Comparison

    [a == b].  Inside a container two items are first compared by identity;
    the JSON decoder returns its one NaN object for every [NaN] it reads, so
    two NaN items are the same object there. *)
Fixpoint py_eq (a b : pyvalue) {struct a} : bool :=
  match a with
  | PyNone => match b with PyNone => true | _ => false end
  | PyStr s => match b with PyStr t => str_eqb s t | _ => false end
  | PyOpaque i => match b with PyOpaque j => Nat.eqb i j | _ => false end
  | PyList l =>
      match b with
      | PyList m =>
          (fix items (l m : list pyvalue) : bool :=
             match l, m with
             | [], [] => true
             | x :: l', y :: m' =>
                 ((is_nan x && is_nan y) || py_eq x y) && items l' m'
             | _, _ => false
             end) l m
      | _ => false
      end
  | PyDict d =>
      match b with
      | PyDict d' =>
          Nat.eqb (length d) (length d') &&
          (fix items (d : list (pystr * pyvalue)) : bool :=
             match d with
             | [] => true
             | (k, x) :: r =>
                 match dict_lookup d' k with
                 | Some y => ((is_nan x && is_nan y) || py_eq x y) && items r
                 | None => false
                 end
             end) d
      | _ => false
      end
  | PyBool _ | PyInt _ | PyFloat _ =>
      match num_of a, num_of b with
      | Some x, Some y => num_eqb x y
      | _, _ => false
      end
  end.

Definition same_item (x y : pyvalue) : bool :=
  (is_nan x && is_nan y) || py_eq x y.

(** [a <= b]; a [TypeError] where the operand types have no order. *)
Fixpoint py_le (a b : pyvalue) {struct a} : result bool :=
  match a with
  | PyStr s => match b with PyStr t => Ok (str_leb s t) | _ => Raise TypeError end
  | PyList l =>
      match b with
      | PyList m =>
          (fix items (l m : list pyvalue) : result bool :=
             match l, m with
             | [], _ => Ok true
             | _ :: _, [] => Ok false
             | x :: l', y :: m' =>
                 if same_item x y then items l' m' else py_le x y
             end) l m
      | _ => Raise TypeError
      end
  | PyBool _ | PyInt _ | PyFloat _ =>
      match num_of a, num_of b with
      | Some x, Some y => Ok (num_leb x y)
      | _, _ => Raise TypeError
      end
  | PyNone | PyDict _ | PyOpaque _ => Raise TypeError
  end.

(** Truth value, as [not v] and [if v] test it. *)
Definition truthy (v : pyvalue) : bool :=
  match v with
  | PyNone => false
  | PyBool b => b
  | PyInt z => negb (z =? 0)
  | PyFloat f => match f with S754_zero _ => false | _ => true end
  | PyStr s => match s with [] => false | _ => true end
  | PyList l => match l with [] => false | _ => true end
  | PyDict d => match d with [] => false | _ => true end
  | PyOpaque _ => true
  end.

(** [isinstance(v, str) and v] *)
Definition nonempty_str (v : pyvalue) : bool :=
  match v with
  | PyStr (_ :: _) => true
  | _ => false
  end.

Definition is_dict (v : pyvalue) : bool :=
  match v with
  | PyDict _ => true
  | _ => false
  end.

(** [v.get(k)], an [AttributeError] on values that have no [get]. *)
Definition value_get (v : pyvalue) (k : pystr) : result pyvalue :=
  match v with
  | PyDict d => Ok (dict_get d k)
  | _ => Raise AttributeError
  end.

(** ** What the model takes from the interpreter

    - [float_repr]: [float.__repr__] on a finite float (ASCII text);
    - [hashlib_new]: [hashlib.new(name)], [None] for a name it rejects,
      otherwise the digest as [update] followed by [hexdigest] computes it;
    - [int_of_str]: [int(s)] on a [str], [None] when it does not parse. *)
Class Runtime : Type := {
  float_repr : spec_float -> string;
  hashlib_new : pystr -> option (pybytes -> result string);
  int_of_str : pystr -> option Z
}.

(** [int(v)] *)
Definition py_int `{Runtime} (v : pyvalue) : result Z :=
  match v with
  | PyInt z => Ok z
  | PyBool b => Ok (if b then 1 else 0)
  | PyFloat f =>
      match f with
      | S754_zero _ => Ok 0
      | S754_infinity _ => Raise OverflowError
      | S754_nan => Raise (ValueError "cannot convert float NaN to integer")
      | S754_finite s m e =>
          let a := if 0 <=? e then Z.pos m * 2 ^ e else Z.pos m / 2 ^ (- e) in
          Ok (if s then - a else a)
      end
  | PyStr s =>
      match int_of_str s with
      | Some z => Ok z
      | None => Raise (ValueError "invalid literal for int()")
      end
  | PyNone | PyList _ | PyDict _ | PyOpaque _ => Raise TypeError
  end.

End Py.

Import Py.

Declare Scope py_scope.
Delimit Scope py_scope with py.
Notation "x <- r ;; k" := (bind r (fun x => k))
  (at level 61, r at next level, right associativity) : py_scope.
Local Open Scope py_scope.

(* ================================================================== *)
(** * The JSON encoder, as the scripts call it

    [json.dumps(obj, sort_keys=True, ensure_ascii=False, separators=(",", ":"))]
    followed by [str.encode("utf-8")].  Every other option keeps its default,
    [allow_nan=True] among them. *)

Module Json.

Definition hex_digit (n : N) : N := (if n <? 10 then 48 + n else 87 + n)%N.

(** One character of a string literal: the two-character escapes, [\u00xx]
    for the other control characters, everything else as it is. *)
Definition escape_char (c : N) : pystr :=
  (if c =? 34 then [92; 34]
   else if c =? 92 then [92; 92]
   else if c =? 8 then [92; 98]
   else if c =? 12 then [92; 102]
   else if c =? 10 then [92; 110]
   else if c =? 13 then [92; 114]
   else if c =? 9 then [92; 116]
   else if c <? 32 then [92; 117; 48; 48; hex_digit (c / 16); hex_digit (c mod 16)]
   else [c])%N.

Definition encode_basestring (s : pystr) : pystr :=
  (34%N :: flat_map escape_char s) ++ [34%N].

(** [int.__repr__] *)
Definition int_repr (z : Z) : pystr := lit (NilZero.string_of_int (Z.to_int z)).

(** The encoder's [floatstr] with [allow_nan] on. *)
Definition floatstr `{Runtime} (f : spec_float) : pystr :=
  match f with
  | S754_nan => lit "NaN"
  | S754_infinity false => lit "Infinity"
  | S754_infinity true => lit "-Infinity"
  | _ => lit (float_repr f)
  end.

(** [sorted(dct.items())]: the keys of a dict are distinct, so the order is
    the order of the keys. *)
Fixpoint insert_item {V} (kv : pystr * V) (l : list (pystr * V)) : list (pystr * V) :=
  match l with
  | [] => [kv]
  | x :: r =>
      if str_leb (fst kv) (fst x) then kv :: l else x :: insert_item kv r
  end.

Definition sort_items {V} (l : list (pystr * V)) : list (pystr * V) :=
  fold_right insert_item [] l.

Fixpoint join (sep : pystr) (parts : list pystr) : pystr :=
  match parts with
  | [] => []
  | [p] => p
  | p :: rest => p ++ sep ++ join sep rest
  end.

(** The first exception of a run of encodings, or all their texts. *)
Fixpoint sequence {A} (l : list (result A)) : result (list A) :=
  match l with
  | [] => Ok []
  | r :: rest => x <- r ;; xs <- sequence rest ;; Ok (x :: xs)
  end.

Definition dict_field (kv : pystr * result pystr) : result pystr :=
  v <- snd kv ;; Ok (encode_basestring (fst kv) ++ lit ":" ++ v).

Section Dumps.
Context `{Runtime}.

(** The encoder visits the items of a dict in sorted order; the texts of
    the values are computed first here and sorted with their keys, which
    raises the same exception and gives the same text. *)
Fixpoint dumps (v : pyvalue) : result pystr :=
  match v with
  | PyNone => Ok (lit "null")
  | PyBool true => Ok (lit "true")
  | PyBool false => Ok (lit "false")
  | PyInt z => Ok (int_repr z)
  | PyFloat f => Ok (floatstr f)
  | PyStr s => Ok (encode_basestring s)
  | PyList l =>
      parts <- sequence (map dumps l) ;;
      Ok (lit "[" ++ join (lit ",") parts ++ lit "]")
  | PyDict d =>
      let encoded := map (fun kv => (fst kv, dumps (snd kv))) d in
      fields <- sequence (map dict_field (sort_items encoded)) ;;
      Ok (lit "{" ++ join (lit ",") fields ++ lit "}")
  | PyOpaque _ => Raise TypeError
  end.
End Dumps.

(** UTF-8; a surrogate code point has no encoding.  The code points of a
    [str] are below 0x110000, so the last case takes four bytes. *)
Definition utf8_char (c : N) : result pybytes :=
  (if c <? 128 then Ok [c]
   else if c <? 2048 then
     Ok [N.lor 192 (N.shiftr c 6); N.lor 128 (N.land c 63)]
   else if c <? 65536 then
     if (55296 <=? c) && (c <=? 57343) then Raise UnicodeEncodeError
     else Ok [N.lor 224 (N.shiftr c 12);
              N.lor 128 (N.land (N.shiftr c 6) 63);
              N.lor 128 (N.land c 63)]
   else
     Ok [N.lor 240 (N.shiftr c 18);
         N.lor 128 (N.land (N.shiftr c 12) 63);
         N.lor 128 (N.land (N.shiftr c 6) 63);
         N.lor 128 (N.land c 63)])%N.

Definition encode_utf8 (s : pystr) : result pybytes :=
  chunks <- sequence (map utf8_char s) ;; Ok (concat chunks).

End Json.

(* ================================================================== *)
(** * hash_event.py *)

Module HashEvent.
Section WithRuntime.
Context `{Runtime}.

Definition canonical_serialize (event_data : pyvalue) : result pybytes :=
  canonical_str <- Json.dumps event_data ;;
  Json.encode_utf8 canonical_str.

Definition hash_event (event_data : pyvalue) (algorithm : pystr)
  : result string :=
  data_bytes <- canonical_serialize event_data ;;
  match hashlib_new algorithm with
  | None => Raise (ValueError "Unsupported hash algorithm")
  | Some h => h data_bytes
  end.
End WithRuntime.
End HashEvent.

(* ================================================================== *)
(** * hash_challenge.py *)

Module HashChallenge.
Section WithRuntime.
Context `{Runtime}.

Definition canonical_serialize (challenge_data : pyvalue) : result pybytes :=
  canonical_str <- Json.dumps challenge_data ;;
  Json.encode_utf8 canonical_str.

Definition hash_challenge (challenge_data : pyvalue) (algorithm : pystr)
  : result string :=
  data_bytes <- canonical_serialize challenge_data ;;
  match hashlib_new algorithm with
  | None => Raise (ValueError "Unsupported hash algorithm")
  | Some h => h data_bytes
  end.
End WithRuntime.
End HashChallenge.

Definition sha256_name : pystr := lit "sha256".

(* ================================================================== *)
(** * Programs with a state and exceptions

    The verifiers write to the standard streams and
    [append_coc_entry] updates the log it is given: [prog S A] threads a
    state [S] (the lines written so far, or the log) and ends with a value
    or an exception.  The state an exception leaves behind is kept. *)

Module Prog.

Definition prog (S A : Type) : Type := S -> S * result A.

Definition ret {S A} (a : A) : prog S A := fun s => (s, Ok a).

Definition raise {S A} (e : pyexn) : prog S A := fun s => (s, Raise e).

Definition pbind {S A B} (p : prog S A) (k : A -> prog S B) : prog S B :=
  fun s =>
    match p s with
    | (s', Ok a) => k a s'
    | (s', Raise e) => (s', Raise e)
    end.

Definition lift {S A} (r : result A) : prog S A := fun s => (s, r).

Definition gets {S A} (f : S -> A) : prog S A := fun s => (s, Ok (f s)).

Definition modify {S} (f : S -> S) : prog S unit := fun s => (f s, Ok tt).

(** One line on a stream. *)
Definition write {M} (m : M) : prog (list M) unit := modify (fun out => out ++ [m]).

End Prog.

Import Prog.

Declare Scope prog_scope.
Delimit Scope prog_scope with prog.
Notation "x <- p ;; k" := (pbind p (fun x => k))
  (at level 61, p at next level, right associativity) : prog_scope.
Notation "p ;; k" := (pbind p (fun _ => k))
  (at level 61, right associativity) : prog_scope.

(** The file a path names: absent, not JSON, or a JSON document. *)
Inductive file_state : Type :=
| NoFile
| BadJson
| JsonFile (content : pyvalue).

(** A directory of records, by the identifier [id] of its file [<id>.json]. *)
Definition directory : Type := pyvalue -> file_state.

Definition is_none (v : pyvalue) : bool :=
  match v with
  | PyNone => true
  | _ => false
  end.

Definition Index_Seq : pystr := lit "Index_Seq".
Definition Event_ID : pystr := lit "Event_ID".
Definition Event_Hash : pystr := lit "Event_Hash".
Definition Hash : pystr := lit "Hash".

(* ================================================================== *)
(** * verify_index.py *)

Module VerifyIndex.

(** The lines [verify_index_sequence] returns, by the values they print. *)
Inductive finding : Type :=
| IndexSeqError (expected : Z) (found : pyvalue) (event_id : pyvalue).

(** One turn of the loop, on the variables [errors] and [expected].
    [isinstance(seq, int)] holds of an [int] and of a [bool]; either is
    an [int] again after the increment. *)
Definition sequence_turn (st : list finding * Z) (entry : pydict)
  : list finding * Z :=
  let '(errors, expected) := st in
  let seq := dict_get entry Index_Seq in
  let '(errors, expected) :=
    if negb (py_eq seq (PyInt expected)) then
      (errors ++ [IndexSeqError expected seq (dict_get entry Event_ID)],
       match seq with
       | PyInt z => z
       | PyBool b => if b then 1 else 0
       | _ => expected
       end)
    else (errors, expected) in
  (errors, expected + 1).

Definition verify_index_sequence (index_data : list pydict) : list finding :=
  fst (fold_left sequence_turn index_data ([], 1)).

Definition load_json_file (path : file_state) : result pyvalue :=
  match path with
  | NoFile => Raise FileNotFoundError
  | BadJson => Raise (ValueError "Invalid JSON in file")
  | JsonFile v => Ok v
  end.

(** The lines [verify_index_hashes] returns, by the values they print. *)
Inductive hash_finding : Type :=
| MissingIdOrHash (entry : pydict)
| EventUnreadable (event_id : pyvalue) (exc : pyexn)
| HashError (event_id : pyvalue) (exc : pyexn)
| HashMismatch (event_id expected_hash : pyvalue) (computed_hash : string).

(** The entries of an index as the loops read them: [entry.get] raises an
    [AttributeError] at the first entry that is no mapping, before any line
    is written. *)
Fixpoint as_entries (index_data : list pyvalue) : result (list pydict) :=
  match index_data with
  | [] => Ok []
  | PyDict d :: rest => entries <- as_entries rest ;; Ok (d :: entries)
  | _ :: _ => Raise AttributeError
  end.

(** What [main] writes: an error of its own, or the verdict with the lines
    of the two audits (sequence first). *)
Inductive report : Type :=
| LoadError (exc : pyexn)
| NotAnArray
| Failed (seq_errors : list finding) (hash_errors : list hash_finding)
| Passed.

Section WithRuntime.
Context `{Runtime}.

(** One turn of the loop of [verify_index_hashes]: the lines it adds. *)
Definition hash_entry_errors (events_dir : directory) (algo : pystr)
    (entry : pydict) : list hash_finding :=
  let event_id := dict_get entry Event_ID in
  let expected_hash := dict_get entry Hash in
  if negb (truthy event_id) || negb (truthy expected_hash) then
    [MissingIdOrHash entry]
  else
    match load_json_file (events_dir event_id) with
    | Raise exc => [EventUnreadable event_id exc]
    | Ok event_data =>
        match HashEvent.hash_event event_data algo with
        | Raise exc => [HashError event_id exc]
        | Ok computed_hash =>
            if negb (py_eq (PyStr (lit computed_hash)) expected_hash)
            then [HashMismatch event_id expected_hash computed_hash]
            else []
        end
    end.

Definition verify_index_hashes (index_data : list pydict) (events_dir : directory)
    (algo : pystr) : list hash_finding :=
  fold_left (fun errors entry => errors ++ hash_entry_errors events_dir algo entry)
    index_data [].

(** [main], after the arguments are parsed: the index file, the directory
    of the events and the algorithm name.  It returns what it wrote and its
    exit code. *)
Definition main (index_file : file_state) (events_dir : directory)
    (algorithm : pystr) : result (report * Z) :=
  match load_json_file index_file with
  | Raise exc => Ok (LoadError exc, 1)
  | Ok index_data =>
      match index_data with
      | PyList items =>
          entries <- as_entries items ;;
          let seq_errors := verify_index_sequence entries in
          let hash_errors := verify_index_hashes entries events_dir algorithm in
          match seq_errors, hash_errors with
          | [], [] => Ok (Passed, 0)
          | _, _ => Ok (Failed seq_errors hash_errors, 1)
          end
      | _ => Ok (NotAnArray, 1)
      end
  end.
End WithRuntime.

End VerifyIndex.

(* ================================================================== *)
(** * verify_ledger_inntegrity.py *)

Module VerifyLedger.

Definition Challenge_ID : pystr := lit "Challenge_ID".
Definition Challenged_Event_ID : pystr := lit "Challenged_Event_ID".

(** The lines of the audit, by the values they print. *)
Inductive finding : Type :=
| SeqError (label : string) (expected : Z) (found : pyvalue) (entry : pydict)
| MissingIdOrHash (entry : pydict)
| MissingFile (challenge_id : pyvalue)
| LoadFailed (challenge_id : pyvalue) (exc : pyexn)
| HashFailed (challenge_id : pyvalue) (exc : pyexn)
| HashMismatch (challenge_id index_hash : pyvalue) (computed_hash : string)
| DanglingReference (challenged_event_id challenge_id : pyvalue).

Definition load_json_file (path : file_state) : result pyvalue :=
  match path with
  | NoFile => Raise FileNotFoundError
  | BadJson => Raise (ValueError "Invalid JSON in file")
  | JsonFile v => Ok v
  end.

Definition path_exists (path : file_state) : bool :=
  match path with
  | NoFile => false
  | _ => true
  end.

Section WithRuntime.
Context `{Runtime}.

(** One turn of the loop, on the variables [errors] and [expected]. *)
Definition sequence_turn (label : string) (st : list finding * Z)
    (entry : pydict) : list finding * Z :=
  let '(errors, expected) := st in
  let seq := dict_get entry Index_Seq in
  let '(errors, expected) :=
    if negb (py_eq seq (PyInt expected)) then
      (errors ++ [SeqError label expected seq entry],
       match py_int seq with
       | Ok z => z
       | Raise _ => expected
       end)
    else (errors, expected) in
  (errors, expected + 1).

Definition verify_index_sequence (index_data : list pydict) (label : string)
  : list finding :=
  fst (fold_left (sequence_turn label) index_data ([], 1)).

(** One turn of the loop of [verify_challenge_index]: the lines it adds. *)
Definition challenge_entry_errors (challenges_dir : directory)
    (known_event_ids : list pystr) (entry : pydict) : list finding :=
  let challenge_id := dict_get entry Challenge_ID in
  let index_hash := dict_get entry Hash in
  let challenged_event_id := dict_get entry Challenged_Event_ID in
  if negb (truthy challenge_id) || negb (truthy index_hash) then
    [MissingIdOrHash entry]
  else
    let challenge_file := challenges_dir challenge_id in
    if negb (path_exists challenge_file) then [MissingFile challenge_id]
    else
      match load_json_file challenge_file with
      | Raise exc => [LoadFailed challenge_id exc]
      | Ok challenge_data =>
          match HashChallenge.hash_challenge challenge_data sha256_name with
          | Raise exc => [HashFailed challenge_id exc]
          | Ok computed_hash =>
              (if negb (py_eq (PyStr (lit computed_hash)) index_hash)
               then [HashMismatch challenge_id index_hash computed_hash]
               else [])
              ++
              (if truthy challenged_event_id &&
                  negb (existsb (fun k => py_eq (PyStr k) challenged_event_id)
                          known_event_ids)
               then [DanglingReference challenged_event_id challenge_id]
               else [])
          end
      end.

Definition verify_challenge_index (index_data : list pydict)
    (challenges_dir : directory) (known_event_ids : list pystr) : list finding :=
  let errors := verify_index_sequence index_data "CHALLENGE_INDEX" in
  fold_left
    (fun errors entry =>
       errors ++ challenge_entry_errors challenges_dir known_event_ids entry)
    index_data errors.

(** One turn of the loop of [verify_event_index]: the lines it adds (the
    constructors stand for the lines of either ledger; [main] keeps them
    apart). *)
Definition event_entry_errors (events_dir : directory) (entry : pydict)
  : list finding :=
  let event_id := dict_get entry Event_ID in
  let index_hash := dict_get entry Hash in
  if negb (truthy event_id) || negb (truthy index_hash) then
    [MissingIdOrHash entry]
  else
    let event_file := events_dir event_id in
    if negb (path_exists event_file) then [MissingFile event_id]
    else
      match load_json_file event_file with
      | Raise exc => [LoadFailed event_id exc]
      | Ok event_data =>
          match HashEvent.hash_event event_data sha256_name with
          | Raise exc => [HashFailed event_id exc]
          | Ok computed_hash =>
              if negb (py_eq (PyStr (lit computed_hash)) index_hash)
              then [HashMismatch event_id index_hash computed_hash]
              else []
          end
      end.

Definition verify_event_index (index_data : list pydict) (events_dir : directory)
  : list finding :=
  let errors := verify_index_sequence index_data "EVENT_INDEX" in
  fold_left (fun errors entry => errors ++ event_entry_errors events_dir entry)
    index_data errors.

(** The two [try] blocks of [main]: the entries of an index file, or no
    entry and the line of the error. *)
Definition load_index (index_file : file_state) : list pyvalue * list pyexn :=
  match load_json_file index_file with
  | Raise exc => ([], [exc])
  | Ok (PyList items) => (items, [])
  | Ok _ => ([], [ValueError "index file must contain a JSON array"])
  end.

(** [entry.get("Event_ID")] of the entries where it is a [str]. *)
Definition known_event_ids_of (event_index_data : list pydict) : list pystr :=
  flat_map
    (fun entry =>
       match dict_get entry Event_ID with
       | PyStr s => [s]
       | _ => []
       end) event_index_data.

(** The entries of an index as the loops read them: [entry.get] raises an
    [AttributeError] at the first entry that is no mapping; nothing has been
    written by then, [main] writes at its end only. *)
Fixpoint as_entries (index_data : list pyvalue) : result (list pydict) :=
  match index_data with
  | [] => Ok []
  | PyDict d :: rest => entries <- as_entries rest ;; Ok (d :: entries)
  | _ :: _ => Raise AttributeError
  end.

(** The lines of [overall_errors], in their order: the load errors of the
    event and of the challenge index, the findings on the events, the
    findings on the challenges. *)
Record audit : Type := {
  event_load_errors : list pyexn;
  challenge_load_errors : list pyexn;
  event_errors : list finding;
  challenge_errors : list finding
}.

Definition audit_clean (a : audit) : bool :=
  match event_load_errors a, challenge_load_errors a,
        event_errors a, challenge_errors a with
  | [], [], [], [] => true
  | _, _, _, _ => false
  end.

(** [main], after the arguments are parsed.  It returns the lines it
    collected and its exit code. *)
Definition main (event_index_file challenge_index_file : file_state)
    (events_dir challenges_dir : directory) : result (audit * Z) :=
  let '(event_items, event_load) := load_index event_index_file in
  let '(challenge_items, challenge_load) := load_index challenge_index_file in
  event_index_data <- as_entries event_items ;;
  let on_events :=
    match event_index_data with
    | [] => []
    | _ => verify_event_index event_index_data events_dir
    end in
  let known_event_ids := known_event_ids_of event_index_data in
  challenge_index_data <- as_entries challenge_items ;;
  let on_challenges :=
    match challenge_index_data with
    | [] => []
    | _ => verify_challenge_index challenge_index_data challenges_dir known_event_ids
    end in
  let overall :=
    {| event_load_errors := event_load;
       challenge_load_errors := challenge_load;
       event_errors := on_events;
       challenge_errors := on_challenges |} in
  Ok (overall, if audit_clean overall then 0 else 1).
End WithRuntime.

End VerifyLedger.

(* ================================================================== *)
(** * verify_bundle.py *)

Module VerifyBundle.

Local Open Scope prog_scope.

(** The imports of [hash_event] and [hash_challenge] are taken to succeed.
    The lines written: [Err...] to the standard error, [Ok...] to the
    standard output. *)
Inductive message : Type :=
| ErrRecord
| ErrHash
| ErrCompute (exc : pyexn)
| ErrHashMismatch (bundle_hash : pyvalue) (computed_hash : string)
| OkHashMatches
| ErrIndexHashMismatch (idx_hash bundle_hash : pyvalue)
| OkIndexHashMatches.

Definition is_error (m : message) : bool :=
  match m with
  | OkHashMatches | OkIndexHashMatches => false
  | _ => true
  end.

(** What a run reports: its lines on the standard error. *)
Definition findings (out : list message) : list message := filter is_error out.

Definition load_json_file (path : file_state) : result pyvalue :=
  match path with
  | NoFile => Raise FileNotFoundError
  | BadJson => Raise (ValueError "Invalid JSON in file")
  | JsonFile v => Ok v
  end.

Definition Bundle_Type : pystr := lit "Bundle_Type".
Definition event_bundle_type : pyvalue := PyStr (lit "PLRS_Event_Evidence_Bundle").
Definition challenge_bundle_type : pyvalue :=
  PyStr (lit "PLRS_Challenge_Evidence_Bundle").

(** The lines of [main]: those of the verification, and its own. *)
Inductive main_line : Type :=
| Reported (m : message)
| ErrLoad (exc : pyexn)
| ErrBundleType (bundle_type : pyvalue)
| ResultFailed
| ResultPassed.

(** The end of [main], from the run of the verification. *)
Definition conclude (run : list message * result bool) : list main_line * result Z :=
  match run with
  | (out, Raise exc) => (map Reported out, Raise exc)
  | (out, Ok ok) =>
      if negb ok then (map Reported out ++ [ResultFailed], Ok 1)
      else (map Reported out ++ [ResultPassed], Ok 0)
  end.

Section WithRuntime.
Context `{Runtime}.

Definition verify_event_bundle (bundle : pydict) : prog (list message) bool :=
  let ok := true in
  let event := dict_get bundle (lit "Event") in
  let bundle_hash := dict_get bundle (lit "Event_Hash") in
  let index_entry := dict_get bundle (lit "Index_Entry") in
  ok <- (if negb (is_dict event) then write ErrRecord ;; ret false else ret ok) ;;
  ok <- (if negb (nonempty_str bundle_hash) then write ErrHash ;; ret false
         else ret ok) ;;
  if negb ok then ret false
  else
    match HashEvent.hash_event event sha256_name with
    | Raise exc => write (ErrCompute exc) ;; ret false
    | Ok computed_hash =>
        ok <- (if negb (py_eq (PyStr (lit computed_hash)) bundle_hash)
               then write (ErrHashMismatch bundle_hash computed_hash) ;; ret false
               else write OkHashMatches ;; ret ok) ;;
        ok <- (if negb (is_none index_entry) then
                 idx_hash <- lift (value_get index_entry Hash) ;;
                 if negb (py_eq idx_hash bundle_hash)
                 then write (ErrIndexHashMismatch idx_hash bundle_hash) ;; ret false
                 else write OkIndexHashMatches ;; ret ok
               else ret ok) ;;
        ret ok
    end.

Definition verify_challenge_bundle (bundle : pydict) : prog (list message) bool :=
  let ok := true in
  let challenge := dict_get bundle (lit "Challenge") in
  let bundle_hash := dict_get bundle (lit "Challenge_Hash") in
  let index_entry := dict_get bundle (lit "Index_Entry") in
  ok <- (if negb (is_dict challenge) then write ErrRecord ;; ret false
         else ret ok) ;;
  ok <- (if negb (nonempty_str bundle_hash) then write ErrHash ;; ret false
         else ret ok) ;;
  if negb ok then ret false
  else
    match HashChallenge.hash_challenge challenge sha256_name with
    | Raise exc => write (ErrCompute exc) ;; ret false
    | Ok computed_hash =>
        ok <- (if negb (py_eq (PyStr (lit computed_hash)) bundle_hash)
               then write (ErrHashMismatch bundle_hash computed_hash) ;; ret false
               else write OkHashMatches ;; ret ok) ;;
        ok <- (if negb (is_none index_entry) then
                 idx_hash <- lift (value_get index_entry Hash) ;;
                 if negb (py_eq idx_hash bundle_hash)
                 then write (ErrIndexHashMismatch idx_hash bundle_hash) ;; ret false
                 else write OkIndexHashMatches ;; ret ok
               else ret ok) ;;
        ret ok
    end.

(** [main], after the argument is parsed: what it wrote, and its exit code.
    A file that does not hold a mapping has no [get]. *)
Definition main (bundle_file : file_state) : list main_line * result Z :=
  match load_json_file bundle_file with
  | Raise exc => ([ErrLoad exc], Ok 1)
  | Ok bundle =>
      match bundle with
      | PyDict d =>
          let bundle_type :=
            match dict_lookup d Bundle_Type with
            | Some v => v
            | None => PyStr []
            end in
          if py_eq bundle_type event_bundle_type then
            conclude (verify_event_bundle d [])
          else if py_eq bundle_type challenge_bundle_type then
            conclude (verify_challenge_bundle d [])
          else ([ErrBundleType bundle_type], Ok 1)
      | _ => ([], Raise AttributeError)
      end
  end.
End WithRuntime.

End VerifyBundle.

(* ================================================================== *)
(** * verify_chain_of_custody.py *)

Module VerifyCustody.

Local Open Scope prog_scope.

Definition Chain_Of_Custody : pystr := lit "Chain_Of_Custody".
Definition Entry_Timestamp_UTC : pystr := lit "Entry_Timestamp_UTC".
Definition Holder_Name : pystr := lit "Holder_Name".
Definition Holder_Role : pystr := lit "Holder_Role".
Definition Action : pystr := lit "Action".

(** The lines written; [i] is the number of the entry, from 1. *)
Inductive message : Type :=
| ErrEventId
| ErrEventHash
| ErrNotAList
| ErrTimestamp (i : Z) (ts : pyvalue)
| ErrHolderName (i : Z)
| ErrHolderRole (i : Z)
| ErrAction (i : Z)
| ErrOrder (i : Z)
| OkVerified.

Definition is_error (m : message) : bool :=
  match m with
  | OkVerified => false
  | _ => true
  end.

Definition findings (out : list message) : list message := filter is_error out.

Definition is_valid_utc_z (ts : pyvalue) : bool :=
  match ts with
  | PyStr s => str_endswith_char s 90 && str_contains_char s 84
  | _ => false
  end.

(** The [for] loop of [verify_chain_of_custody], from entry [i] on. *)
Fixpoint scan_entries (coc_entries : list pyvalue) (i : Z) (ok : bool)
    (last_ts : pyvalue) : prog (list message) bool :=
  match coc_entries with
  | [] => ret ok
  | entry :: rest =>
      ts <- lift (value_get entry Entry_Timestamp_UTC) ;;
      holder <- lift (value_get entry Holder_Name) ;;
      role <- lift (value_get entry Holder_Role) ;;
      action <- lift (value_get entry Action) ;;
      ok <- (if negb (is_valid_utc_z ts) then write (ErrTimestamp i ts) ;; ret false
             else ret ok) ;;
      ok <- (if negb (nonempty_str holder) then write (ErrHolderName i) ;; ret false
             else ret ok) ;;
      ok <- (if negb (nonempty_str role) then write (ErrHolderRole i) ;; ret false
             else ret ok) ;;
      ok <- (if negb (nonempty_str action) then write (ErrAction i) ;; ret false
             else ret ok) ;;
      ok <- (if negb (is_none last_ts) then
               not_later <- lift (py_le ts last_ts) ;;
               if not_later : bool then write (ErrOrder i) ;; ret false else ret ok
             else ret ok) ;;
      scan_entries rest (i + 1) ok ts
  end.

Definition verify_chain_of_custody (coc : pydict) : prog (list message) bool :=
  let ok := true in
  let event_id := dict_get coc Event_ID in
  let event_hash := dict_get coc Event_Hash in
  let coc_entries := dict_get coc Chain_Of_Custody in
  ok <- (if negb (nonempty_str event_id) then write ErrEventId ;; ret false
         else ret ok) ;;
  ok <- (if negb (nonempty_str event_hash) then write ErrEventHash ;; ret false
         else ret ok) ;;
  match coc_entries with
  | PyList entries =>
      ok <- scan_entries entries 1 ok PyNone ;;
      (if ok : bool then write OkVerified else ret tt) ;;
      ret ok
  | _ => write ErrNotAList ;; ret false
  end.

Definition load_json_file (path : file_state) : result pyvalue :=
  match path with
  | NoFile => Raise FileNotFoundError
  | BadJson => Raise (ValueError "Invalid JSON in file")
  | JsonFile v => Ok v
  end.

(** The lines of [main]: those of the verification, and its own. *)
Inductive main_line : Type :=
| Reported (m : message)
| ErrLoad (exc : pyexn)
| ResultFailed
| ResultPassed.

(** [main], after the argument is parsed: what it wrote, and its exit code.
    A file that does not hold a mapping has no [get]. *)
Definition main (coc_file : file_state) : list main_line * result Z :=
  match load_json_file coc_file with
  | Raise exc => ([ErrLoad exc], Ok 1)
  | Ok coc =>
      match coc with
      | PyDict d =>
          match verify_chain_of_custody d [] with
          | (out, Raise exc) => (map Reported out, Raise exc)
          | (out, Ok ok) =>
              if negb ok then (map Reported out ++ [ResultFailed], Ok 1)
              else (map Reported out ++ [ResultPassed], Ok 0)
          end
      | _ => ([], Raise AttributeError)
      end
  end.

End VerifyCustody.

(* ================================================================== *)
(** * export_chain_of_custody.py *)

Module ExportCustody.

Local Open Scope prog_scope.

Definition Evidence_Bundle_File : pystr := lit "Evidence_Bundle_File".

Definition record_identity_mismatch : pyexn :=
  ValueError "Chain of custody file is bound to another Event_ID".
Definition hash_identity_mismatch : pyexn :=
  ValueError "Event_Hash in chain of custody file does not match the provided Event hash".

(** [s or None] *)
Definition or_none (s : pystr) : pyvalue :=
  match s with
  | [] => PyNone
  | _ => PyStr s
  end.

(** [coc[k]], [coc[k] = v] and [coc.get(k)] on the log being updated. *)
Definition item (k : pystr) : prog pydict pyvalue :=
  fun coc => (coc, dict_item coc k).
Definition set_item (k : pystr) (v : pyvalue) : prog pydict unit :=
  modify (fun coc => dict_set coc k v).
Definition get (k : pystr) : prog pydict pyvalue :=
  gets (fun coc => dict_get coc k).

(** [now_utc] is the clock's reading, already formatted; [bundle_file] the
    path as text.  The program runs on the log [coc] and leaves it as the
    call leaves the dict it was given. *)
Definition append_coc_entry
    (event_id event_hash bundle_file holder_name holder_role action
     location notes now_utc : pystr) : prog pydict unit :=
  bound_id <- get Event_ID ;;
  (if is_none bound_id then set_item Event_ID (PyStr event_id)
   else
     current <- item Event_ID ;;
     if negb (py_eq current (PyStr event_id)) then raise record_identity_mismatch
     else ret tt) ;;
  bound_hash <- get Event_Hash ;;
  (if is_none bound_hash then set_item Event_Hash (PyStr event_hash)
   else
     current <- item Event_Hash ;;
     if negb (py_eq current (PyStr event_hash)) then raise hash_identity_mismatch
     else ret tt) ;;
  bound_file <- get Evidence_Bundle_File ;;
  (if is_none bound_file then set_item Evidence_Bundle_File (PyStr bundle_file)
   else ret tt) ;;
  let entry :=
    PyDict [(VerifyCustody.Entry_Timestamp_UTC, PyStr now_utc);
            (VerifyCustody.Holder_Name, PyStr holder_name);
            (VerifyCustody.Holder_Role, PyStr holder_role);
            (VerifyCustody.Action, PyStr action);
            (lit "Location", or_none location);
            (lit "Notes", or_none notes)] in
  entries <- item VerifyCustody.Chain_Of_Custody ;;
  match entries with
  | PyList l => set_item VerifyCustody.Chain_Of_Custody (PyList (l ++ [entry]))
  | _ => raise AttributeError
  end.

Definition load_json_file (path : file_state) : result pyvalue :=
  match path with
  | NoFile => Raise FileNotFoundError
  | BadJson => Raise (ValueError "Invalid JSON in file")
  | JsonFile v => Ok v
  end.

(** The structure [init_or_load_coc] starts a new log with. *)
Definition new_log : pydict :=
  [(lit "CoC_Version", PyStr (lit "1.0"));
   (Event_ID, PyNone);
   (Event_Hash, PyNone);
   (Evidence_Bundle_File, PyNone);
   (VerifyCustody.Chain_Of_Custody, PyList [])].

Definition init_or_load_coc (path : file_state) : result pydict :=
  match path with
  | NoFile => Ok new_log
  | _ =>
      (data <- load_json_file path ;;
       match data with
       | PyDict d =>
           match dict_lookup d VerifyCustody.Chain_Of_Custody with
           | None =>
               Raise (ValueError "Existing chain of custody file has invalid structure")
           | Some (PyList _) => Ok d
           | Some _ =>
               Raise (ValueError "Existing Chain_Of_Custody field must be a list")
           end
       | _ => Raise (ValueError "Existing chain of custody file has invalid structure")
       end)%py
  end.

End ExportCustody.

(* ================================================================== *)
(** * Notions of the specification *)

(** The same float: the same sign, mantissa and exponent, NaN with NaN. *)
Definition float_same (f g : spec_float) : bool :=
  match f, g with
  | S754_zero s, S754_zero t => Bool.eqb s t
  | S754_infinity s, S754_infinity t => Bool.eqb s t
  | S754_nan, S754_nan => true
  | S754_finite s m e, S754_finite t n d =>
      Bool.eqb s t && (m =? n)%positive && (e =? d)
  | _, _ => false
  end.

Fixpoint forall2b {A} (f : A -> A -> bool) (l m : list A) : bool :=
  match l, m with
  | [], [] => true
  | x :: l', y :: m' => f x y && forall2b f l' m'
  | _, _ => false
  end.

(** Two records equal as unordered key/value structures: the same value of
    the same type at a leaf, the same items in the same order in a list, and
    in a mapping the same keys with such values, in any order. *)
Fixpoint same_record (a b : pyvalue) {struct a} : bool :=
  match a with
  | PyNone => match b with PyNone => true | _ => false end
  | PyBool x => match b with PyBool y => Bool.eqb x y | _ => false end
  | PyInt x => match b with PyInt y => x =? y | _ => false end
  | PyFloat f => match b with PyFloat g => float_same f g | _ => false end
  | PyStr s => match b with PyStr t => str_eqb s t | _ => false end
  | PyOpaque i => match b with PyOpaque j => Nat.eqb i j | _ => false end
  | PyList l =>
      match b with
      | PyList m => forall2b same_record l m
      | _ => false
      end
  | PyDict d =>
      match b with
      | PyDict d' =>
          Nat.eqb (length d) (length d') &&
          forallb
            (fun kv =>
               match dict_lookup d' (fst kv) with
               | Some y => same_record (snd kv) y
               | None => false
               end) d
      | _ => false
      end
  end.

(** The order [sorted] puts the items of a mapping in. *)
Definition key_le {V : Type} (x y : pystr * V) : Prop :=
  str_leb (fst x) (fst y) = true.

Fixpoint distinct (keys : list pystr) : bool :=
  match keys with
  | [] => true
  | k :: r => negb (existsb (str_eqb k) r) && distinct r
  end.

(** The invariant of [dict]: no key twice, in the value and inside it. *)
Fixpoint distinct_keys (v : pyvalue) : bool :=
  match v with
  | PyList l => forallb distinct_keys l
  | PyDict d =>
      distinct (map fst d) && forallb (fun kv => distinct_keys (snd kv)) d
  | _ => true
  end.






(** The sequence audit in the specification's words: walk the entries with
    [expected]; report an entry whose [Index_Seq] differs from [expected];
    after a report, continue from the observed value when it is an integer
    (the words leave the other reported values open: [resume] is then any
    number); add one before the next entry in every case.  [report] builds
    the finding from the expected value, the value found and the entry. *)
Inductive SequenceAudit {F : Type} (report : Z -> pyvalue -> pydict -> F)
  : Z -> list pydict -> list F -> Prop :=
| audit_end (expected : Z) : SequenceAudit report expected [] []
| audit_pass (expected : Z) (entry : pydict) (rest : list pydict) (fs : list F) :
    py_eq (dict_get entry Index_Seq) (PyInt expected) = true ->
    SequenceAudit report (expected + 1) rest fs ->
    SequenceAudit report expected (entry :: rest) fs
| audit_gap (expected resume : Z) (entry : pydict) (rest : list pydict)
    (fs : list F) :
    py_eq (dict_get entry Index_Seq) (PyInt expected) = false ->
    (forall n, dict_get entry Index_Seq = PyInt n -> resume = n) ->
    SequenceAudit report (resume + 1) rest fs ->
    SequenceAudit report expected (entry :: rest)
      (report expected (dict_get entry Index_Seq) entry :: fs).

(** The finding [verify_index.py] builds for an entry. *)
Definition index_report (expected : Z) (found : pyvalue) (entry : pydict)
  : VerifyIndex.finding :=
  VerifyIndex.IndexSeqError expected found (dict_get entry Event_ID).

(** A reported gap, as both audits print it: expected, found, [Event_ID]. *)
Definition gap : Type := Z * pyvalue * pyvalue.

Definition index_gap (f : VerifyIndex.finding) : gap :=
  match f with
  | VerifyIndex.IndexSeqError expected found event_id => (expected, found, event_id)
  end.

Definition ledger_gaps (fs : list VerifyLedger.finding) : list gap :=
  flat_map
    (fun f =>
       match f with
       | VerifyLedger.SeqError _ expected found entry =>
           [(expected, found, dict_get entry Event_ID)]
       | _ => []
       end) fs.

(** An [Index_Seq] that is an [int], or that [int()] rejects. *)
Definition int_or_rejected `{Runtime} (v : pyvalue) : bool :=
  match v with
  | PyInt _ | PyBool _ => true
  | _ => raises (py_int v)
  end.

Definition is_dangling (f : VerifyLedger.finding) : bool :=
  match f with
  | VerifyLedger.DanglingReference _ _ => true
  | _ => false
  end.

(** Steps 3 and 4 of bundle verification, each on its own: the finding of
    the comparison with the recomputed hash, then the finding of the
    comparison with the index entry when there is one. *)
Definition bundle_findings (bundle_hash : pyvalue) (computed_hash : string)
    (index_entry : pyvalue) : list VerifyBundle.message :=
  (if py_eq (PyStr (lit computed_hash)) bundle_hash then []
   else [VerifyBundle.ErrHashMismatch bundle_hash computed_hash])
  ++
  match index_entry with
  | PyDict entry =>
      if py_eq (dict_get entry Hash) bundle_hash then []
      else [VerifyBundle.ErrIndexHashMismatch (dict_get entry Hash) bundle_hash]
  | _ => []
  end.

Definition no_findings {M} (fs : list M) : bool :=
  match fs with
  | [] => true
  | _ => false
  end.

(** An index entry that is absent (or null), or a mapping. *)
Definition absent_or_mapping (index_entry : pyvalue) : bool :=
  match index_entry with
  | PyNone | PyDict _ => true
  | _ => false
  end.

(** A custody entry with its required fields in order: a mapping with a
    timestamp that [is_valid_utc_z] accepts and non-empty [Holder_Name],
    [Holder_Role] and [Action]. *)
Definition entry_well_formed (entry : pyvalue) : bool :=
  match entry with
  | PyDict d =>
      VerifyCustody.is_valid_utc_z (dict_get d VerifyCustody.Entry_Timestamp_UTC)
      && nonempty_str (dict_get d VerifyCustody.Holder_Name)
      && nonempty_str (dict_get d VerifyCustody.Holder_Role)
      && nonempty_str (dict_get d VerifyCustody.Action)
  | _ => false
  end.

Definition entry_timestamp (entry : pyvalue) : pystr :=
  match entry with
  | PyDict d =>
      match dict_get d VerifyCustody.Entry_Timestamp_UTC with
      | PyStr ts => ts
      | _ => []
      end
  | _ => []
  end.

Definition timestamps (entries : list pyvalue) : list pystr :=
  map entry_timestamp entries.

(** Each timestamp strictly greater than the one before it. *)
Fixpoint ascending (tss : list pystr) : bool :=
  match tss with
  | [] => true
  | a :: rest =>
      match rest with
      | [] => true
      | b :: _ => negb (str_leb b a) && ascending rest
      end
  end.

(** The numbers, from [i], of the timestamps not strictly greater than the
    one just before them; [previous] is the one before the first. *)
Fixpoint order_violations (tss : list pystr) (i : Z) (previous : option pystr)
  : list Z :=
  match tss with
  | [] => []
  | ts :: rest =>
      match previous with
      | Some p => if str_leb ts p then [i] else []
      | None => []
      end ++ order_violations rest (i + 1) (Some ts)
  end.

Definition last_ts_of (previous : option pystr) : pyvalue :=
  match previous with
  | Some p => PyStr p
  | None => PyNone
  end.

(** [Index_Seq] equal to [expected], [expected + 1], ... down the index. *)
Fixpoint in_sequence (idx : list pydict) (expected : Z) : bool :=
  match idx with
  | [] => true
  | entry :: rest =>
      py_eq (dict_get entry Index_Seq) (PyInt expected)
      && in_sequence rest (expected + 1)
  end.

(** The record an index entry names under [id_key] is on file in [dir], and
    [hash] of it is the text the entry holds under [Hash]. *)
Definition record_matches (hash : pyvalue -> result string) (dir : directory)
    (id_key : pystr) (entry : pydict) : Prop :=
  exists data digest,
    truthy (dict_get entry id_key) = true /\
    dir (dict_get entry id_key) = JsonFile data /\
    hash data = Ok digest /\
    digest <> EmptyString /\
    dict_get entry Hash = PyStr (lit digest).

(** The event a challenge entry names is a known one, or it names none. *)
Definition link_resolved (known_event_ids : list pystr) (entry : pydict) : Prop :=
  truthy (dict_get entry VerifyLedger.Challenged_Event_ID) = false \/
  exists k, In k known_event_ids /\
            dict_get entry VerifyLedger.Challenged_Event_ID = PyStr k.

(** The lines one custody entry gets for its own fields, and the outcome
    of its comparison with the timestamp before it ([True]: not later). *)
Definition field_errors (i : Z) (d : pydict) : list VerifyCustody.message :=
  (if VerifyCustody.is_valid_utc_z (dict_get d VerifyCustody.Entry_Timestamp_UTC)
   then []
   else [VerifyCustody.ErrTimestamp i (dict_get d VerifyCustody.Entry_Timestamp_UTC)])
  ++ (if nonempty_str (dict_get d VerifyCustody.Holder_Name) then []
      else [VerifyCustody.ErrHolderName i])
  ++ (if nonempty_str (dict_get d VerifyCustody.Holder_Role) then []
      else [VerifyCustody.ErrHolderRole i])
  ++ (if nonempty_str (dict_get d VerifyCustody.Action) then []
      else [VerifyCustody.ErrAction i]).

Definition order_check (ts last_ts : pyvalue) : result bool :=
  if is_none last_ts then Ok false else py_le ts last_ts.

(** A custody entry that is a mapping with a [str] for a timestamp. *)
Definition str_timestamp (entry : pyvalue) : bool :=
  match entry with
  | PyDict d =>
      match dict_get d VerifyCustody.Entry_Timestamp_UTC with
      | PyStr _ => true
      | _ => false
      end
  | _ => false
  end.

(** A log after [k] was bound to [v] if it was unset, and the entry a call
    of [append_coc_entry] builds. *)
Definition bound_to (k : pystr) (v : pyvalue) (coc : pydict) : pydict :=
  if is_none (dict_get coc k) then dict_set coc k v else coc.

Definition new_entry (holder_name holder_role action location notes now_utc : pystr)
  : pyvalue :=
  PyDict [(VerifyCustody.Entry_Timestamp_UTC, PyStr now_utc);
          (VerifyCustody.Holder_Name, PyStr holder_name);
          (VerifyCustody.Holder_Role, PyStr holder_role);
          (VerifyCustody.Action, PyStr action);
          (lit "Location", ExportCustody.or_none location);
          (lit "Notes", ExportCustody.or_none notes)].

(** Unset, or equal to the string [s]. *)
Definition unset_or (v : pyvalue) (s : pystr) : bool :=
  is_none v || py_eq v (PyStr s).

(** A bundle in agreement with itself: its record, under [record_key], is a
    mapping; its hash, under [hash_key], is the non-empty digest [hash]
    gives the record; and its index entry is absent or a mapping with that
    digest under [Hash]. *)
Definition bundle_consistent (hash : pyvalue -> result string)
    (record_key hash_key : pystr) (bundle : pydict) : Prop :=
  exists record digest,
    dict_get bundle record_key = PyDict record /\
    hash (PyDict record) = Ok digest /\
    digest <> EmptyString /\
    dict_get bundle hash_key = PyStr (lit digest) /\
    (dict_get bundle (lit "Index_Entry") = PyNone \/
     exists entry,
       dict_get bundle (lit "Index_Entry") = PyDict entry /\
       dict_get entry Hash = PyStr (lit digest)).

(** A custody log that is in order: identity set, entries well formed,
    timestamps strictly increasing. *)
Definition custody_in_order (coc : pydict) : Prop :=
  nonempty_str (dict_get coc Event_ID) = true /\
  nonempty_str (dict_get coc Event_Hash) = true /\
  exists entries,
    dict_get coc VerifyCustody.Chain_Of_Custody = PyList entries /\
    forallb entry_well_formed entries = true /\
    ascending (timestamps entries) = true.

(** ** Reading the canonical encoding back

    What the injectivity of the encoding is stated and proved with: records
    without floats (the text of a float is the interpreter's), strings whose
    code points are in range, and the first character of a UTF-8 sequence
    and of the inside of a string literal read back. *)

(** No float anywhere in the record. *)
Fixpoint float_free (v : pyvalue) : bool :=
  match v with
  | PyFloat _ => false
  | PyList l => forallb float_free l
  | PyDict d => forallb (fun kv => float_free (snd kv)) d
  | _ => true
  end.

(** The invariant of [str]: code points below 0x110000, in every string
    and key of the record. *)
Definition str_in_range (s : pystr) : bool := forallb (fun c => (c <? 1114112)%N) s.

Fixpoint strs_in_range (v : pyvalue) : bool :=
  match v with
  | PyStr s => str_in_range s
  | PyList l => forallb strs_in_range l
  | PyDict d => forallb (fun kv => str_in_range (fst kv) && strs_in_range (snd kv)) d
  | _ => true
  end.

(** The code point a UTF-8 sequence starts with, and the bytes after it. *)
Definition utf8_first (bs : pybytes) : option (N * pybytes) :=
  match bs with
  | [] => None
  | b0 :: r =>
      (if b0 <? 128 then Some (b0, r)
       else if b0 <? 224 then
         match r with
         | b1 :: r' => Some (64 * (b0 - 192) + (b1 - 128), r')
         | _ => None
         end
       else if b0 <? 240 then
         match r with
         | b1 :: b2 :: r' =>
             Some (4096 * (b0 - 224) + 64 * (b1 - 128) + (b2 - 128), r')
         | _ => None
         end
       else
         match r with
         | b1 :: b2 :: b3 :: r' =>
             Some (262144 * (b0 - 240) + 4096 * (b1 - 128) + 64 * (b2 - 128)
                   + (b3 - 128), r')
         | _ => None
         end)%N
  end.

Definition unhex (h : N) : N := (if h <? 58 then h - 48 else h - 87)%N.

(** The character the inside of a string literal starts with, and the text
    after it; nothing at the closing quote. *)
Definition unescape_first (t : pystr) : option (N * pystr) :=
  match t with
  | [] => None
  | c :: r =>
      (if c =? 34 then None
       else if c =? 92 then
         match r with
         | e :: r' =>
             if e =? 34 then Some (34, r')
             else if e =? 92 then Some (92, r')
             else if e =? 98 then Some (8, r')
             else if e =? 102 then Some (12, r')
             else if e =? 110 then Some (10, r')
             else if e =? 114 then Some (13, r')
             else if e =? 116 then Some (9, r')
             else
               match r' with
               | _ :: _ :: h1 :: h2 :: r'' => Some (16 * unhex h1 + unhex h2, r'')
               | _ => None
               end
         | [] => None
         end
       else Some (c, r))%N
  end.

Definition is_digit (c : N) : bool := ((48 <=? c) && (c <=? 57))%N.

(** A text that does not go on with a digit. *)
Definition no_digit_ahead (t : pystr) : bool :=
  match t with
  | [] => true
  | c :: _ => negb (is_digit c)
  end.

(** The first character of the text of a value, by the type of the value. *)
Definition opens (v : pyvalue) (c : N) : bool :=
  match v with
  | PyNone => (c =? 110)%N
  | PyBool true => (c =? 116)%N
  | PyBool false => (c =? 102)%N
  | PyInt _ => (c =? 45)%N || is_digit c
  | PyStr _ => (c =? 34)%N
  | PyList _ => (c =? 91)%N
  | PyDict _ => (c =? 123)%N
  | PyFloat _ | PyOpaque _ => false
  end.

(* ================================================================== *)
(** * Sample inputs *)

(** An interpreter to evaluate with: it knows [sha256] only, and its digest
    and float text are placeholders (no property below depends on them). *)
Definition sample_runtime : Runtime :=
  {| float_repr := fun _ => "0.0"%string;
     hashlib_new := fun name =>
       if str_eqb name sha256_name
       then Some (fun data =>
                    Ok (NilZero.string_of_int (Z.to_int (Z.of_nat (length data)))))
       else None;
     int_of_str := fun _ => None |}.

(** [{a: 1, b: 2}] and [{b: 2, a: 1}] *)
Definition record_a1_b2 : pyvalue := PyDict [(lit "a", PyInt 1); (lit "b", PyInt 2)].
Definition record_b2_a1 : pyvalue := PyDict [(lit "b", PyInt 2); (lit "a", PyInt 1)].


Definition record_with_surrogate : pyvalue := PyDict [(lit "a", PyStr [55296%N])].

(** An index entry with the given [Index_Seq] and [Event_ID]. *)
Definition index_entry (seq : pyvalue) (event_id : string) : pydict :=
  [(Index_Seq, seq); (Event_ID, PyStr (lit event_id)); (Hash, PyStr (lit "00"))].


Definition index_134 : list pydict :=
  [index_entry (PyInt 1) "E-1"; index_entry (PyInt 3) "E-3"; index_entry (PyInt 4) "E-4"].

(** [Index_Seq = [1, 3.0, 4]] *)
Definition index_1_3float_4 : list pydict :=
  [index_entry (PyInt 1) "E-1";
   index_entry (PyFloat (S754_finite false 3 0)) "E-3";
   index_entry (PyInt 4) "E-4"].

(** A challenge index of one entry that names an event no index lists, and
    a directory with no file in it. *)
Definition dangling_challenge_entry : pydict :=
  [(Index_Seq, PyInt 1);
   (VerifyLedger.Challenge_ID, PyStr (lit "C-1"));
   (Hash, PyStr (lit "00"));
   (VerifyLedger.Challenged_Event_ID, PyStr (lit "E-404"))].

Definition empty_directory : directory := fun _ => NoFile.

(** A directory whose every file is the record [{a: 1, b: 2}]. *)
Definition full_directory : directory := fun _ => JsonFile record_a1_b2.

(** An event bundle whose record cannot be encoded (a lone surrogate) and
    whose index entry carries another hash than the bundle. *)
Definition bundle_unhashable : pydict :=
  [(lit "Bundle_Type", PyStr (lit "PLRS_Event_Evidence_Bundle"));
   (lit "Event", record_with_surrogate);
   (lit "Event_Hash", PyStr (lit "aa"));
   (lit "Index_Entry", PyDict [(Hash, PyStr (lit "bb"))])].

(** An event bundle whose stored hash and index hash are both wrong. *)
Definition bundle_two_mismatches : pydict :=
  [(lit "Bundle_Type", PyStr (lit "PLRS_Event_Evidence_Bundle"));
   (lit "Event", record_a1_b2);
   (lit "Event_Hash", PyStr (lit "aa"));
   (lit "Index_Entry", PyDict [(Hash, PyStr (lit "bb"))])].

Definition challenge_bundle_two_mismatches : pydict :=
  [(lit "Bundle_Type", PyStr (lit "PLRS_Challenge_Evidence_Bundle"));
   (lit "Challenge", record_a1_b2);
   (lit "Challenge_Hash", PyStr (lit "aa"));
   (lit "Index_Entry", PyDict [(Hash, PyStr (lit "bb"))])].

(** Custody entries and logs. *)
Definition custody_entry (ts : pyvalue) (holder : string) : pyvalue :=
  PyDict [(VerifyCustody.Entry_Timestamp_UTC, ts);
          (VerifyCustody.Holder_Name, PyStr (lit holder));
          (VerifyCustody.Holder_Role, PyStr (lit "Attorney"));
          (VerifyCustody.Action, PyStr (lit "Transferred"));
          (lit "Location", PyNone);
          (lit "Notes", PyNone)].

Definition custody_log (event_id event_hash : pyvalue) (entries : list pyvalue)
  : pydict :=
  [(lit "CoC_Version", PyStr (lit "1.0"));
   (Event_ID, event_id);
   (Event_Hash, event_hash);
   (ExportCustody.Evidence_Bundle_File, PyStr (lit "bundle.json"));
   (VerifyCustody.Chain_Of_Custody, PyList entries)].

Definition T1 : pyvalue := PyStr (lit "2025-01-12T18:42:10Z").
Definition T2 : pyvalue := PyStr (lit "2025-01-12T18:42:11Z").
Definition T3 : pyvalue := PyStr (lit "2025-01-13T09:00:00Z").

Definition log_in_order : pydict :=
  custody_log (PyStr (lit "E1")) (PyStr (lit "h1"))
    [custody_entry T1 "A"; custody_entry T2 "B"; custody_entry T3 "C"].

(** [T2] placed before [T1]. *)
Definition log_out_of_order : pydict :=
  custody_log (PyStr (lit "E1")) (PyStr (lit "h1"))
    [custody_entry T2 "A"; custody_entry T1 "B"; custody_entry T3 "C"].

(** The second entry has no timestamp. *)
Definition log_missing_timestamp : pydict :=
  custody_log (PyStr (lit "E1")) (PyStr (lit "h1"))
    [custody_entry T1 "A"; custody_entry PyNone "B"].

(** A log bound to [E1] and [h1], and one whose [Event_ID] is still unset
    while its hash is bound. *)
Definition log_bound : pydict :=
  custody_log (PyStr (lit "E1")) (PyStr (lit "h1")) [custody_entry T1 "A"].

Definition log_hash_only : pydict :=
  custody_log PyNone (PyStr (lit "h1")) [].

(** Appending for [E1] with the hash [h2] to [log_hash_only]: the log as
    the call leaves it, and how the call ends. *)
Definition append_to_log_hash_only : pydict * result unit :=
  ExportCustody.append_coc_entry (lit "E1") (lit "h2") (lit "bundle.json")
    (lit "A") (lit "Attorney") (lit "Created") [] [] (lit "2025-01-12T18:42:10Z")
    log_hash_only.

(** A bundle built from the record [{b: 2, a: 1}] with the digest the sample
    interpreter gives it; the same with the keys of the bundle and of the
    record in another order; and one whose index entry is a number. *)
Definition bundle_fresh : pydict :=
  [(lit "Bundle_Type", PyStr (lit "PLRS_Event_Evidence_Bundle"));
   (lit "Event", record_b2_a1);
   (lit "Event_Hash", PyStr (lit "13"))].

Definition bundle_reordered : pydict :=
  [(lit "Event_Hash", PyStr (lit "13"));
   (lit "Event", record_a1_b2);
   (lit "Bundle_Type", PyStr (lit "PLRS_Event_Evidence_Bundle"))].

Definition bundle_index_entry_number : pydict :=
  [(lit "Event", record_b2_a1);
   (lit "Event_Hash", PyStr (lit "13"));
   (lit "Index_Entry", PyInt 7)].

(* ================================================================== *)
(** * Properties *)

(** ** The two hashing pipelines *)

(** C9: [hash_event] and [hash_challenge] return the same digest or raise the
    same exception on every value and algorithm name, and the two
    [canonical_serialize] functions return the same bytes (or raise the same
    exception) on every input. *)
Theorem hash_pipelines_agree `{Runtime} :
  (forall (R : pyvalue) (a : pystr),
     HashEvent.hash_event R a = HashChallenge.hash_challenge R a) /\
  (forall R : pyvalue,
     HashEvent.canonical_serialize R = HashChallenge.canonical_serialize R).
Proof.
  split; intros.
  - unfold HashEvent.hash_event, HashChallenge.hash_challenge.
    unfold HashEvent.canonical_serialize, HashChallenge.canonical_serialize.
    destruct (Json.dumps R) as [text|e]; [|reflexivity].
    simpl. destruct (Json.encode_utf8 text); reflexivity.
  - reflexivity.
Qed.

(** ** The sequence audit *)

Lemma index_sequence_loop (idx : list pydict) :
  forall (errors : list VerifyIndex.finding) (expected : Z),
  exists fs last,
    fold_left VerifyIndex.sequence_turn idx (errors, expected) = (errors ++ fs, last) /\
    SequenceAudit index_report expected idx fs.
Proof.
  induction idx as [|entry rest IH]; intros errors expected; simpl.
  - exists [], expected. rewrite app_nil_r. split; [reflexivity|constructor].
  - destruct (py_eq (dict_get entry Index_Seq) (PyInt expected)) eqn:Heq; simpl.
    + destruct (IH errors (expected + 1)) as (fs & last & Hfold & Haudit).
      exists fs, last. split; [exact Hfold|].
      now apply audit_pass.
    + match goal with
      | |- context [fold_left _ rest (?errs, ?e)] =>
          destruct (IH errs e) as (fs & last & Hfold & Haudit)
      end.
      exists (index_report expected (dict_get entry Index_Seq) entry :: fs), last.
      split.
      * rewrite Hfold, <- app_assoc. reflexivity.
      * refine (audit_gap index_report expected _ entry rest fs Heq _ Haudit).
        intros n Hn. rewrite Hn. reflexivity.
Qed.

Lemma ledger_sequence_loop `{Runtime} (label : string) (idx : list pydict) :
  forall (errors : list VerifyLedger.finding) (expected : Z),
  exists fs last,
    fold_left (VerifyLedger.sequence_turn label) idx (errors, expected)
      = (errors ++ fs, last) /\
    SequenceAudit (VerifyLedger.SeqError label) expected idx fs.
Proof.
  induction idx as [|entry rest IH]; intros errors expected; simpl.
  - exists [], expected. rewrite app_nil_r. split; [reflexivity|constructor].
  - destruct (py_eq (dict_get entry Index_Seq) (PyInt expected)) eqn:Heq; simpl.
    + destruct (IH errors (expected + 1)) as (fs & last & Hfold & Haudit).
      exists fs, last. split; [exact Hfold|].
      now apply audit_pass.
    + match goal with
      | |- context [fold_left _ rest (?errs, ?e)] =>
          destruct (IH errs e) as (fs & last & Hfold & Haudit)
      end.
      exists (VerifyLedger.SeqError label expected (dict_get entry Index_Seq) entry :: fs),
        last.
      split.
      * rewrite Hfold, <- app_assoc. reflexivity.
      * refine (audit_gap (VerifyLedger.SeqError label) expected _ entry rest fs
                  Heq _ Haudit).
        intros n Hn. rewrite Hn. reflexivity.
Qed.


(** ** The two sequence audits compared *)

Lemma sequence_turns_agree `{Runtime} (label : string) (entry : pydict)
    (errsI : list VerifyIndex.finding) (errsL : list VerifyLedger.finding)
    (expected : Z) :
  int_or_rejected (dict_get entry Index_Seq) = true ->
  ledger_gaps errsL = map index_gap errsI ->
  ledger_gaps (fst (VerifyLedger.sequence_turn label (errsL, expected) entry))
    = map index_gap (fst (VerifyIndex.sequence_turn (errsI, expected) entry)) /\
  snd (VerifyLedger.sequence_turn label (errsL, expected) entry)
    = snd (VerifyIndex.sequence_turn (errsI, expected) entry).
Proof.
  intros Hseq Hgaps.
  unfold VerifyLedger.sequence_turn, VerifyIndex.sequence_turn.
  destruct (py_eq (dict_get entry Index_Seq) (PyInt expected)); simpl.
  - split; [exact Hgaps|reflexivity].
  - split.
    + unfold ledger_gaps in *. rewrite flat_map_app, map_app, Hgaps. reflexivity.
    + f_equal. unfold int_or_rejected in Hseq.
      destruct (dict_get entry Index_Seq) as [| [|] | z | f | s | l | d | i];
        try reflexivity;
        destruct (py_int _); simpl in Hseq; try discriminate; reflexivity.
Qed.

Lemma sequence_loops_agree `{Runtime} (label : string) (idx : list pydict) :
  forall (errsI : list VerifyIndex.finding) (errsL : list VerifyLedger.finding)
         (expected : Z),
  forallb (fun entry => int_or_rejected (dict_get entry Index_Seq)) idx = true ->
  ledger_gaps errsL = map index_gap errsI ->
  ledger_gaps (fst (fold_left (VerifyLedger.sequence_turn label) idx (errsL, expected)))
    = map index_gap (fst (fold_left VerifyIndex.sequence_turn idx (errsI, expected))).
Proof.
  induction idx as [|entry rest IH]; intros errsI errsL expected Hall Hgaps.
  - exact Hgaps.
  - simpl in Hall. apply andb_true_iff in Hall as [Hentry Hrest].
    destruct (sequence_turns_agree label entry errsI errsL expected Hentry Hgaps)
      as [Herrs Hexp].
    cbn [fold_left].
    destruct (VerifyLedger.sequence_turn label (errsL, expected) entry) as [eL nL].
    destruct (VerifyIndex.sequence_turn (errsI, expected) entry) as [eI nI].
    simpl in Herrs, Hexp. subst nL.
    now apply IH.
Qed.

(** C10, amended: on every entry list whose [Index_Seq] values are integers
    (or values [int()] rejects, such as null), the audit of [verify_index.py]
    and the audit of [verify_ledger_inntegrity.py] report the same gaps:
    the same expected and found values for the same entries, in the same
    order. *)
Theorem sequence_audits_agree_on_integers `{Runtime} (label : string)
    (idx : list pydict) :
  forallb (fun entry => int_or_rejected (dict_get entry Index_Seq)) idx = true ->
  ledger_gaps (VerifyLedger.verify_index_sequence idx label)
    = map index_gap (VerifyIndex.verify_index_sequence idx).
Proof.
  intro Hall.
  unfold VerifyLedger.verify_index_sequence, VerifyIndex.verify_index_sequence.
  now apply sequence_loops_agree.
Qed.

Lemma sequence_audits_agree_on_integers_witness :
  ledger_gaps (@VerifyLedger.verify_index_sequence sample_runtime index_134 "EVENT_INDEX")
    = map index_gap (VerifyIndex.verify_index_sequence index_134).
Proof.
  apply (@sequence_audits_agree_on_integers sample_runtime "EVENT_INDEX" index_134).
  reflexivity.
Defined.

(** C10 as stated fails under every interpreter: on [Index_Seq = [1, 3.0, 4]]
    [verify_index.py] keeps [expected] (3.0 is no [int]) and also reports the
    third entry, while [verify_ledger_inntegrity.py] resumes from [int(3.0)]
    and reports the second entry only. *)
Lemma sequence_audits_differ_on_float :
  ~ exists rt : Runtime,
      forall label idx,
        ledger_gaps (VerifyLedger.verify_index_sequence idx label)
          = map index_gap (VerifyIndex.verify_index_sequence idx).
Proof.
  intros [rt Hclaim].
  specialize (Hclaim "EVENT_INDEX"%string index_1_3float_4).
  vm_compute in Hclaim. discriminate Hclaim.
Qed.
(** ** Structural induction on values *)

Lemma pyvalue_nested_ind (P : pyvalue -> Prop) :
  P PyNone ->
  (forall b, P (PyBool b)) ->
  (forall z, P (PyInt z)) ->
  (forall f, P (PyFloat f)) ->
  (forall s, P (PyStr s)) ->
  (forall l, Forall P l -> P (PyList l)) ->
  (forall d, Forall (fun kv => P (snd kv)) d -> P (PyDict d)) ->
  (forall i, P (PyOpaque i)) ->
  forall v, P v.
Proof.
  intros HNone HBool HInt HFloat HStr HList HDict HOpaque.
  refine (fix IH (v : pyvalue) : P v :=
            match v with
            | PyNone => HNone
            | PyBool b => HBool b
            | PyInt z => HInt z
            | PyFloat f => HFloat f
            | PyStr s => HStr s
            | PyList l =>
                HList l ((fix items (l : list pyvalue) : Forall P l :=
                            match l with
                            | [] => Forall_nil P
                            | x :: r => Forall_cons x (IH x) (items r)
                            end) l)
            | PyDict d =>
                HDict d ((fix items (d : list (pystr * pyvalue))
                            : Forall (fun kv => P (snd kv)) d :=
                            match d with
                            | [] => Forall_nil _
                            | kv :: r => Forall_cons kv (IH (snd kv)) (items r)
                            end) d)
            | PyOpaque i => HOpaque i
            end).
Qed.

(** ** Strings: equality and order *)

Lemma str_eqb_eq (s t : pystr) : str_eqb s t = true <-> s = t.
Proof.
  revert t. induction s as [|c s IH]; intros [|d t]; simpl; split;
    try discriminate; try reflexivity.
  - intros Hb. apply andb_true_iff in Hb as [Hc Hs].
    apply N.eqb_eq in Hc. apply IH in Hs. now subst.
  - intros Heq. injection Heq as -> ->.
    rewrite N.eqb_refl. now apply IH.
Qed.

Lemma str_eqb_refl (s : pystr) : str_eqb s s = true.
Proof. now apply str_eqb_eq. Qed.

Lemma str_leb_total (s t : pystr) : str_leb s t = false -> str_leb t s = true.
Proof.
  revert t. induction s as [|c s IH]; intros [|d t]; simpl; try discriminate;
    try reflexivity.
  destruct (c <? d)%N eqn:Hlt; [discriminate|].
  destruct (c =? d)%N eqn:Heq.
  - apply N.eqb_eq in Heq. subst d. rewrite N.ltb_irrefl, N.eqb_refl. apply IH.
  - intros _. apply N.ltb_ge in Hlt. apply N.eqb_neq in Heq.
    assert (Hdc : (d <? c)%N = true) by (apply N.ltb_lt; lia).
    now rewrite Hdc.
Qed.

Lemma str_leb_antisym (s t : pystr) :
  str_leb s t = true -> str_leb t s = true -> s = t.
Proof.
  revert t. induction s as [|c s IH]; intros [|d t]; simpl; try discriminate;
    try reflexivity.
  destruct (c <? d)%N eqn:Hcd.
  - apply N.ltb_lt in Hcd. intros _.
    assert (Hdc : (d <? c)%N = false) by (apply N.ltb_ge; lia).
    assert (Hne : (d =? c)%N = false) by (apply N.eqb_neq; lia).
    rewrite Hdc, Hne. discriminate.
  - destruct (c =? d)%N eqn:Heq; [|discriminate].
    apply N.eqb_eq in Heq. subst d. rewrite N.ltb_irrefl, N.eqb_refl.
    intros H1 H2. f_equal. now apply IH.
Qed.

Lemma str_leb_trans (s t u : pystr) :
  str_leb s t = true -> str_leb t u = true -> str_leb s u = true.
Proof.
  revert t u. induction s as [|c s IH]; intros [|d t] [|e u]; simpl;
    try discriminate; try reflexivity.
  destruct (c <? d)%N eqn:Hcd; destruct (d <? e)%N eqn:Hde;
    destruct (c =? d)%N eqn:Ecd; destruct (d =? e)%N eqn:Ede;
    try discriminate;
    repeat match goal with
           | H : (_ <? _)%N = true |- _ => apply N.ltb_lt in H
           | H : (_ <? _)%N = false |- _ => apply N.ltb_ge in H
           | H : (_ =? _)%N = true |- _ => apply N.eqb_eq in H
           | H : (_ =? _)%N = false |- _ => apply N.eqb_neq in H
           end;
    intros H1 H2;
    try (assert (Hce : (c <? e)%N = true) by (apply N.ltb_lt; lia);
         now rewrite Hce).
  subst. rewrite N.eqb_refl.
  assert (Hee : (e <? e)%N = false) by apply N.ltb_irrefl.
  rewrite Hee. now apply (IH t u).
Qed.

(** ** Sorting the items of a mapping *)

Section SortItems.
Context {V : Type}.

Lemma insert_item_perm (x : pystr * V) (l : list (pystr * V)) :
  Permutation (Json.insert_item x l) (x :: l).
Proof.
  induction l as [|y r IH]; simpl.
  - reflexivity.
  - destruct (str_leb (fst x) (fst y)).
    + reflexivity.
    + rewrite IH. apply perm_swap.
Qed.

Lemma sort_items_perm (l : list (pystr * V)) : Permutation (Json.sort_items l) l.
Proof.
  induction l as [|x r IH]; simpl.
  - reflexivity.
  - rewrite insert_item_perm. now constructor.
Qed.

Lemma insert_item_sorted (x : pystr * V) (l : list (pystr * V)) :
  StronglySorted key_le l -> StronglySorted key_le (Json.insert_item x l).
Proof.
  induction 1 as [|y r Hr IH Hy]; simpl.
  - repeat constructor.
  - destruct (str_leb (fst x) (fst y)) eqn:Hxy.
    + constructor; [now constructor|].
      constructor; [exact Hxy|].
      eapply Forall_impl; [|exact Hy].
      intros z Hz. unfold key_le in *. eapply str_leb_trans; eassumption.
    + constructor; [exact IH|].
      apply str_leb_total in Hxy.
      eapply Permutation_Forall; [symmetry; apply insert_item_perm|].
      now constructor.
Qed.

Lemma sort_items_sorted (l : list (pystr * V)) :
  StronglySorted key_le (Json.sort_items l).
Proof.
  induction l as [|x r IH]; simpl.
  - constructor.
  - now apply insert_item_sorted.
Qed.

Lemma same_key_same_item (l : list (pystr * V)) (x y : pystr * V) :
  NoDup (map fst l) -> In x l -> In y l -> fst x = fst y -> x = y.
Proof.
  induction l as [|z r IH]; simpl; [contradiction|].
  intros Hnd Hx Hy Hk. inversion Hnd as [|? ? Hz Hr]; subst.
  destruct Hx as [->|Hx], Hy as [->|Hy].
  - reflexivity.
  - exfalso. apply Hz. rewrite Hk. now apply in_map.
  - exfalso. apply Hz. rewrite <- Hk. now apply in_map.
  - now apply IH.
Qed.

(** Two sorted lists with the same items, no key twice, are one list. *)
Lemma sorted_items_unique (l l' : list (pystr * V)) :
  StronglySorted key_le l -> StronglySorted key_le l' ->
  Permutation l l' -> NoDup (map fst l) -> l = l'.
Proof.
  intros Hl. revert l'. induction Hl as [|x r Hr IH Hx]; intros l' Hl' Hp Hnd.
  - now apply Permutation_nil in Hp.
  - destruct Hl' as [|y r' Hr' Hy].
    + symmetry in Hp. now apply Permutation_nil in Hp.
    + assert (Hxy : x = y).
      { assert (Hin_x : In x (y :: r')) by (eapply Permutation_in; [exact Hp|now left]).
        assert (Hin_y : In y (x :: r)).
        { eapply Permutation_in; [symmetry; exact Hp|now left]. }
        destruct Hin_x as [->|Hxr']; [reflexivity|].
        destruct Hin_y as [->|Hyr]; [reflexivity|].
        apply (same_key_same_item (x :: r)); [exact Hnd|now left|now right|].
        apply str_leb_antisym.
        - rewrite Forall_forall in Hx. exact (Hx y Hyr).
        - rewrite Forall_forall in Hy. exact (Hy x Hxr'). }
      subst y. f_equal.
      apply IH; [exact Hr'|now apply Permutation_cons_inv in Hp|].
      now inversion Hnd.
Qed.

Lemma sort_items_of_permutation (l l' : list (pystr * V)) :
  NoDup (map fst l) -> Permutation l l' ->
  Json.sort_items l = Json.sort_items l'.
Proof.
  intros Hnd Hp.
  apply sorted_items_unique; try apply sort_items_sorted.
  - rewrite sort_items_perm, Hp. symmetry. apply sort_items_perm.
  - eapply Permutation_NoDup; [|exact Hnd].
    apply Permutation_map. symmetry. apply sort_items_perm.
Qed.
End SortItems.

(** ** The canonical encoding does not depend on the order of the keys *)

Lemma distinct_NoDup (keys : list pystr) : distinct keys = true -> NoDup keys.
Proof.
  induction keys as [|k r IH]; simpl; intros Hd; constructor;
    apply andb_true_iff in Hd as [Hk Hr].
  - intros Hin. apply negb_true_iff in Hk.
    assert (Hex : existsb (str_eqb k) r = true).
    { apply existsb_exists. exists k. split; [exact Hin|apply str_eqb_refl]. }
    congruence.
  - now apply IH.
Qed.

Lemma float_same_eq (f g : spec_float) : float_same f g = true -> f = g.
Proof.
  destruct f as [s|s| |s m e], g as [t|t| |t n d]; simpl; try discriminate;
    try reflexivity.
  - intros Hb. apply Bool.eqb_prop in Hb. now subst.
  - intros Hb. apply Bool.eqb_prop in Hb. now subst.
  - intros Hb. apply andb_true_iff in Hb as [Hb He].
    apply andb_true_iff in Hb as [Hs Hm].
    apply Bool.eqb_prop in Hs. apply Pos.eqb_eq in Hm. apply Z.eqb_eq in He.
    now subst.
Qed.

Lemma dict_lookup_In (d : pydict) (k : pystr) (v : pyvalue) :
  dict_lookup d k = Some v -> In (k, v) d.
Proof.
  induction d as [|[k' v'] r IH]; simpl; [discriminate|].
  destruct (str_eqb k' k) eqn:Hk.
  - apply str_eqb_eq in Hk. intros [= ->]. subst. now left.
  - intros Hl. right. now apply IH.
Qed.

Section KeyOrder.
Context `{Runtime}.

Lemma dumps_list (l : list pyvalue) :
  Json.dumps (PyList l) =
  (parts <- Json.sequence (map Json.dumps l) ;;
   Ok (lit "[" ++ Json.join (lit ",") parts ++ lit "]")).
Proof. reflexivity. Qed.

Lemma dumps_dict (d : pydict) :
  Json.dumps (PyDict d) =
  (fields <- Json.sequence
               (map Json.dict_field
                  (Json.sort_items (map (fun kv => (fst kv, Json.dumps (snd kv))) d))) ;;
   Ok (lit "{" ++ Json.join (lit ",") fields ++ lit "}")).
Proof. reflexivity. Qed.

Lemma dumps_same_record (a : pyvalue) :
  forall b, distinct_keys a = true -> same_record a b = true ->
            Json.dumps a = Json.dumps b.
Proof.
  induction a as [|x|x|f|s|l IH|d IH|i] using pyvalue_nested_ind;
    intros b Hkeys Hsame; destruct b; simpl in Hsame; try discriminate.
  - reflexivity.
  - apply Bool.eqb_prop in Hsame. now subst.
  - apply Z.eqb_eq in Hsame. now subst.
  - apply float_same_eq in Hsame. now subst.
  - apply str_eqb_eq in Hsame. now subst.
  - (* lists: item by item *)
    rewrite !dumps_list. f_equal. f_equal.
    simpl in Hkeys. revert l0 Hsame Hkeys.
    induction IH as [|x r Hx Hr IHr]; intros [|y m] Hsame Hkeys;
      simpl in Hsame; try discriminate; [reflexivity|].
    apply andb_true_iff in Hsame as [Hxy Hrm].
    simpl in Hkeys. apply andb_true_iff in Hkeys as [Hkx Hkr].
    simpl. f_equal; [now apply Hx|now apply IHr].
  - (* mappings: the encoded items are the same up to their order *)
    rewrite !dumps_dict. f_equal. f_equal. f_equal.
    apply andb_true_iff in Hsame as [Hlen Hitems].
    apply Nat.eqb_eq in Hlen.
    simpl in Hkeys. apply andb_true_iff in Hkeys as [Hdist Hvals].
    apply distinct_NoDup in Hdist.
    set (enc := fun kv : pystr * pyvalue => (fst kv, Json.dumps (snd kv))).
    assert (Hfst : forall d1 : pydict, map fst (map enc d1) = map fst d1).
    { intro d1. rewrite map_map. reflexivity. }
    apply sort_items_of_permutation.
    + now rewrite Hfst.
    + apply NoDup_Permutation_bis.
      * apply (NoDup_map_inv fst). now rewrite Hfst.
      * rewrite !length_map. lia.
      * intros kr Hin. apply in_map_iff in Hin as ([k x] & <- & Hin).
        rewrite forallb_forall in Hitems. specialize (Hitems _ Hin).
        rewrite forallb_forall in Hvals. specialize (Hvals _ Hin).
        rewrite Forall_forall in IH. specialize (IH _ Hin).
        simpl in Hitems, Hvals, IH.
        destruct (dict_lookup d0 k) as [y|] eqn:Hlook; [|discriminate].
        apply dict_lookup_In in Hlook.
        apply in_map_iff. exists (k, y). split; [|exact Hlook].
        unfold enc. simpl. f_equal. symmetry. now apply IH.
  - reflexivity.
Qed.
End KeyOrder.

(** C1: two records that are equal as unordered key/value structures have
    the same canonical encoding, under [hash_event.py] and under
    [hash_challenge.py]: the same bytes, or the same exception when a value
    cannot be encoded. *)
Theorem canonical_serialize_ignores_key_order `{Runtime} (a b : pyvalue) :
  distinct_keys a = true ->
  same_record a b = true ->
  HashEvent.canonical_serialize a = HashEvent.canonical_serialize b /\
  HashChallenge.canonical_serialize a = HashChallenge.canonical_serialize b.
Proof.
  intros Hkeys Hsame.
  unfold HashEvent.canonical_serialize, HashChallenge.canonical_serialize.
  rewrite (dumps_same_record a b Hkeys Hsame). split; reflexivity.
Qed.

(** [encode({a:1,b:2}) == encode({b:2,a:1})], and the bytes. *)
Lemma canonical_serialize_ignores_key_order_witness :
  @HashEvent.canonical_serialize sample_runtime record_a1_b2
    = @HashEvent.canonical_serialize sample_runtime record_b2_a1 /\
  @HashChallenge.canonical_serialize sample_runtime record_a1_b2
    = @HashChallenge.canonical_serialize sample_runtime record_b2_a1.
Proof.
  apply (@canonical_serialize_ignores_key_order sample_runtime); reflexivity.
Defined.

(** ** What the encoder rejects *)







Section Rejects.
Context `{Runtime}.

End Rejects.

(** ** Surrogates: from the record to the text to the bytes *)








Lemma sequence_ok {A} (rs : list (result A)) (xs : list A) :
  Json.sequence rs = Ok xs -> Forall2 (fun r x => r = Ok x) rs xs.
Proof.
  revert xs. induction rs as [|[x|e] rest IH]; simpl; intros xs Hs.
  - injection Hs as <-. constructor.
  - destruct (Json.sequence rest) as [ys|e]; simpl in Hs; [|discriminate].
    injection Hs as <-. constructor; [reflexivity|now apply IH].
  - discriminate.
Qed.

Lemma Forall2_map_left {A B C} (R : B -> C -> Prop) (f : A -> B)
    (l : list A) (m : list C) :
  Forall2 R (map f l) m -> Forall2 (fun a c => R (f a) c) l m.
Proof.
  revert m. induction l as [|a l IH]; simpl; intros m Hm; inversion Hm; subst;
    constructor; auto.
Qed.



Section Surrogates.
Context `{Runtime}.


End Surrogates.







(** ** The challenge-ledger audit *)

(** C4, at an entry whose record file is missing: the audit reports the
    missing file and stops there for that entry; the reference to the unknown
    event [E-404] is not reported. *)
Theorem missing_record_hides_dangling_reference `{Runtime} :
  VerifyLedger.verify_challenge_index [dangling_challenge_entry] empty_directory []
    = [VerifyLedger.MissingFile (PyStr (lit "C-1"))] /\
  filter is_dangling
    (VerifyLedger.verify_challenge_index [dangling_challenge_entry] empty_directory [])
    = [].
Proof. split; reflexivity. Qed.

(** An entry whose record is found and hashed gets its cross-link checked:
    one [DanglingReference] when the event it names is not a known one. *)
Lemma dangling_reference_after_hash `{Runtime} (challenges_dir : directory)
    (known_event_ids : list pystr) (entry : pydict) (data : pyvalue)
    (digest : string) :
  truthy (dict_get entry VerifyLedger.Challenge_ID) = true ->
  truthy (dict_get entry Hash) = true ->
  challenges_dir (dict_get entry VerifyLedger.Challenge_ID) = JsonFile data ->
  HashChallenge.hash_challenge data sha256_name = Ok digest ->
  truthy (dict_get entry VerifyLedger.Challenged_Event_ID) = true ->
  existsb (fun k => py_eq (PyStr k) (dict_get entry VerifyLedger.Challenged_Event_ID))
    known_event_ids = false ->
  filter is_dangling
    (VerifyLedger.challenge_entry_errors challenges_dir known_event_ids entry)
    = [VerifyLedger.DanglingReference
         (dict_get entry VerifyLedger.Challenged_Event_ID)
         (dict_get entry VerifyLedger.Challenge_ID)].
Proof.
  intros Hid Hhash Hfile Hdigest Hevent Hknown.
  unfold VerifyLedger.challenge_entry_errors.
  rewrite Hid, Hhash, Hfile.
  cbn [VerifyLedger.path_exists VerifyLedger.load_json_file negb orb].
  rewrite Hdigest, Hevent, Hknown. rewrite filter_app.
  destruct (py_eq (PyStr (lit digest)) (dict_get entry Hash)); reflexivity.
Qed.

(** With every record on file, the same entry is reported as dangling. *)
Lemma dangling_reference_after_hash_witness :
  filter is_dangling
    (@VerifyLedger.challenge_entry_errors sample_runtime full_directory []
       dangling_challenge_entry)
    = [VerifyLedger.DanglingReference (PyStr (lit "E-404")) (PyStr (lit "C-1"))].
Proof.
  exact (@dangling_reference_after_hash sample_runtime full_directory []
           dangling_challenge_entry record_a1_b2 "13"%string
           eq_refl eq_refl eq_refl eq_refl eq_refl eq_refl).
Defined.

(** ** Bundle verification *)

Section Bundles.
Context `{Runtime}.

(** The two comparisons, once the structural check has passed and the
    record has been hashed. *)
Lemma event_bundle_after_hash (bundle : pydict) (computed_hash : string) :
  is_dict (dict_get bundle (lit "Event")) = true ->
  nonempty_str (dict_get bundle (lit "Event_Hash")) = true ->
  absent_or_mapping (dict_get bundle (lit "Index_Entry")) = true ->
  HashEvent.hash_event (dict_get bundle (lit "Event")) sha256_name = Ok computed_hash ->
  let run := VerifyBundle.verify_event_bundle bundle [] in
  VerifyBundle.findings (fst run)
    = bundle_findings (dict_get bundle (lit "Event_Hash")) computed_hash
        (dict_get bundle (lit "Index_Entry")) /\
  snd run = Ok (no_findings (VerifyBundle.findings (fst run))).
Proof.
  intros Hrecord Hhash Hindex Hcomputed.
  unfold VerifyBundle.verify_event_bundle, bundle_findings.
  unfold pbind, lift, ret, write, modify, value_get.
  rewrite Hrecord, Hhash, Hcomputed. cbn [negb].
  destruct (py_eq (PyStr (lit computed_hash)) (dict_get bundle (lit "Event_Hash")));
    destruct (dict_get bundle (lit "Index_Entry")) as [| | | | | |entry|];
    try discriminate Hindex; cbn [negb is_none];
    try destruct (py_eq (dict_get entry Hash) (dict_get bundle (lit "Event_Hash")));
    split; reflexivity.
Qed.

Lemma challenge_bundle_after_hash (bundle : pydict) (computed_hash : string) :
  is_dict (dict_get bundle (lit "Challenge")) = true ->
  nonempty_str (dict_get bundle (lit "Challenge_Hash")) = true ->
  absent_or_mapping (dict_get bundle (lit "Index_Entry")) = true ->
  HashChallenge.hash_challenge (dict_get bundle (lit "Challenge")) sha256_name
    = Ok computed_hash ->
  let run := VerifyBundle.verify_challenge_bundle bundle [] in
  VerifyBundle.findings (fst run)
    = bundle_findings (dict_get bundle (lit "Challenge_Hash")) computed_hash
        (dict_get bundle (lit "Index_Entry")) /\
  snd run = Ok (no_findings (VerifyBundle.findings (fst run))).
Proof.
  intros Hrecord Hhash Hindex Hcomputed.
  unfold VerifyBundle.verify_challenge_bundle, bundle_findings.
  unfold pbind, lift, ret, write, modify, value_get.
  rewrite Hrecord, Hhash, Hcomputed. cbn [negb].
  destruct (py_eq (PyStr (lit computed_hash)) (dict_get bundle (lit "Challenge_Hash")));
    destruct (dict_get bundle (lit "Index_Entry")) as [| | | | | |entry|];
    try discriminate Hindex; cbn [negb is_none];
    try destruct (py_eq (dict_get entry Hash) (dict_get bundle (lit "Challenge_Hash")));
    split; reflexivity.
Qed.
End Bundles.

Section BundleResult.
Context `{Runtime}.

(** Whenever verification returns, it returns [True] exactly when it wrote
    no finding. *)
Lemma event_bundle_ok_iff_no_findings (bundle : pydict)
    (out : list VerifyBundle.message) (ok : bool) :
  VerifyBundle.verify_event_bundle bundle [] = (out, Ok ok) ->
  ok = no_findings (VerifyBundle.findings out).
Proof.
  unfold VerifyBundle.verify_event_bundle.
  unfold pbind, lift, ret, write, modify, value_get.
  destruct (is_dict (dict_get bundle (lit "Event")));
    destruct (nonempty_str (dict_get bundle (lit "Event_Hash")));
    cbn [negb];
    try (intros [= <- <-]; reflexivity).
  destruct (HashEvent.hash_event (dict_get bundle (lit "Event")) sha256_name)
    as [computed_hash|exc]; [|intros [= <- <-]; reflexivity].
  destruct (py_eq (PyStr (lit computed_hash)) (dict_get bundle (lit "Event_Hash")));
    destruct (dict_get bundle (lit "Index_Entry")) as [| | | | | |entry|];
    cbn [negb is_none];
    try destruct (py_eq (dict_get entry Hash) (dict_get bundle (lit "Event_Hash")));
    cbn [negb]; intros [= <- <-]; reflexivity.
Qed.

Lemma challenge_bundle_ok_iff_no_findings (bundle : pydict)
    (out : list VerifyBundle.message) (ok : bool) :
  VerifyBundle.verify_challenge_bundle bundle [] = (out, Ok ok) ->
  ok = no_findings (VerifyBundle.findings out).
Proof.
  unfold VerifyBundle.verify_challenge_bundle.
  unfold pbind, lift, ret, write, modify, value_get.
  destruct (is_dict (dict_get bundle (lit "Challenge")));
    destruct (nonempty_str (dict_get bundle (lit "Challenge_Hash")));
    cbn [negb];
    try (intros [= <- <-]; reflexivity).
  destruct (HashChallenge.hash_challenge (dict_get bundle (lit "Challenge")) sha256_name)
    as [computed_hash|exc]; [|intros [= <- <-]; reflexivity].
  destruct (py_eq (PyStr (lit computed_hash)) (dict_get bundle (lit "Challenge_Hash")));
    destruct (dict_get bundle (lit "Index_Entry")) as [| | | | | |entry|];
    cbn [negb is_none];
    try destruct (py_eq (dict_get entry Hash) (dict_get bundle (lit "Challenge_Hash")));
    cbn [negb]; intros [= <- <-]; reflexivity.
Qed.
End BundleResult.

(** C5, amended: for a bundle that passes the structural check, whose record
    can be hashed and whose index entry, when there is one, is a mapping,
    the comparison of the recomputed hash with the bundle's hash and the
    comparison of the index entry's hash with the bundle's hash are both made
    and each reports its own finding, whatever the other found; and whenever
    verification returns, [ok] is true iff it reported no finding.  This holds
    for event bundles and for challenge bundles. *)
Theorem bundle_comparisons_both_reported `{Runtime} (bundle : pydict) :
  (forall computed_hash,
     is_dict (dict_get bundle (lit "Event")) = true ->
     nonempty_str (dict_get bundle (lit "Event_Hash")) = true ->
     absent_or_mapping (dict_get bundle (lit "Index_Entry")) = true ->
     HashEvent.hash_event (dict_get bundle (lit "Event")) sha256_name = Ok computed_hash ->
     let run := VerifyBundle.verify_event_bundle bundle [] in
     VerifyBundle.findings (fst run)
       = bundle_findings (dict_get bundle (lit "Event_Hash")) computed_hash
           (dict_get bundle (lit "Index_Entry")) /\
     snd run = Ok (no_findings (VerifyBundle.findings (fst run)))) /\
  (forall computed_hash,
     is_dict (dict_get bundle (lit "Challenge")) = true ->
     nonempty_str (dict_get bundle (lit "Challenge_Hash")) = true ->
     absent_or_mapping (dict_get bundle (lit "Index_Entry")) = true ->
     HashChallenge.hash_challenge (dict_get bundle (lit "Challenge")) sha256_name
       = Ok computed_hash ->
     let run := VerifyBundle.verify_challenge_bundle bundle [] in
     VerifyBundle.findings (fst run)
       = bundle_findings (dict_get bundle (lit "Challenge_Hash")) computed_hash
           (dict_get bundle (lit "Index_Entry")) /\
     snd run = Ok (no_findings (VerifyBundle.findings (fst run)))) /\
  (forall out ok,
     VerifyBundle.verify_event_bundle bundle [] = (out, Ok ok) ->
     ok = no_findings (VerifyBundle.findings out)) /\
  (forall out ok,
     VerifyBundle.verify_challenge_bundle bundle [] = (out, Ok ok) ->
     ok = no_findings (VerifyBundle.findings out)).
Proof.
  repeat apply conj.
  - intros computed_hash. apply event_bundle_after_hash.
  - intros computed_hash. apply challenge_bundle_after_hash.
  - apply event_bundle_ok_iff_no_findings.
  - apply challenge_bundle_ok_iff_no_findings.
Qed.

(** Both findings together, on a bundle whose stored hash and index hash are
    both wrong. *)
Lemma bundle_comparisons_both_reported_witness :
  VerifyBundle.findings
    (fst (@VerifyBundle.verify_event_bundle sample_runtime bundle_two_mismatches []))
    = [VerifyBundle.ErrHashMismatch (PyStr (lit "aa")) "13";
       VerifyBundle.ErrIndexHashMismatch (PyStr (lit "bb")) (PyStr (lit "aa"))] /\
  VerifyBundle.findings
    (fst (@VerifyBundle.verify_challenge_bundle sample_runtime
            challenge_bundle_two_mismatches []))
    = [VerifyBundle.ErrHashMismatch (PyStr (lit "aa")) "13";
       VerifyBundle.ErrIndexHashMismatch (PyStr (lit "bb")) (PyStr (lit "aa"))].
Proof.
  split.
  - exact (proj1 (proj1 (@bundle_comparisons_both_reported sample_runtime
                           bundle_two_mismatches)
                    "13"%string eq_refl eq_refl eq_refl eq_refl)).
  - exact (proj1 (proj1 (proj2 (@bundle_comparisons_both_reported sample_runtime
                                  challenge_bundle_two_mismatches))
                    "13"%string eq_refl eq_refl eq_refl eq_refl)).
Defined.

(** C5 as stated fails under every interpreter: [bundle_unhashable] passes
    the structural check and has an index entry with another hash, yet the
    hash of its record cannot be computed, verification returns there, and
    the index entry is never compared. *)
Lemma hash_failure_skips_index_comparison :
  ~ exists rt : Runtime,
      forall bundle entry,
        is_dict (dict_get bundle (lit "Event")) = true ->
        nonempty_str (dict_get bundle (lit "Event_Hash")) = true ->
        dict_get bundle (lit "Index_Entry") = PyDict entry ->
        py_eq (dict_get entry Hash) (dict_get bundle (lit "Event_Hash")) = false ->
        In (VerifyBundle.ErrIndexHashMismatch (dict_get entry Hash)
              (dict_get bundle (lit "Event_Hash")))
           (VerifyBundle.findings
              (fst (@VerifyBundle.verify_event_bundle rt bundle []))).
Proof.
  intros [rt Hclaim].
  specialize (Hclaim bundle_unhashable [(Hash, PyStr (lit "bb"))]
                eq_refl eq_refl eq_refl eq_refl).
  vm_compute in Hclaim.
  destruct Hclaim as [Hfirst|[]]. discriminate Hfirst.
Qed.

(** ** Custody verification *)

Lemma scan_well_formed (entries : list pyvalue) :
  forall (i : Z) (ok : bool) (previous : option pystr)
         (out : list VerifyCustody.message),
  forallb entry_well_formed entries = true ->
  VerifyCustody.scan_entries entries i ok (last_ts_of previous) out
    = (out ++ map VerifyCustody.ErrOrder
                (order_violations (timestamps entries) i previous),
       Ok (ok && no_findings (order_violations (timestamps entries) i previous))).
Proof.
  induction entries as [|entry rest IH]; intros i ok previous out Hwf.
  - simpl. now rewrite app_nil_r, andb_true_r.
  - cbn [forallb] in Hwf. apply andb_true_iff in Hwf as [Hentry Hrest].
    destruct entry as [| | | | | |d|]; try discriminate Hentry.
    cbn [entry_well_formed] in Hentry.
    apply andb_true_iff in Hentry as [Hentry Haction].
    apply andb_true_iff in Hentry as [Hentry Hrole].
    apply andb_true_iff in Hentry as [Hts Hholder].
    cbn [VerifyCustody.scan_entries timestamps map entry_timestamp order_violations].
    unfold pbind, lift, ret, write, modify, value_get.
    rewrite Hts, Hholder, Hrole, Haction. cbn [negb].
    destruct (dict_get d VerifyCustody.Entry_Timestamp_UTC) as [| | | |ts| | |];
      try discriminate Hts.
    fold (timestamps rest).
    destruct previous as [p|]; cbn [last_ts_of is_none negb py_le].
    + destruct (str_leb ts p).
      * rewrite (IH (i + 1) false (Some ts) _ Hrest).
        cbn [app map no_findings]. rewrite <- app_assoc, andb_false_r. reflexivity.
      * rewrite (IH (i + 1) ok (Some ts) _ Hrest). reflexivity.
    + rewrite (IH (i + 1) ok (Some ts) _ Hrest). reflexivity.
Qed.

Lemma ascending_no_violation (tss : list pystr) :
  forall (p : pystr) (i : Z),
  ascending (p :: tss) = true -> order_violations tss i (Some p) = [].
Proof.
  induction tss as [|ts rest IH]; intros p i Hasc; [reflexivity|].
  cbn [ascending] in Hasc. apply andb_true_iff in Hasc as [Hlt Hrest].
  apply negb_true_iff in Hlt.
  cbn [order_violations]. rewrite Hlt. cbn [app]. now apply IH.
Qed.

Lemma ascending_from_start (tss : list pystr) (i : Z) :
  ascending tss = true -> order_violations tss i None = [].
Proof.
  destruct tss as [|ts rest]; [reflexivity|].
  intros Hasc. cbn [order_violations app]. now apply ascending_no_violation.
Qed.

(** A run in order, then an entry [bad] not later than its predecessor
    [prev], then a run in order from [bad]: only [bad] is out of order. *)
Lemma one_violation (before after : list pystr) (prev bad : pystr) :
  forall (i : Z) (previous : option pystr),
  order_violations (before ++ [prev]) i previous = [] ->
  str_leb bad prev = true ->
  ascending (bad :: after) = true ->
  order_violations (before ++ prev :: bad :: after) i previous
    = [i + Z.of_nat (length before) + 1].
Proof.
  induction before as [|ts rest IH]; intros i previous Hbefore Hbad Hafter.
  - cbn [app order_violations] in *.
    rewrite Hbad, (ascending_no_violation after bad _ Hafter).
    apply app_eq_nil in Hbefore as [-> _]. cbn. f_equal. lia.
  - cbn [app order_violations] in *.
    apply app_eq_nil in Hbefore as [-> Hrest]. cbn [app].
    rewrite (IH (i + 1) (Some ts) Hrest Hbad Hafter).
    f_equal. cbn [length]. lia.
Qed.

Lemma verify_well_formed_log (coc : pydict) (entries : list pyvalue) :
  nonempty_str (dict_get coc Event_ID) = true ->
  nonempty_str (dict_get coc Event_Hash) = true ->
  dict_get coc VerifyCustody.Chain_Of_Custody = PyList entries ->
  forallb entry_well_formed entries = true ->
  let violations := order_violations (timestamps entries) 1 None in
  VerifyCustody.verify_chain_of_custody coc []
    = (map VerifyCustody.ErrOrder violations
         ++ (if no_findings violations then [VerifyCustody.OkVerified] else []),
       Ok (no_findings violations)).
Proof.
  intros Hid Hhash Hentries Hwf violations.
  unfold VerifyCustody.verify_chain_of_custody.
  rewrite Hid, Hhash, Hentries. cbn [negb].
  pose proof (scan_well_formed entries 1 true None [] Hwf) as Hscan.
  cbn [last_ts_of app andb] in Hscan. fold violations in Hscan.
  unfold pbind, ret, write, modify. rewrite Hscan.
  destruct (no_findings violations); [reflexivity|].
  now rewrite app_nil_r.
Qed.

(** C6: on a custody log with its identity fields set and every entry well
    formed, timestamps in strictly increasing order make verification write
    no finding and return [True]; and when exactly one entry [bad] is not
    later than its predecessor (the entries before it in order, and the
    entries from [bad] on in order), verification writes exactly one ordering
    finding, for [bad], and nothing for the entries after it. *)
Theorem custody_ordering (coc : pydict) (entries : list pyvalue) :
  nonempty_str (dict_get coc Event_ID) = true ->
  nonempty_str (dict_get coc Event_Hash) = true ->
  dict_get coc VerifyCustody.Chain_Of_Custody = PyList entries ->
  forallb entry_well_formed entries = true ->
  (ascending (timestamps entries) = true ->
   VerifyCustody.verify_chain_of_custody coc []
     = ([VerifyCustody.OkVerified], Ok true)) /\
  (forall before prev bad after,
     entries = before ++ prev :: bad :: after ->
     ascending (timestamps (before ++ [prev])) = true ->
     str_leb (entry_timestamp bad) (entry_timestamp prev) = true ->
     ascending (timestamps (bad :: after)) = true ->
     VerifyCustody.verify_chain_of_custody coc []
       = ([VerifyCustody.ErrOrder (Z.of_nat (length before) + 2)], Ok false)).
Proof.
  intros Hid Hhash Hentries Hwf.
  rewrite (verify_well_formed_log coc entries Hid Hhash Hentries Hwf).
  split.
  - intros Hasc. now rewrite (ascending_from_start _ 1 Hasc).
  - intros before prev bad after -> Hbefore Hbad Hafter.
    unfold timestamps in *. rewrite map_app in *. cbn [map] in *.
    rewrite (one_violation _ _ _ _ 1 None
               (ascending_from_start _ 1 Hbefore) Hbad Hafter).
    rewrite length_map. cbn [map app no_findings].
    do 2 f_equal. f_equal. lia.
Qed.

(** [T1 < T2 < T3] in order, and [T2] placed before [T1]. *)
Lemma custody_ordering_witness :
  VerifyCustody.verify_chain_of_custody log_in_order []
    = ([VerifyCustody.OkVerified], Ok true) /\
  VerifyCustody.verify_chain_of_custody log_out_of_order []
    = ([VerifyCustody.ErrOrder 2], Ok false).
Proof.
  split.
  - exact (proj1 (custody_ordering log_in_order _ eq_refl eq_refl eq_refl eq_refl)
             eq_refl).
  - exact (proj2 (custody_ordering log_out_of_order _ eq_refl eq_refl eq_refl eq_refl)
             [] (custody_entry T2 "A") (custody_entry T1 "B") [custody_entry T3 "C"]
             eq_refl eq_refl eq_refl eq_refl).
Defined.

(** C8, at a log whose second entry has no timestamp: the missing timestamp
    is reported, and the comparison of [None] with the previous timestamp
    then raises a [TypeError]; verification does not run to completion. *)
Theorem missing_timestamp_raises :
  VerifyCustody.verify_chain_of_custody log_missing_timestamp []
    = ([VerifyCustody.ErrTimestamp 2 PyNone], Raise TypeError).
Proof. reflexivity. Qed.

(** ** Appending to a custody log *)

Lemma dict_item_bound (d : pydict) (k : pystr) :
  is_none (dict_get d k) = false -> dict_item d k = Ok (dict_get d k).
Proof.
  unfold dict_get, dict_item. now destruct (dict_lookup d k).
Qed.

Lemma dict_lookup_set_other (d : pydict) (k k' : pystr) (v : pyvalue) :
  k <> k' -> dict_lookup (dict_set d k v) k' = dict_lookup d k'.
Proof.
  intros Hne. induction d as [|[key x] r IH]; simpl.
  - destruct (str_eqb k k') eqn:Hk; [|reflexivity].
    apply str_eqb_eq in Hk. contradiction.
  - destruct (str_eqb key k) eqn:Hkey; simpl.
    + apply str_eqb_eq in Hkey. subst key.
      destruct (str_eqb k k') eqn:Hk; [|reflexivity].
      apply str_eqb_eq in Hk. contradiction.
    + now rewrite IH.
Qed.

Lemma dict_get_set_other (d : pydict) (k k' : pystr) (v : pyvalue) :
  k <> k' -> dict_get (dict_set d k v) k' = dict_get d k'.
Proof. intros Hne. unfold dict_get. now rewrite dict_lookup_set_other. Qed.

(** C7, amended: appending to a log whose [Event_ID] is bound and differs
    from the supplied one raises the record-identity error, and appending to
    a log whose [Event_ID] agrees (or is unset) and whose [Event_Hash] is
    bound and differs raises the hash-identity error.  The log is left exactly
    as it was by the first, and by the second when its [Event_ID] was already
    bound; when it was unset, the log is left with [Event_ID] bound to the
    supplied one and nothing else changed: no entry is appended and
    [Event_Hash] is not rebound. *)
Theorem append_identity_mismatch (coc : pydict)
    (event_id event_hash bundle_file holder_name holder_role action
     location notes now_utc : pystr)
    (append := ExportCustody.append_coc_entry event_id event_hash bundle_file
                 holder_name holder_role action location notes now_utc) :
  (is_none (dict_get coc Event_ID) = false ->
   py_eq (dict_get coc Event_ID) (PyStr event_id) = false ->
   append coc = (coc, Raise ExportCustody.record_identity_mismatch)) /\
  (is_none (dict_get coc Event_ID) = false ->
   py_eq (dict_get coc Event_ID) (PyStr event_id) = true ->
   is_none (dict_get coc Event_Hash) = false ->
   py_eq (dict_get coc Event_Hash) (PyStr event_hash) = false ->
   append coc = (coc, Raise ExportCustody.hash_identity_mismatch)) /\
  (is_none (dict_get coc Event_ID) = true ->
   is_none (dict_get coc Event_Hash) = false ->
   py_eq (dict_get coc Event_Hash) (PyStr event_hash) = false ->
   append coc = (dict_set coc Event_ID (PyStr event_id),
                 Raise ExportCustody.hash_identity_mismatch) /\
   dict_get (dict_set coc Event_ID (PyStr event_id)) VerifyCustody.Chain_Of_Custody
     = dict_get coc VerifyCustody.Chain_Of_Custody /\
   dict_get (dict_set coc Event_ID (PyStr event_id)) Event_Hash
     = dict_get coc Event_Hash).
Proof.
  subst append. unfold ExportCustody.append_coc_entry.
  unfold ExportCustody.get, ExportCustody.item, ExportCustody.set_item.
  unfold pbind, gets, modify, ret, raise.
  repeat apply conj.
  - intros Hbound Hdiff.
    rewrite Hbound, (dict_item_bound _ _ Hbound), Hdiff. reflexivity.
  - intros Hbound Hsame Hhash Hdiff.
    rewrite Hbound, (dict_item_bound _ _ Hbound), Hsame. cbn [negb].
    rewrite Hhash, (dict_item_bound _ _ Hhash), Hdiff. reflexivity.
  - intros Hunset Hhash Hdiff.
    assert (Hkeep : dict_get (dict_set coc Event_ID (PyStr event_id)) Event_Hash
                    = dict_get coc Event_Hash)
      by (apply dict_get_set_other; discriminate).
    rewrite Hunset. rewrite Hkeep.
    rewrite Hhash.
    assert (Hbound' : is_none (dict_get (dict_set coc Event_ID (PyStr event_id))
                                 Event_Hash) = false) by now rewrite Hkeep.
    rewrite (dict_item_bound _ _ Hbound'), Hkeep, Hdiff.
    repeat split.
    + apply dict_get_set_other. discriminate.
Qed.

(** A log bound to [E1] and [h1]: appending for [E2] fails and leaves it as
    it was; so does appending for [E1] with the hash [h2].  A log with
    [Event_ID] unset and bound to [h1]: appending for [E1] with [h2] fails
    with [Event_ID] set. *)
Lemma append_identity_mismatch_witness :
  ExportCustody.append_coc_entry (lit "E2") (lit "h1") (lit "bundle.json")
    (lit "B") (lit "Attorney") (lit "Transferred") [] [] (lit "2025-01-12T18:42:11Z")
    log_bound
    = (log_bound, Raise ExportCustody.record_identity_mismatch) /\
  ExportCustody.append_coc_entry (lit "E1") (lit "h2") (lit "bundle.json")
    (lit "B") (lit "Attorney") (lit "Transferred") [] [] (lit "2025-01-12T18:42:11Z")
    log_bound
    = (log_bound, Raise ExportCustody.hash_identity_mismatch) /\
  append_to_log_hash_only
    = (dict_set log_hash_only Event_ID (PyStr (lit "E1")),
       Raise ExportCustody.hash_identity_mismatch).
Proof.
  split; [|split].
  - exact (proj1 (append_identity_mismatch log_bound (lit "E2") (lit "h1")
                    (lit "bundle.json") (lit "B") (lit "Attorney") (lit "Transferred")
                    [] [] (lit "2025-01-12T18:42:11Z"))
             eq_refl eq_refl).
  - exact (proj1 (proj2 (append_identity_mismatch log_bound (lit "E1") (lit "h2")
                           (lit "bundle.json") (lit "B") (lit "Attorney")
                           (lit "Transferred") [] [] (lit "2025-01-12T18:42:11Z")))
             eq_refl eq_refl eq_refl eq_refl).
  - exact (proj1 (proj2 (proj2 (append_identity_mismatch log_hash_only (lit "E1")
                                  (lit "h2") (lit "bundle.json") (lit "A")
                                  (lit "Attorney") (lit "Created") [] []
                                  (lit "2025-01-12T18:42:10Z")))
                    eq_refl eq_refl eq_refl)).
Defined.

(** C7 as stated fails: a log whose [Event_ID] is unset and whose
    [Event_Hash] is bound to [h1], appended to for [E1] with the hash [h2]:
    the hash-identity error is raised, and the log is left with [Event_ID]
    newly bound to [E1]. *)
Lemma hash_mismatch_after_binding_event_id :
  snd append_to_log_hash_only = Raise ExportCustody.hash_identity_mismatch /\
  fst append_to_log_hash_only <> log_hash_only /\
  dict_get log_hash_only Event_ID = PyNone /\
  dict_get (fst append_to_log_hash_only) Event_ID = PyStr (lit "E1").
Proof.
  repeat split. discriminate.
Qed.

(* ================================================================== *)
(** * Further properties of the code *)

(** ** Hashing *)

(** X1: the digest of a record does not depend on the order of its keys:
    [hash_event] and [hash_challenge] give the same result, digest or
    exception, on two records equal as unordered key/value structures. *)
Theorem hash_ignores_key_order `{Runtime} (a b : pyvalue) (algorithm : pystr) :
  distinct_keys a = true ->
  same_record a b = true ->
  HashEvent.hash_event a algorithm = HashEvent.hash_event b algorithm /\
  HashChallenge.hash_challenge a algorithm = HashChallenge.hash_challenge b algorithm.
Proof.
  intros Hkeys Hsame.
  unfold HashEvent.hash_event, HashChallenge.hash_challenge.
  unfold HashEvent.canonical_serialize, HashChallenge.canonical_serialize.
  rewrite (dumps_same_record a b Hkeys Hsame). split; reflexivity.
Qed.

Lemma hash_ignores_key_order_witness :
  @HashEvent.hash_event sample_runtime record_a1_b2 sha256_name
    = @HashEvent.hash_event sample_runtime record_b2_a1 sha256_name /\
  @HashChallenge.hash_challenge sample_runtime record_a1_b2 sha256_name
    = @HashChallenge.hash_challenge sample_runtime record_b2_a1 sha256_name.
Proof.
  apply (@hash_ignores_key_order sample_runtime); reflexivity.
Defined.

(** ** The sequence audit: no finding means no gap *)

Lemma audit_clean_in_sequence {F} (report : Z -> pyvalue -> pydict -> F)
    (idx : list pydict) :
  forall expected fs,
    SequenceAudit report expected idx fs ->
    (fs = [] <-> in_sequence idx expected = true).
Proof.
  intros expected fs Haudit.
  induction Haudit as [e|e entry rest fs Heq _ IH|e r entry rest fs Hne _ _ _]; simpl.
  - split; reflexivity.
  - rewrite Heq. exact IH.
  - rewrite Hne. split; discriminate.
Qed.

Lemma sequence_audit_index (idx : list pydict) :
  SequenceAudit index_report 1 idx (VerifyIndex.verify_index_sequence idx).
Proof.
  unfold VerifyIndex.verify_index_sequence.
  destruct (index_sequence_loop idx [] 1) as (fs & last & Hfold & Haudit).
  rewrite Hfold. exact Haudit.
Qed.

Lemma sequence_audit_ledger `{Runtime} (label : string) (idx : list pydict) :
  SequenceAudit (VerifyLedger.SeqError label) 1 idx
    (VerifyLedger.verify_index_sequence idx label).
Proof.
  unfold VerifyLedger.verify_index_sequence.
  destruct (ledger_sequence_loop label idx [] 1) as (fs & last & Hfold & Haudit).
  rewrite Hfold. exact Haudit.
Qed.

Lemma index_sequence_clean (idx : list pydict) :
  VerifyIndex.verify_index_sequence idx = [] <-> in_sequence idx 1 = true.
Proof.
  apply (audit_clean_in_sequence index_report). apply sequence_audit_index.
Qed.

Lemma ledger_sequence_clean `{Runtime} (label : string) (idx : list pydict) :
  VerifyLedger.verify_index_sequence idx label = [] <-> in_sequence idx 1 = true.
Proof.
  apply (audit_clean_in_sequence (VerifyLedger.SeqError label)).
  apply sequence_audit_ledger.
Qed.

(** X2: either sequence audit returns no finding exactly when the
    [Index_Seq] values are 1, 2, 3, ... down the index. *)
Theorem sequence_clean_iff_gapless (idx : list pydict) :
  (VerifyIndex.verify_index_sequence idx = [] <-> in_sequence idx 1 = true) /\
  (forall (rt : Runtime) (label : string),
     VerifyLedger.verify_index_sequence idx label = [] <-> in_sequence idx 1 = true).
Proof.
  split.
  - apply index_sequence_clean.
  - intros rt label. apply ledger_sequence_clean.
Qed.

(** ** The hash audits: no finding means every record matches *)

Lemma py_eq_str (s : pystr) (v : pyvalue) : py_eq (PyStr s) v = true <-> v = PyStr s.
Proof.
  destruct v; simpl; split; try discriminate.
  - intros Heq. apply str_eqb_eq in Heq. now subst.
  - intros [= ->]. apply str_eqb_refl.
Qed.

Lemma lit_truthy (text : string) :
  truthy (PyStr (lit text)) = true <-> text <> EmptyString.
Proof. destruct text; simpl; split; congruence. Qed.

Lemma fold_left_collect {A B} (f : A -> list B) (l : list A) :
  forall init, fold_left (fun errors x => errors ++ f x) l init = init ++ flat_map f l.
Proof.
  induction l as [|x r IH]; intros init; simpl.
  - now rewrite app_nil_r.
  - now rewrite IH, <- app_assoc.
Qed.

Lemma flat_map_nil {A B} (f : A -> list B) (l : list A) :
  flat_map f l = [] <-> Forall (fun x => f x = []) l.
Proof.
  induction l as [|x r IH]; simpl.
  - split; [constructor|reflexivity].
  - split.
    + intros Happ. apply app_eq_nil in Happ as [Hx Hr].
      constructor; [exact Hx|now apply IH].
    + intros Hall. inversion Hall as [|? ? Hx Hr]; subst.
      rewrite Hx. now apply IH.
Qed.

Lemma Forall_iff {A} (P Q : A -> Prop) (l : list A) :
  (forall x, P x <-> Q x) -> (Forall P l <-> Forall Q l).
Proof.
  intros HPQ. split; apply Forall_impl; intros x Hx; now apply HPQ.
Qed.

Section HashAudits.
Context `{Runtime}.

(** What a turn of a hash loop finds out, whichever loop it is. *)
Lemma hash_check_clean (hash : pyvalue -> result string) (dir : directory)
    (id_key : pystr) (entry : pydict) :
  (truthy (dict_get entry id_key) = true /\
   truthy (dict_get entry Hash) = true /\
   exists data digest,
     dir (dict_get entry id_key) = JsonFile data /\
     hash data = Ok digest /\
     py_eq (PyStr (lit digest)) (dict_get entry Hash) = true)
  <-> record_matches hash dir id_key entry.
Proof.
  unfold record_matches. split.
  - intros (Hid & Hhash & data & digest & Hfile & Hdigest & Heq).
    apply py_eq_str in Heq. exists data, digest.
    rewrite Heq in Hhash. apply lit_truthy in Hhash. auto.
  - intros (data & digest & Hid & Hfile & Hdigest & Hne & Heq).
    rewrite Heq. repeat split; [exact Hid|now apply lit_truthy|].
    exists data, digest. repeat split; try assumption. now apply py_eq_str.
Qed.

Lemma hash_entry_clean (events_dir : directory) (algo : pystr) (entry : pydict) :
  VerifyIndex.hash_entry_errors events_dir algo entry = [] <->
  record_matches (fun data => HashEvent.hash_event data algo) events_dir Event_ID entry.
Proof.
  rewrite <- hash_check_clean. unfold VerifyIndex.hash_entry_errors.
  destruct (truthy (dict_get entry Event_ID));
    [|split; [discriminate|intros (Hid & _); discriminate]].
  destruct (truthy (dict_get entry Hash));
    [|split; [discriminate|intros (_ & Hh & _); discriminate]].
  cbn [negb orb].
  destruct (events_dir (dict_get entry Event_ID)) as [| |data];
    cbn [VerifyIndex.load_json_file VerifyLedger.load_json_file
         VerifyLedger.path_exists negb];
    try (split; [discriminate|intros (_ & _ & ? & ? & Hfile & _); discriminate]).
  destruct (HashEvent.hash_event data algo) as [digest|exc] eqn:Hdigest.
  - destruct (py_eq (PyStr (lit digest)) (dict_get entry Hash)) eqn:Heq; cbn [negb].
    + split; [|reflexivity]. intros _. repeat split. now exists data, digest.
    + split; [discriminate|].
      intros (_ & _ & data' & digest' & [= <-] & Hd & Heq').
      rewrite Hdigest in Hd. injection Hd as <-. congruence.
  - split; [discriminate|].
    intros (_ & _ & data' & digest' & [= <-] & Hd & _). congruence.
Qed.

Lemma event_entry_clean (events_dir : directory) (entry : pydict) :
  VerifyLedger.event_entry_errors events_dir entry = [] <->
  record_matches (fun data => HashEvent.hash_event data sha256_name)
    events_dir Event_ID entry.
Proof.
  rewrite <- hash_check_clean. unfold VerifyLedger.event_entry_errors.
  destruct (truthy (dict_get entry Event_ID));
    [|split; [discriminate|intros (Hid & _); discriminate]].
  destruct (truthy (dict_get entry Hash));
    [|split; [discriminate|intros (_ & Hh & _); discriminate]].
  cbn [negb orb].
  destruct (events_dir (dict_get entry Event_ID)) as [| |data];
    cbn [VerifyIndex.load_json_file VerifyLedger.load_json_file
         VerifyLedger.path_exists negb];
    try (split; [discriminate|intros (_ & _ & ? & ? & Hfile & _); discriminate]).
  destruct (HashEvent.hash_event data sha256_name) as [digest|exc] eqn:Hdigest.
  - destruct (py_eq (PyStr (lit digest)) (dict_get entry Hash)) eqn:Heq; cbn [negb].
    + split; [|reflexivity]. intros _. repeat split. now exists data, digest.
    + split; [discriminate|].
      intros (_ & _ & data' & digest' & [= <-] & Hd & Heq').
      rewrite Hdigest in Hd. injection Hd as <-. congruence.
  - split; [discriminate|].
    intros (_ & _ & data' & digest' & [= <-] & Hd & _). congruence.
Qed.

Lemma link_check_clean (known_event_ids : list pystr) (entry : pydict) :
  truthy (dict_get entry VerifyLedger.Challenged_Event_ID)
  && negb (existsb
             (fun k => py_eq (PyStr k) (dict_get entry VerifyLedger.Challenged_Event_ID))
             known_event_ids) = false
  <-> link_resolved known_event_ids entry.
Proof.
  unfold link_resolved.
  destruct (truthy (dict_get entry VerifyLedger.Challenged_Event_ID)); cbn [andb].
  - rewrite negb_false_iff, existsb_exists. split.
    + intros (k & Hin & Heq). right. exists k. split; [exact Hin|].
      now apply py_eq_str.
    + intros [Hf|(k & Hin & Heq)]; [discriminate|].
      exists k. split; [exact Hin|]. now apply py_eq_str.
  - split; [now left|reflexivity].
Qed.

Lemma challenge_entry_clean (challenges_dir : directory)
    (known_event_ids : list pystr) (entry : pydict) :
  VerifyLedger.challenge_entry_errors challenges_dir known_event_ids entry = [] <->
  record_matches (fun data => HashChallenge.hash_challenge data sha256_name)
    challenges_dir VerifyLedger.Challenge_ID entry /\
  link_resolved known_event_ids entry.
Proof.
  rewrite <- hash_check_clean, <- link_check_clean.
  unfold VerifyLedger.challenge_entry_errors.
  destruct (truthy (dict_get entry VerifyLedger.Challenge_ID));
    [|split; [discriminate|intros ((Hid & _) & _); discriminate]].
  destruct (truthy (dict_get entry Hash));
    [|split; [discriminate|intros ((_ & Hh & _) & _); discriminate]].
  cbn [negb orb].
  destruct (challenges_dir (dict_get entry VerifyLedger.Challenge_ID)) as [| |data];
    cbn [VerifyLedger.path_exists VerifyLedger.load_json_file negb];
    try (split; [discriminate|intros ((_ & _ & ? & ? & Hfile & _) & _); discriminate]).
  destruct (HashChallenge.hash_challenge data sha256_name) as [digest|exc] eqn:Hdigest.
  - destruct (py_eq (PyStr (lit digest)) (dict_get entry Hash)) eqn:Heq; cbn [negb app].
    + destruct (truthy (dict_get entry VerifyLedger.Challenged_Event_ID)
                && negb (existsb _ known_event_ids)).
      * split; [discriminate|]. intros (_ & Hlink). discriminate.
      * split; [|reflexivity]. intros _. repeat split. now exists data, digest.
    + split; [discriminate|].
      intros ((_ & _ & data' & digest' & [= <-] & Hd & Heq') & _).
      rewrite Hdigest in Hd. injection Hd as <-. congruence.
  - split; [discriminate|].
    intros ((_ & _ & data' & digest' & [= <-] & Hd & _) & _). congruence.
Qed.
End HashAudits.

Lemma index_hashes_clean `{Runtime} (idx : list pydict) (events_dir : directory)
    (algo : pystr) :
  VerifyIndex.verify_index_hashes idx events_dir algo = [] <->
  Forall (record_matches (fun data => HashEvent.hash_event data algo)
            events_dir Event_ID) idx.
Proof.
  unfold VerifyIndex.verify_index_hashes.
  rewrite fold_left_collect, app_nil_l, flat_map_nil.
  apply Forall_iff. intro entry. apply hash_entry_clean.
Qed.

(** X3: [verify_index_hashes] returns no finding exactly when, for every
    entry of the index, the event it names is on file and its recomputed
    hash is the text the entry holds under [Hash]. *)
Theorem index_hashes_clean_iff_all_match `{Runtime} (idx : list pydict)
    (events_dir : directory) (algo : pystr) :
  VerifyIndex.verify_index_hashes idx events_dir algo = [] <->
  Forall (record_matches (fun data => HashEvent.hash_event data algo)
            events_dir Event_ID) idx.
Proof. apply index_hashes_clean. Qed.

Lemma event_index_clean `{Runtime} (idx : list pydict) (events_dir : directory) :
  VerifyLedger.verify_event_index idx events_dir = [] <->
  in_sequence idx 1 = true /\
  Forall (record_matches (fun data => HashEvent.hash_event data sha256_name)
            events_dir Event_ID) idx.
Proof.
  unfold VerifyLedger.verify_event_index. rewrite fold_left_collect.
  split.
  - intros Happ. apply app_eq_nil in Happ as [Hseq Hhash]. split.
    + exact (proj1 (ledger_sequence_clean _ idx) Hseq).
    + apply flat_map_nil in Hhash. revert Hhash.
      apply Forall_impl. intro entry. apply event_entry_clean.
  - intros [Hseq Hall].
    rewrite (proj2 (ledger_sequence_clean "EVENT_INDEX" idx) Hseq). apply flat_map_nil. revert Hall.
    apply Forall_impl. intro entry. apply event_entry_clean.
Qed.

(** X4: the ledger audit and [verify_index.py] give the same verdict on an
    event index: [verify_event_index] returns no finding exactly when
    [verify_index_sequence] and [verify_index_hashes] (with sha256) both
    return none. *)
Theorem index_tools_agree_on_verdict `{Runtime} (idx : list pydict)
    (events_dir : directory) :
  VerifyLedger.verify_event_index idx events_dir = [] <->
  VerifyIndex.verify_index_sequence idx = [] /\
  VerifyIndex.verify_index_hashes idx events_dir sha256_name = [].
Proof.
  rewrite event_index_clean, index_hashes_clean, index_sequence_clean.
  reflexivity.
Qed.

Lemma challenge_index_clean_body `{Runtime} (idx : list pydict)
    (challenges_dir : directory) (known_event_ids : list pystr) :
  VerifyLedger.verify_challenge_index idx challenges_dir known_event_ids = [] <->
  in_sequence idx 1 = true /\
  Forall (record_matches (fun data => HashChallenge.hash_challenge data sha256_name)
            challenges_dir VerifyLedger.Challenge_ID) idx /\
  Forall (link_resolved known_event_ids) idx.
Proof.
  unfold VerifyLedger.verify_challenge_index. rewrite fold_left_collect.
  split.
  - intros Happ. apply app_eq_nil in Happ as [Hseq Hhash]. split.
    + exact (proj1 (ledger_sequence_clean _ idx) Hseq).
    + apply Forall_and_inv. apply flat_map_nil in Hhash. revert Hhash.
      apply Forall_impl. intro entry. apply challenge_entry_clean.
  - intros (Hseq & Hmatch & Hlinks).
    rewrite (proj2 (ledger_sequence_clean "CHALLENGE_INDEX" idx) Hseq).
    apply flat_map_nil. generalize (Forall_and Hmatch Hlinks).
    apply Forall_impl. intro entry. apply challenge_entry_clean.
Qed.

(** X5: [verify_challenge_index] returns no finding exactly when the
    [Index_Seq] values are 1, 2, 3, ..., every challenge named is on file
    with its recomputed hash under [Hash], and every entry names a known
    event or none. *)
Theorem challenge_index_clean_iff `{Runtime} (idx : list pydict)
    (challenges_dir : directory) (known_event_ids : list pystr) :
  VerifyLedger.verify_challenge_index idx challenges_dir known_event_ids = [] <->
  in_sequence idx 1 = true /\
  Forall (record_matches (fun data => HashChallenge.hash_challenge data sha256_name)
            challenges_dir VerifyLedger.Challenge_ID) idx /\
  Forall (link_resolved known_event_ids) idx.
Proof. apply challenge_index_clean_body. Qed.

(** X6: a dangling reference is reported only for an entry of the index, with
    the identifiers that entry holds, and only when the event it names is
    non-empty and is none of the known event identifiers. *)
Theorem dangling_reference_only_when_unknown `{Runtime} (idx : list pydict)
    (challenges_dir : directory) (known_event_ids : list pystr)
    (challenged_event_id challenge_id : pyvalue) :
  In (VerifyLedger.DanglingReference challenged_event_id challenge_id)
     (VerifyLedger.verify_challenge_index idx challenges_dir known_event_ids) ->
  (exists entry,
     In entry idx /\
     dict_get entry VerifyLedger.Challenged_Event_ID = challenged_event_id /\
     dict_get entry VerifyLedger.Challenge_ID = challenge_id) /\
  truthy challenged_event_id = true /\
  (forall k, In k known_event_ids -> challenged_event_id <> PyStr k).
Proof.
  unfold VerifyLedger.verify_challenge_index. rewrite fold_left_collect.
  intros Hin. apply in_app_or in Hin as [Hseq|Hbody].
  - exfalso. unfold VerifyLedger.verify_index_sequence in Hseq.
    destruct (ledger_sequence_loop "CHALLENGE_INDEX" idx [] 1)
      as (fs & last & Hfold & Haudit).
    rewrite Hfold in Hseq. cbn [fst app] in Hseq. clear Hfold.
    induction Haudit; [contradiction|auto|].
    destruct Hseq as [Hhead|Htail]; [discriminate|auto].
  - apply in_flat_map in Hbody as (entry & Hentry & Hin).
    unfold VerifyLedger.challenge_entry_errors in Hin.
    destruct (negb (truthy (dict_get entry VerifyLedger.Challenge_ID))
              || negb (truthy (dict_get entry Hash)));
      [destruct Hin as [Hin|[]]; discriminate|].
    destruct (negb (VerifyLedger.path_exists _));
      [destruct Hin as [Hin|[]]; discriminate|].
    destruct (VerifyLedger.load_json_file _) as [data|exc];
      [|destruct Hin as [Hin|[]]; discriminate].
    destruct (HashChallenge.hash_challenge data sha256_name) as [digest|exc];
      [|destruct Hin as [Hin|[]]; discriminate].
    apply in_app_or in Hin as [Hin|Hin].
    + destruct (negb (py_eq _ _)); [destruct Hin as [Hin|[]]; discriminate|destruct Hin].
    + destruct (truthy (dict_get entry VerifyLedger.Challenged_Event_ID)) eqn:Htruthy;
        [|destruct Hin].
      cbn [andb] in Hin.
      destruct (existsb _ known_event_ids) eqn:Hknown; [destruct Hin|].
      destruct Hin as [[= <- <-]|[]].
      repeat split.
      * now exists entry.
      * exact Htruthy.
      * intros k Hk Heq.
        assert (Hex : existsb
                        (fun k => py_eq (PyStr k)
                                    (dict_get entry VerifyLedger.Challenged_Event_ID))
                        known_event_ids = true).
        { apply existsb_exists. exists k. split; [exact Hk|]. now apply py_eq_str. }
        congruence.
Qed.

Lemma dangling_reference_only_when_unknown_witness :
  (exists entry,
     In entry [dangling_challenge_entry] /\
     dict_get entry VerifyLedger.Challenged_Event_ID = PyStr (lit "E-404") /\
     dict_get entry VerifyLedger.Challenge_ID = PyStr (lit "C-1")) /\
  truthy (PyStr (lit "E-404")) = true /\
  (forall k, In k [lit "E-1"] -> PyStr (lit "E-404") <> PyStr k).
Proof.
  apply (@dangling_reference_only_when_unknown sample_runtime
           [dangling_challenge_entry] full_directory [lit "E-1"]).
  right. left. reflexivity.
Defined.

(** ** The command-line tools *)

Lemma index_as_entries (items : list pyvalue) (entries : list pydict) :
  VerifyIndex.as_entries items = Ok entries <-> items = map PyDict entries.
Proof.
  revert entries. induction items as [|item rest IH]; intros entries; simpl.
  - split.
    + intros [= <-]. reflexivity.
    + destruct entries; [reflexivity|discriminate].
  - destruct item; try (split; [discriminate|destruct entries; discriminate]).
    destruct (VerifyIndex.as_entries rest) as [tail|e]; simpl.
    + split.
      * intros [= <-]. simpl. f_equal. now apply IH.
      * destruct entries as [|d' entries]; [discriminate|].
        intros [= -> Hrest]. apply IH in Hrest. injection Hrest as ->. reflexivity.
    + split; [discriminate|].
      destruct entries as [|d' entries]; [discriminate|].
      intros [= -> Hrest]. apply IH in Hrest. discriminate.
Qed.

Lemma ledger_as_entries (items : list pyvalue) (entries : list pydict) :
  VerifyLedger.as_entries items = Ok entries <-> items = map PyDict entries.
Proof.
  revert entries. induction items as [|item rest IH]; intros entries; simpl.
  - split.
    + intros [= <-]. reflexivity.
    + destruct entries; [reflexivity|discriminate].
  - destruct item; try (split; [discriminate|destruct entries; discriminate]).
    destruct (VerifyLedger.as_entries rest) as [tail|e]; simpl.
    + split.
      * intros [= <-]. simpl. f_equal. now apply IH.
      * destruct entries as [|d' entries]; [discriminate|].
        intros [= -> Hrest]. apply IH in Hrest. injection Hrest as ->. reflexivity.
    + split; [discriminate|].
      destruct entries as [|d' entries]; [discriminate|].
      intros [= -> Hrest]. apply IH in Hrest. discriminate.
Qed.

Lemma map_PyDict_inj (l m : list pydict) : map PyDict l = map PyDict m -> l = m.
Proof.
  revert m. induction l as [|d l IH]; intros [|d' m]; simpl; try discriminate.
  - reflexivity.
  - intros [= -> Hrest]. f_equal. now apply IH.
Qed.

Lemma verify_index_passes `{Runtime} (index_file : file_state)
    (events_dir : directory) (algorithm : pystr) :
  VerifyIndex.main index_file events_dir algorithm = Ok (VerifyIndex.Passed, 0) <->
  exists idx,
    index_file = JsonFile (PyList (map PyDict idx)) /\
    in_sequence idx 1 = true /\
    Forall (record_matches (fun data => HashEvent.hash_event data algorithm)
              events_dir Event_ID) idx.
Proof.
  unfold VerifyIndex.main. split.
  - intros Hmain.
    destruct index_file as [| |content]; cbn [VerifyIndex.load_json_file] in *;
      try discriminate.
    destruct content as [| | | | |items| |]; try discriminate.
    destruct (VerifyIndex.as_entries items) as [idx|e] eqn:Hitems; [|discriminate].
    cbn [bind] in *.
    destruct (VerifyIndex.verify_index_sequence idx) eqn:Hseq;
      destruct (VerifyIndex.verify_index_hashes idx events_dir algorithm) eqn:Hhash;
      try discriminate.
    exists idx. apply index_as_entries in Hitems.
    apply index_sequence_clean in Hseq. apply index_hashes_clean in Hhash.
    subst items. auto.
  - intros (idx & -> & Hseq & Hhash). cbn [VerifyIndex.load_json_file].
    rewrite (proj2 (index_as_entries (map PyDict idx) idx) eq_refl). cbn [bind].
    apply index_sequence_clean in Hseq. apply index_hashes_clean in Hhash.
    now rewrite Hseq, Hhash.
Qed.

(** X7: [verify_index.py] reports [Passed] and exits with 0 exactly when the
    index file is a JSON array of mappings whose [Index_Seq] values are
    1, 2, 3, ... and whose every entry names an event on file with its
    recomputed hash under [Hash]; whenever it returns, its exit code is 0
    with [Passed] and 1 with every other report. *)
Theorem verify_index_exit_code `{Runtime} (index_file : file_state)
    (events_dir : directory) (algorithm : pystr) :
  (VerifyIndex.main index_file events_dir algorithm = Ok (VerifyIndex.Passed, 0) <->
   exists idx,
     index_file = JsonFile (PyList (map PyDict idx)) /\
     in_sequence idx 1 = true /\
     Forall (record_matches (fun data => HashEvent.hash_event data algorithm)
               events_dir Event_ID) idx) /\
  (forall report code,
     VerifyIndex.main index_file events_dir algorithm = Ok (report, code) ->
     (report = VerifyIndex.Passed /\ code = 0) \/
     (report <> VerifyIndex.Passed /\ code = 1)).
Proof.
  split; [apply verify_index_passes|].
  intros report code. unfold VerifyIndex.main.
  destruct (VerifyIndex.load_json_file index_file) as [content|exc];
    [|intros [= <- <-]; right; split; [discriminate|reflexivity]].
  destruct content as [| | | | |items| |];
    try (intros [= <- <-]; right; split; [discriminate|reflexivity]).
  destruct (VerifyIndex.as_entries items) as [idx|e]; [|discriminate].
  cbn [bind].
  destruct (VerifyIndex.verify_index_sequence idx);
    destruct (VerifyIndex.verify_index_hashes idx events_dir algorithm);
    intros [= <- <-]; auto; right; (split; [discriminate|reflexivity]).
Qed.

Lemma load_index_clean (index_file : file_state) (items : list pyvalue) :
  VerifyLedger.load_index index_file = (items, []) <->
  index_file = JsonFile (PyList items).
Proof.
  unfold VerifyLedger.load_index.
  destruct index_file as [| |content]; cbn [VerifyLedger.load_json_file];
    try (split; discriminate).
  destruct content; split; try discriminate; intros [= <-]; reflexivity.
Qed.

Lemma known_event_ids_In (events : list pydict) (k : pystr) :
  In k (VerifyLedger.known_event_ids_of events) <->
  exists entry, In entry events /\ dict_get entry Event_ID = PyStr k.
Proof.
  unfold VerifyLedger.known_event_ids_of. rewrite in_flat_map.
  split; intros (entry & Hentry & Hk); exists entry; (split; [exact Hentry|]).
  - destruct (dict_get entry Event_ID); try contradiction.
    destruct Hk as [->|[]]. reflexivity.
  - rewrite Hk. now left.
Qed.

Lemma link_resolved_by_event_index (events : list pydict) (entry : pydict) :
  link_resolved (VerifyLedger.known_event_ids_of events) entry <->
  truthy (dict_get entry VerifyLedger.Challenged_Event_ID) = false \/
  exists event k,
    In event events /\ dict_get event Event_ID = PyStr k /\
    dict_get entry VerifyLedger.Challenged_Event_ID = PyStr k.
Proof.
  unfold link_resolved. split; (intros [Hnone|Hsome]; [now left|right]).
  - destruct Hsome as (k & Hin & Hk). apply known_event_ids_In in Hin as (event & ? & ?).
    now exists event, k.
  - destruct Hsome as (event & k & Hin & Hid & Hk). exists k.
    split; [|exact Hk]. apply known_event_ids_In. now exists event.
Qed.

Section LedgerMain.
Context `{Runtime}.

Lemma skip_empty_event_index (events : list pydict) (events_dir : directory) :
  match events with
  | [] => []
  | _ :: _ => VerifyLedger.verify_event_index events events_dir
  end = VerifyLedger.verify_event_index events events_dir.
Proof. now destruct events. Qed.

Lemma skip_empty_challenge_index (challenges : list pydict)
    (challenges_dir : directory) (known : list pystr) :
  match challenges with
  | [] => []
  | _ :: _ => VerifyLedger.verify_challenge_index challenges challenges_dir known
  end = VerifyLedger.verify_challenge_index challenges challenges_dir known.
Proof. now destruct challenges. Qed.

Lemma ledger_audit_passes (event_index_file challenge_index_file : file_state)
    (events_dir challenges_dir : directory) :
  (exists collected,
     VerifyLedger.main event_index_file challenge_index_file events_dir challenges_dir
       = Ok (collected, 0)) <->
  exists events challenges,
    event_index_file = JsonFile (PyList (map PyDict events)) /\
    challenge_index_file = JsonFile (PyList (map PyDict challenges)) /\
    VerifyLedger.verify_event_index events events_dir = [] /\
    VerifyLedger.verify_challenge_index challenges challenges_dir
      (VerifyLedger.known_event_ids_of events) = [].
Proof.
  unfold VerifyLedger.main. split.
  - intros [collected Hmain].
    destruct (VerifyLedger.load_index event_index_file) as [event_items event_load]
      eqn:Hevents.
    destruct (VerifyLedger.load_index challenge_index_file)
      as [challenge_items challenge_load] eqn:Hchallenges.
    destruct (VerifyLedger.as_entries event_items) as [events|e] eqn:Hev;
      [|discriminate].
    cbn [bind] in Hmain.
    destruct (VerifyLedger.as_entries challenge_items) as [challenges|e] eqn:Hch;
      [|discriminate].
    cbn [bind] in Hmain.
    rewrite skip_empty_event_index, skip_empty_challenge_index in Hmain.
    unfold VerifyLedger.audit_clean in Hmain.
    cbn [VerifyLedger.event_load_errors VerifyLedger.challenge_load_errors
         VerifyLedger.event_errors VerifyLedger.challenge_errors] in Hmain.
    destruct event_load; [|discriminate].
    destruct challenge_load; [|discriminate].
    destruct (VerifyLedger.verify_event_index events events_dir) eqn:Hclean_e;
      [|discriminate].
    destruct (VerifyLedger.verify_challenge_index challenges challenges_dir _)
      eqn:Hclean_c; [|discriminate].
    apply load_index_clean in Hevents, Hchallenges.
    apply ledger_as_entries in Hev, Hch. subst.
    exists events, challenges. auto.
  - intros (events & challenges & -> & -> & Hclean_e & Hclean_c).
    cbn [VerifyLedger.load_index VerifyLedger.load_json_file].
    rewrite (proj2 (ledger_as_entries (map PyDict events) events) eq_refl).
    cbn [bind].
    rewrite (proj2 (ledger_as_entries (map PyDict challenges) challenges) eq_refl).
    cbn [bind].
    rewrite skip_empty_event_index, skip_empty_challenge_index, Hclean_e, Hclean_c.
    eexists. reflexivity.
Qed.
End LedgerMain.

(** X8: the ledger audit exits with 0 exactly when both index files are JSON
    arrays of mappings, each with [Index_Seq] 1, 2, 3, ..., every event and
    every challenge named is on file with its recomputed hash under [Hash],
    and every challenge entry names no event or the [Event_ID], a string, of
    an entry of the event index. *)
Theorem ledger_audit_exit_code `{Runtime}
    (event_index_file challenge_index_file : file_state)
    (events_dir challenges_dir : directory) :
  (exists collected,
     VerifyLedger.main event_index_file challenge_index_file events_dir challenges_dir
       = Ok (collected, 0)) <->
  exists events challenges,
    event_index_file = JsonFile (PyList (map PyDict events)) /\
    challenge_index_file = JsonFile (PyList (map PyDict challenges)) /\
    in_sequence events 1 = true /\
    Forall (record_matches (fun data => HashEvent.hash_event data sha256_name)
              events_dir Event_ID) events /\
    in_sequence challenges 1 = true /\
    Forall (record_matches (fun data => HashChallenge.hash_challenge data sha256_name)
              challenges_dir VerifyLedger.Challenge_ID) challenges /\
    Forall (fun entry =>
              truthy (dict_get entry VerifyLedger.Challenged_Event_ID) = false \/
              exists event k,
                In event events /\ dict_get event Event_ID = PyStr k /\
                dict_get entry VerifyLedger.Challenged_Event_ID = PyStr k)
      challenges.
Proof.
  rewrite ledger_audit_passes.
  split; intros (events & challenges & Hef & Hcf & Hrest); exists events, challenges;
    (split; [exact Hef|split; [exact Hcf|]]).
  - destruct Hrest as [He Hc].
    apply event_index_clean in He as [Hseq_e Hmatch_e].
    apply challenge_index_clean_body in Hc as (Hseq_c & Hmatch_c & Hlinks).
    repeat split; try assumption.
    revert Hlinks. apply Forall_impl. intro entry. apply link_resolved_by_event_index.
  - destruct Hrest as (Hseq_e & Hmatch_e & Hseq_c & Hmatch_c & Hlinks).
    split.
    + apply event_index_clean. now split.
    + apply challenge_index_clean_body. repeat split; try assumption.
      revert Hlinks. apply Forall_impl. intro entry. apply link_resolved_by_event_index.
Qed.

(** ** Bundle verification: when it passes *)

Lemma py_eq_str_r (v : pyvalue) (s : pystr) : py_eq v (PyStr s) = true <-> v = PyStr s.
Proof.
  destruct v as [|b|z|f|t|l|d|i]; simpl; split; try discriminate.
  - intros Heq. apply str_eqb_eq in Heq. now subst.
  - intros [= ->]. apply str_eqb_refl.
Qed.

Lemma nonempty_str_lit (v : pyvalue) (digest : string) :
  v = PyStr (lit digest) -> (nonempty_str v = true <-> digest <> EmptyString).
Proof. intros ->. destruct digest; simpl; split; congruence. Qed.

Section BundlePass.
Context `{Runtime}.

Lemma bundle_verdict (bundle_hash : pyvalue) (computed_hash : string)
    (index_entry : pyvalue) :
  nonempty_str bundle_hash = true ->
  absent_or_mapping index_entry = true ->
  (no_findings (bundle_findings bundle_hash computed_hash index_entry) = true <->
   computed_hash <> EmptyString /\
   bundle_hash = PyStr (lit computed_hash) /\
   (index_entry = PyNone \/
    exists entry, index_entry = PyDict entry /\
                  dict_get entry Hash = PyStr (lit computed_hash))).
Proof.
  intros Hhash Hindex. unfold bundle_findings.
  destruct (py_eq (PyStr (lit computed_hash)) bundle_hash) eqn:Heq.
  - apply py_eq_str in Heq. subst bundle_hash.
    apply (nonempty_str_lit _ _ eq_refl) in Hhash.
    destruct index_entry as [| | | | | |entry|]; try discriminate Hindex; cbn [app].
    + split; [auto|reflexivity].
    + destruct (py_eq (dict_get entry Hash) (PyStr (lit computed_hash))) eqn:Hidx.
      * apply py_eq_str_r in Hidx. split; [|reflexivity].
        intros _. repeat split; auto. right. now exists entry.
      * split; [discriminate|].
        intros (_ & _ & [Hnone|(entry' & [= <-] & Hentry)]); [discriminate|].
        apply py_eq_str_r in Hentry. congruence.
  - split; [discriminate|]. intros (_ & Hb & _).
    apply py_eq_str in Hb. congruence.
Qed.

Lemma event_bundle_passes (bundle : pydict) :
  snd (VerifyBundle.verify_event_bundle bundle []) = Ok true <->
  exists record digest,
    dict_get bundle (lit "Event") = PyDict record /\
    HashEvent.hash_event (PyDict record) sha256_name = Ok digest /\
    digest <> EmptyString /\
    dict_get bundle (lit "Event_Hash") = PyStr (lit digest) /\
    (dict_get bundle (lit "Index_Entry") = PyNone \/
     exists entry,
       dict_get bundle (lit "Index_Entry") = PyDict entry /\
       dict_get entry Hash = PyStr (lit digest)).
Proof.
  split.
  - intros Hrun.
    destruct (is_dict (dict_get bundle (lit "Event"))) eqn:Hrecord.
    2:{ exfalso. revert Hrun. unfold VerifyBundle.verify_event_bundle.
        unfold pbind, lift, ret, write, modify. rewrite Hrecord. cbn [negb].
        destruct (nonempty_str _); discriminate. }
    destruct (nonempty_str (dict_get bundle (lit "Event_Hash"))) eqn:Hhash.
    2:{ exfalso. revert Hrun. unfold VerifyBundle.verify_event_bundle.
        unfold pbind, lift, ret, write, modify. rewrite Hrecord, Hhash.
        discriminate. }
    destruct (HashEvent.hash_event (dict_get bundle (lit "Event")) sha256_name)
      as [digest|exc] eqn:Hdigest.
    2:{ exfalso. revert Hrun. unfold VerifyBundle.verify_event_bundle.
        unfold pbind, lift, ret, write, modify. rewrite Hrecord, Hhash, Hdigest.
        discriminate. }
    destruct (absent_or_mapping (dict_get bundle (lit "Index_Entry"))) eqn:Hindex.
    2:{ exfalso. revert Hrun. unfold VerifyBundle.verify_event_bundle.
        unfold pbind, lift, ret, write, modify, value_get.
        rewrite Hrecord, Hhash, Hdigest. cbn [negb].
        destruct (py_eq (PyStr (lit digest)) _);
          destruct (dict_get bundle (lit "Index_Entry")); try discriminate Hindex;
          discriminate. }
    destruct (event_bundle_after_hash bundle digest Hrecord Hhash Hindex Hdigest)
      as [Hfindings Hresult].
    cbv zeta in Hfindings, Hresult.
    rewrite Hresult, Hfindings in Hrun. injection Hrun as Hclean.
    apply (bundle_verdict _ _ _ Hhash Hindex) in Hclean as (Hne & Hb & Hidx).
    destruct (dict_get bundle (lit "Event")) as [| | | | | |record|];
      try discriminate Hrecord.
    now exists record, digest.
  - intros (record & digest & Hrecord & Hdigest & Hne & Hhash & Hidx).
    assert (Hdict : is_dict (dict_get bundle (lit "Event")) = true)
      by now rewrite Hrecord.
    assert (Hstr : nonempty_str (dict_get bundle (lit "Event_Hash")) = true)
      by now apply (nonempty_str_lit _ _ Hhash).
    assert (Hindex : absent_or_mapping (dict_get bundle (lit "Index_Entry")) = true).
    { destruct Hidx as [->|(entry & -> & _)]; reflexivity. }
    rewrite <- Hrecord in Hdigest.
    destruct (event_bundle_after_hash bundle digest Hdict Hstr Hindex Hdigest)
      as [Hfindings Hresult].
    cbv zeta in Hfindings, Hresult. rewrite Hresult, Hfindings. f_equal.
    apply (bundle_verdict _ _ _ Hstr Hindex). auto.
Qed.

Lemma challenge_bundle_passes (bundle : pydict) :
  snd (VerifyBundle.verify_challenge_bundle bundle []) = Ok true <->
  exists record digest,
    dict_get bundle (lit "Challenge") = PyDict record /\
    HashChallenge.hash_challenge (PyDict record) sha256_name = Ok digest /\
    digest <> EmptyString /\
    dict_get bundle (lit "Challenge_Hash") = PyStr (lit digest) /\
    (dict_get bundle (lit "Index_Entry") = PyNone \/
     exists entry,
       dict_get bundle (lit "Index_Entry") = PyDict entry /\
       dict_get entry Hash = PyStr (lit digest)).
Proof.
  split.
  - intros Hrun.
    destruct (is_dict (dict_get bundle (lit "Challenge"))) eqn:Hrecord.
    2:{ exfalso. revert Hrun. unfold VerifyBundle.verify_challenge_bundle.
        unfold pbind, lift, ret, write, modify. rewrite Hrecord. cbn [negb].
        destruct (nonempty_str _); discriminate. }
    destruct (nonempty_str (dict_get bundle (lit "Challenge_Hash"))) eqn:Hhash.
    2:{ exfalso. revert Hrun. unfold VerifyBundle.verify_challenge_bundle.
        unfold pbind, lift, ret, write, modify. rewrite Hrecord, Hhash.
        discriminate. }
    destruct (HashChallenge.hash_challenge (dict_get bundle (lit "Challenge"))
                sha256_name) as [digest|exc] eqn:Hdigest.
    2:{ exfalso. revert Hrun. unfold VerifyBundle.verify_challenge_bundle.
        unfold pbind, lift, ret, write, modify. rewrite Hrecord, Hhash, Hdigest.
        discriminate. }
    destruct (absent_or_mapping (dict_get bundle (lit "Index_Entry"))) eqn:Hindex.
    2:{ exfalso. revert Hrun. unfold VerifyBundle.verify_challenge_bundle.
        unfold pbind, lift, ret, write, modify, value_get.
        rewrite Hrecord, Hhash, Hdigest. cbn [negb].
        destruct (py_eq (PyStr (lit digest)) _);
          destruct (dict_get bundle (lit "Index_Entry")); try discriminate Hindex;
          discriminate. }
    destruct (challenge_bundle_after_hash bundle digest Hrecord Hhash Hindex Hdigest)
      as [Hfindings Hresult].
    cbv zeta in Hfindings, Hresult.
    rewrite Hresult, Hfindings in Hrun. injection Hrun as Hclean.
    apply (bundle_verdict _ _ _ Hhash Hindex) in Hclean as (Hne & Hb & Hidx).
    destruct (dict_get bundle (lit "Challenge")) as [| | | | | |record|];
      try discriminate Hrecord.
    now exists record, digest.
  - intros (record & digest & Hrecord & Hdigest & Hne & Hhash & Hidx).
    assert (Hdict : is_dict (dict_get bundle (lit "Challenge")) = true)
      by now rewrite Hrecord.
    assert (Hstr : nonempty_str (dict_get bundle (lit "Challenge_Hash")) = true)
      by now apply (nonempty_str_lit _ _ Hhash).
    assert (Hindex : absent_or_mapping (dict_get bundle (lit "Index_Entry")) = true).
    { destruct Hidx as [->|(entry & -> & _)]; reflexivity. }
    rewrite <- Hrecord in Hdigest.
    destruct (challenge_bundle_after_hash bundle digest Hdict Hstr Hindex Hdigest)
      as [Hfindings Hresult].
    cbv zeta in Hfindings, Hresult. rewrite Hresult, Hfindings. f_equal.
    apply (bundle_verdict _ _ _ Hstr Hindex). auto.
Qed.
End BundlePass.

(** X9: bundle verification returns [True] exactly when the record is a
    mapping, the bundle's hash is the non-empty digest recomputed from the
    record, and the index entry is absent or a mapping holding that same
    digest under [Hash]; for event bundles and for challenge bundles. *)
Theorem bundle_verifies_iff_hashes_agree `{Runtime} (bundle : pydict) :
  (snd (VerifyBundle.verify_event_bundle bundle []) = Ok true <->
   exists record digest,
     dict_get bundle (lit "Event") = PyDict record /\
     HashEvent.hash_event (PyDict record) sha256_name = Ok digest /\
     digest <> EmptyString /\
     dict_get bundle (lit "Event_Hash") = PyStr (lit digest) /\
     (dict_get bundle (lit "Index_Entry") = PyNone \/
      exists entry,
        dict_get bundle (lit "Index_Entry") = PyDict entry /\
        dict_get entry Hash = PyStr (lit digest))) /\
  (snd (VerifyBundle.verify_challenge_bundle bundle []) = Ok true <->
   exists record digest,
     dict_get bundle (lit "Challenge") = PyDict record /\
     HashChallenge.hash_challenge (PyDict record) sha256_name = Ok digest /\
     digest <> EmptyString /\
     dict_get bundle (lit "Challenge_Hash") = PyStr (lit digest) /\
     (dict_get bundle (lit "Index_Entry") = PyNone \/
      exists entry,
        dict_get bundle (lit "Index_Entry") = PyDict entry /\
        dict_get entry Hash = PyStr (lit digest))).
Proof. split; [apply event_bundle_passes|apply challenge_bundle_passes]. Qed.

Lemma bundle_verifies_iff_hashes_agree_witness :
  snd (@VerifyBundle.verify_event_bundle sample_runtime bundle_fresh []) = Ok true.
Proof.
  apply (proj1 (@bundle_verifies_iff_hashes_agree sample_runtime bundle_fresh)).
  exists [(lit "b", PyInt 2); (lit "a", PyInt 1)], "13"%string.
  repeat split; try reflexivity; [discriminate|now left].
Defined.

(** ** Bundle verification: its failures *)

(** X10: bundle verification raises only an [AttributeError], and only for a
    bundle whose index entry is neither absent nor a mapping. *)
Theorem bundle_verify_raises_only_on_index_entry `{Runtime} (bundle : pydict)
    (exc : pyexn) :
  snd (VerifyBundle.verify_event_bundle bundle []) = Raise exc \/
  snd (VerifyBundle.verify_challenge_bundle bundle []) = Raise exc ->
  exc = AttributeError /\
  absent_or_mapping (dict_get bundle (lit "Index_Entry")) = false.
Proof.
  unfold VerifyBundle.verify_event_bundle, VerifyBundle.verify_challenge_bundle.
  unfold pbind, lift, ret, write, modify, value_get.
  intros [Hrun|Hrun]; revert Hrun.
  - destruct (is_dict (dict_get bundle (lit "Event")));
      destruct (nonempty_str (dict_get bundle (lit "Event_Hash")));
      cbn [negb]; try discriminate.
    destruct (HashEvent.hash_event _ _) as [digest|e]; [|discriminate].
    destruct (py_eq (PyStr (lit digest)) _);
      destruct (dict_get bundle (lit "Index_Entry")) as [| | | | | |entry|];
      cbn [negb is_none];
      try destruct (py_eq (dict_get entry Hash) _);
      cbn [negb]; try discriminate; intros [= <-]; split; reflexivity.
  - destruct (is_dict (dict_get bundle (lit "Challenge")));
      destruct (nonempty_str (dict_get bundle (lit "Challenge_Hash")));
      cbn [negb]; try discriminate.
    destruct (HashChallenge.hash_challenge _ _) as [digest|e]; [|discriminate].
    destruct (py_eq (PyStr (lit digest)) _);
      destruct (dict_get bundle (lit "Index_Entry")) as [| | | | | |entry|];
      cbn [negb is_none];
      try destruct (py_eq (dict_get entry Hash) _);
      cbn [negb]; try discriminate; intros [= <-]; split; reflexivity.
Qed.

Lemma bundle_verify_raises_only_on_index_entry_witness :
  AttributeError = AttributeError /\
  absent_or_mapping (dict_get bundle_index_entry_number (lit "Index_Entry")) = false.
Proof.
  apply (@bundle_verify_raises_only_on_index_entry sample_runtime
           bundle_index_entry_number AttributeError).
  left. reflexivity.
Defined.

(** X11: a bundle that fails the structural check is rejected before
    anything is hashed or compared: verification returns [False] and writes
    exactly the structural errors, one for a record that is no mapping and
    one for a hash that is no non-empty string. *)
Theorem bundle_structural_failure `{Runtime} (bundle : pydict) :
  (is_dict (dict_get bundle (lit "Event")) = false \/
   nonempty_str (dict_get bundle (lit "Event_Hash")) = false ->
   VerifyBundle.verify_event_bundle bundle []
     = ((if is_dict (dict_get bundle (lit "Event")) then []
         else [VerifyBundle.ErrRecord])
        ++ (if nonempty_str (dict_get bundle (lit "Event_Hash")) then []
            else [VerifyBundle.ErrHash]),
        Ok false)) /\
  (is_dict (dict_get bundle (lit "Challenge")) = false \/
   nonempty_str (dict_get bundle (lit "Challenge_Hash")) = false ->
   VerifyBundle.verify_challenge_bundle bundle []
     = ((if is_dict (dict_get bundle (lit "Challenge")) then []
         else [VerifyBundle.ErrRecord])
        ++ (if nonempty_str (dict_get bundle (lit "Challenge_Hash")) then []
            else [VerifyBundle.ErrHash]),
        Ok false)).
Proof.
  unfold VerifyBundle.verify_event_bundle, VerifyBundle.verify_challenge_bundle.
  unfold pbind, lift, ret, write, modify.
  split; intros Hbad.
  - destruct (is_dict (dict_get bundle (lit "Event")));
      destruct (nonempty_str (dict_get bundle (lit "Event_Hash")));
      try reflexivity.
    destruct Hbad; discriminate.
  - destruct (is_dict (dict_get bundle (lit "Challenge")));
      destruct (nonempty_str (dict_get bundle (lit "Challenge_Hash")));
      try reflexivity.
    destruct Hbad; discriminate.
Qed.

(** The empty bundle: both structural errors, under either reading. *)
Lemma bundle_structural_failure_witness :
  @VerifyBundle.verify_event_bundle sample_runtime [] []
    = ([VerifyBundle.ErrRecord; VerifyBundle.ErrHash], Ok false) /\
  @VerifyBundle.verify_challenge_bundle sample_runtime [] []
    = ([VerifyBundle.ErrRecord; VerifyBundle.ErrHash], Ok false).
Proof.
  split.
  - apply (proj1 (@bundle_structural_failure sample_runtime [])). now left.
  - apply (proj2 (@bundle_structural_failure sample_runtime [])). now left.
Defined.

Lemma same_record_is_dict (a b : pyvalue) :
  same_record a b = true -> is_dict a = is_dict b.
Proof. destruct a, b; simpl; try discriminate; reflexivity. Qed.

(** X12: the verdict on an event bundle does not depend on the order of the
    keys of its record: two bundles with the same hash and index entry and
    with records equal as unordered key/value structures are verified alike,
    line for line. *)
Theorem bundle_verdict_ignores_key_order `{Runtime} (bundle bundle' : pydict) :
  distinct_keys (dict_get bundle (lit "Event")) = true ->
  same_record (dict_get bundle (lit "Event")) (dict_get bundle' (lit "Event")) = true ->
  dict_get bundle (lit "Event_Hash") = dict_get bundle' (lit "Event_Hash") ->
  dict_get bundle (lit "Index_Entry") = dict_get bundle' (lit "Index_Entry") ->
  VerifyBundle.verify_event_bundle bundle [] = VerifyBundle.verify_event_bundle bundle' [].
Proof.
  intros Hkeys Hsame Hhash Hindex.
  unfold VerifyBundle.verify_event_bundle.
  rewrite <- Hhash, <- Hindex, <- (same_record_is_dict _ _ Hsame).
  unfold HashEvent.hash_event, HashEvent.canonical_serialize.
  rewrite <- (dumps_same_record _ _ Hkeys Hsame). reflexivity.
Qed.

Lemma bundle_verdict_ignores_key_order_witness :
  @VerifyBundle.verify_event_bundle sample_runtime bundle_fresh []
    = @VerifyBundle.verify_event_bundle sample_runtime bundle_reordered [].
Proof.
  apply (@bundle_verdict_ignores_key_order sample_runtime bundle_fresh bundle_reordered);
    reflexivity.
Defined.

(** ** Custody verification: one entry at a time *)

Lemma scan_step (d : pydict) (rest : list pyvalue) (i : Z) (ok : bool)
    (last_ts : pyvalue) (out : list VerifyCustody.message) :
  VerifyCustody.scan_entries (PyDict d :: rest) i ok last_ts out =
  match order_check (dict_get d VerifyCustody.Entry_Timestamp_UTC) last_ts with
  | Raise e => (out ++ field_errors i d, Raise e)
  | Ok not_later =>
      VerifyCustody.scan_entries rest (i + 1)
        (ok && no_findings (field_errors i d) && negb not_later)
        (dict_get d VerifyCustody.Entry_Timestamp_UTC)
        (out ++ field_errors i d
             ++ (if not_later then [VerifyCustody.ErrOrder i] else []))
  end.
Proof.
  cbn [VerifyCustody.scan_entries].
  unfold pbind, lift, ret, write, modify, value_get, order_check, field_errors.
  destruct (VerifyCustody.is_valid_utc_z (dict_get d VerifyCustody.Entry_Timestamp_UTC));
    destruct (nonempty_str (dict_get d VerifyCustody.Holder_Name));
    destruct (nonempty_str (dict_get d VerifyCustody.Holder_Role));
    destruct (nonempty_str (dict_get d VerifyCustody.Action));
    destruct (is_none last_ts);
    try destruct (py_le (dict_get d VerifyCustody.Entry_Timestamp_UTC) last_ts)
      as [[|]|e];
    destruct ok; cbn [negb andb app no_findings];
    rewrite <- ?app_assoc; cbn [app]; rewrite ?app_nil_r; reflexivity.
Qed.

Lemma scan_not_a_mapping (entry : pyvalue) (rest : list pyvalue) (i : Z) (ok : bool)
    (last_ts : pyvalue) (out : list VerifyCustody.message) :
  is_dict entry = false ->
  VerifyCustody.scan_entries (entry :: rest) i ok last_ts out
    = (out, Raise AttributeError).
Proof.
  destruct entry; try discriminate; reflexivity.
Qed.

Lemma field_errors_are_errors (i : Z) (d : pydict) :
  forallb VerifyCustody.is_error (field_errors i d) = true.
Proof.
  unfold field_errors.
  destruct (VerifyCustody.is_valid_utc_z _), (nonempty_str (dict_get d VerifyCustody.Holder_Name)),
    (nonempty_str (dict_get d VerifyCustody.Holder_Role)),
    (nonempty_str (dict_get d VerifyCustody.Action)); reflexivity.
Qed.

Lemma no_findings_app {M} (l m : list M) :
  no_findings (l ++ m) = no_findings l && no_findings m.
Proof. destruct l; reflexivity. Qed.

(** What a scan that returns has written: error lines only, and its
    result is [ok] unless it wrote one. *)
Lemma scan_returns (entries : list pyvalue) :
  forall (i : Z) (ok : bool) (last_ts : pyvalue)
         (out out' : list VerifyCustody.message) (ok' : bool),
  VerifyCustody.scan_entries entries i ok last_ts out = (out', Ok ok') ->
  exists added,
    out' = out ++ added /\
    forallb VerifyCustody.is_error added = true /\
    ok' = ok && no_findings added.
Proof.
  induction entries as [|entry rest IH]; intros i ok last_ts out out' ok' Hscan.
  - injection Hscan as <- <-. exists []. now rewrite app_nil_r, andb_true_r.
  - destruct entry as [| | | | | |d|];
      try (rewrite scan_not_a_mapping in Hscan by reflexivity; discriminate).
    rewrite scan_step in Hscan.
    destruct (order_check _ last_ts) as [not_later|e]; [|discriminate].
    apply IH in Hscan as (added & -> & Herrors & ->).
    exists ((field_errors i d ++ (if not_later then [VerifyCustody.ErrOrder i] else []))
            ++ added).
    repeat split.
    + now rewrite !app_assoc.
    + rewrite !forallb_app, field_errors_are_errors, Herrors.
      now destruct not_later.
    + rewrite !no_findings_app.
      now destruct ok, (no_findings (field_errors i d)), not_later,
        (no_findings added).
Qed.

Lemma findings_of_errors (added : list VerifyCustody.message) :
  forallb VerifyCustody.is_error added = true ->
  VerifyCustody.findings added = added.
Proof.
  unfold VerifyCustody.findings. induction added as [|m r IH]; simpl; [reflexivity|].
  intros Hall. apply andb_true_iff in Hall as [Hm Hr]. rewrite Hm. f_equal. auto.
Qed.

(** X13: whenever custody verification returns, it returns [True] exactly
    when it wrote no error line. *)
Theorem custody_ok_iff_no_findings (coc : pydict)
    (out : list VerifyCustody.message) (ok : bool) :
  VerifyCustody.verify_chain_of_custody coc [] = (out, Ok ok) ->
  ok = no_findings (VerifyCustody.findings out).
Proof.
  unfold VerifyCustody.verify_chain_of_custody.
  set (id_errors :=
         (if nonempty_str (dict_get coc Event_ID) then []
          else [VerifyCustody.ErrEventId])
         ++ (if nonempty_str (dict_get coc Event_Hash) then []
             else [VerifyCustody.ErrEventHash])).
  assert (Hid_errors : forallb VerifyCustody.is_error id_errors = true).
  { subst id_errors. destruct (nonempty_str _), (nonempty_str _); reflexivity. }
  destruct (dict_get coc VerifyCustody.Chain_Of_Custody) as [| | | | |entries| |] eqn:Hchain;
    try (unfold pbind, ret, write, modify;
         destruct (nonempty_str (dict_get coc Event_ID)),
           (nonempty_str (dict_get coc Event_Hash));
         cbn [negb]; intros [= <- <-]; reflexivity).
  unfold pbind at 1 2. unfold ret at 1 2 3 4, write at 1 2, modify at 1 2.
  assert (Hrun :
            forall ok0 out0,
              forallb VerifyCustody.is_error out0 = true ->
              ok0 = no_findings out0 ->
              (ok1 <- VerifyCustody.scan_entries entries 1 ok0 PyNone;;
               (if ok1 then write VerifyCustody.OkVerified else ret tt);;
               ret ok1)%prog out0 = (out, Ok ok) ->
              ok = no_findings (VerifyCustody.findings out)).
  { intros ok0 out0 Hout0 Hok0. unfold pbind.
    destruct (VerifyCustody.scan_entries entries 1 ok0 PyNone out0)
      as [out1 [ok1|e]] eqn:Hscan; [|discriminate].
    apply scan_returns in Hscan as (added & -> & Hadded & ->).
    assert (Hall : forallb VerifyCustody.is_error (out0 ++ added) = true)
      by now rewrite forallb_app, Hout0, Hadded.
    destruct (ok0 && no_findings added) eqn:Hok1;
      unfold write, modify, ret; intros [= <- <-].
    - unfold VerifyCustody.findings. rewrite filter_app. cbn [filter VerifyCustody.is_error].
      rewrite app_nil_r. fold (VerifyCustody.findings (out0 ++ added)).
      rewrite (findings_of_errors _ Hall), no_findings_app, <- Hok0. now symmetry.
    - rewrite (findings_of_errors _ Hall), no_findings_app, <- Hok0. now symmetry. }
  destruct (nonempty_str (dict_get coc Event_ID)),
    (nonempty_str (dict_get coc Event_Hash)); cbn [negb];
    apply Hrun; reflexivity.
Qed.

Lemma valid_timestamp_is_str (v : pyvalue) :
  VerifyCustody.is_valid_utc_z v = true -> exists ts, v = PyStr ts.
Proof. destruct v; try discriminate. eauto. Qed.

Lemma field_errors_none (i : Z) (d : pydict) :
  no_findings (field_errors i d) = entry_well_formed (PyDict d).
Proof.
  unfold field_errors, entry_well_formed.
  destruct (VerifyCustody.is_valid_utc_z _),
    (nonempty_str (dict_get d VerifyCustody.Holder_Name)),
    (nonempty_str (dict_get d VerifyCustody.Holder_Role)),
    (nonempty_str (dict_get d VerifyCustody.Action)); reflexivity.
Qed.

Lemma violation_free_ascending (tss : list pystr) :
  forall (p : pystr) (i : Z),
  order_violations tss i (Some p) = [] -> ascending (p :: tss) = true.
Proof.
  induction tss as [|ts rest IH]; intros p i Hnone; [reflexivity|].
  cbn [order_violations] in Hnone. apply app_eq_nil in Hnone as [Hfirst Hrest].
  change (negb (str_leb ts p) && ascending (ts :: rest) = true).
  rewrite (IH ts (i + 1) Hrest), andb_true_r.
  now destruct (str_leb ts p).
Qed.

Lemma violation_free_from_start (tss : list pystr) (i : Z) :
  order_violations tss i None = [] -> ascending tss = true.
Proof.
  destruct tss as [|ts rest]; [reflexivity|].
  cbn [order_violations app]. apply violation_free_ascending.
Qed.

(** A scan that returns [True] started with [ok] set, and met only well
    formed entries, each later than the one before. *)
Lemma scan_true (entries : list pyvalue) :
  forall (i : Z) (ok : bool) (previous : option pystr)
         (out out' : list VerifyCustody.message),
  VerifyCustody.scan_entries entries i ok (last_ts_of previous) out = (out', Ok true) ->
  ok = true /\
  forallb entry_well_formed entries = true /\
  order_violations (timestamps entries) i previous = [].
Proof.
  induction entries as [|entry rest IH]; intros i ok previous out out' Hscan.
  - injection Hscan as _ ->. auto.
  - destruct entry as [| | | | | |d|];
      try (rewrite scan_not_a_mapping in Hscan by reflexivity; discriminate).
    rewrite scan_step in Hscan.
    destruct (order_check _ (last_ts_of previous)) as [not_later|e] eqn:Horder;
      [|discriminate].
    destruct (VerifyCustody.is_valid_utc_z (dict_get d VerifyCustody.Entry_Timestamp_UTC))
      eqn:Hvalid.
    + destruct (valid_timestamp_is_str _ Hvalid) as [ts Hts].
      rewrite Hts in Hscan.
      apply (IH (i + 1) _ (Some ts)) in Hscan as (Hok & Hrest & Hviolations).
      apply andb_true_iff in Hok as [Hok Hlater].
      apply andb_true_iff in Hok as [-> Hfields].
      apply negb_true_iff in Hlater. subst not_later.
      rewrite field_errors_none in Hfields.
      repeat split.
      * cbn [forallb]. now rewrite Hfields, Hrest.
      * cbn [timestamps map entry_timestamp order_violations]. rewrite Hts.
        fold (timestamps rest). rewrite Hviolations, app_nil_r.
        unfold order_check in Horder. rewrite Hts in Horder.
        destruct previous as [p|]; [|reflexivity].
        cbn [last_ts_of is_none py_le] in Horder. injection Horder as ->. reflexivity.
    + assert (Hfalse : ok && no_findings (field_errors i d) && negb not_later = false).
      { rewrite field_errors_none. cbn [entry_well_formed]. rewrite Hvalid.
        cbn [andb]. now rewrite andb_false_r. }
      rewrite Hfalse in Hscan.
      destruct (scan_returns _ _ _ _ _ _ _ Hscan) as (added & _ & _ & Hok).
      discriminate Hok.
Qed.

(** When custody verification returns [True]. *)
Lemma verify_passes_iff (coc : pydict) :
  snd (VerifyCustody.verify_chain_of_custody coc []) = Ok true <->
  nonempty_str (dict_get coc Event_ID) = true /\
  nonempty_str (dict_get coc Event_Hash) = true /\
  exists entries,
    dict_get coc VerifyCustody.Chain_Of_Custody = PyList entries /\
    forallb entry_well_formed entries = true /\
    ascending (timestamps entries) = true.
Proof.
  split.
  - unfold VerifyCustody.verify_chain_of_custody.
    destruct (dict_get coc VerifyCustody.Chain_Of_Custody) as [| | | | |entries| |];
      try (unfold pbind, ret, write, modify;
           destruct (nonempty_str (dict_get coc Event_ID)),
             (nonempty_str (dict_get coc Event_Hash));
           cbn [negb snd]; discriminate).
    unfold pbind at 1 2. unfold ret at 1 2 3 4, write at 1 2, modify at 1 2.
    assert (Hrun :
              forall ok0 out0,
                snd ((ok1 <- VerifyCustody.scan_entries entries 1 ok0 PyNone;;
                      (if ok1 then write VerifyCustody.OkVerified else ret tt);;
                      ret ok1)%prog out0) = Ok true ->
                ok0 = true /\ forallb entry_well_formed entries = true /\
                ascending (timestamps entries) = true).
    { intros ok0 out0. unfold pbind.
      destruct (VerifyCustody.scan_entries entries 1 ok0 PyNone out0)
        as [out1 [ok1|e]] eqn:Hscan; [|discriminate].
      destruct ok1; unfold write, modify, ret; cbn [snd]; [intros _|discriminate].
      apply (scan_true entries 1 ok0 None) in Hscan as (-> & Hwf & Hviolations).
      repeat split; [assumption|].
      now apply (violation_free_from_start _ 1). }
    destruct (nonempty_str (dict_get coc Event_ID)),
      (nonempty_str (dict_get coc Event_Hash)); cbn [negb];
      intros Hok; apply Hrun in Hok as (Hok0 & Hwf & Hasc);
      try discriminate Hok0; eauto 6.
  - intros (Hid & Hhash & entries & Hentries & Hwf & Hasc).
    rewrite (verify_well_formed_log coc entries Hid Hhash Hentries Hwf).
    now rewrite (ascending_from_start _ 1 Hasc).
Qed.

(** X14: custody verification returns [True] exactly on a log whose
    [Event_ID] and [Event_Hash] are non-empty strings and whose
    [Chain_Of_Custody] is a list of well formed entries with strictly
    increasing timestamps. *)
Theorem custody_verifies_iff_well_formed_and_ascending (coc : pydict) :
  snd (VerifyCustody.verify_chain_of_custody coc []) = Ok true <->
  nonempty_str (dict_get coc Event_ID) = true /\
  nonempty_str (dict_get coc Event_Hash) = true /\
  exists entries,
    dict_get coc VerifyCustody.Chain_Of_Custody = PyList entries /\
    forallb entry_well_formed entries = true /\
    ascending (timestamps entries) = true.
Proof. apply verify_passes_iff. Qed.

Lemma scan_str_timestamps (entries : list pyvalue) :
  forall (i : Z) (ok : bool) (previous : option pystr)
         (out : list VerifyCustody.message),
  forallb str_timestamp entries = true ->
  exists ok', snd (VerifyCustody.scan_entries entries i ok (last_ts_of previous) out)
              = Ok ok'.
Proof.
  induction entries as [|entry rest IH]; intros i ok previous out Hall.
  - now exists ok.
  - cbn [forallb] in Hall. apply andb_true_iff in Hall as [Hentry Hrest].
    destruct entry as [| | | | | |d|]; try discriminate Hentry.
    cbn [str_timestamp] in Hentry. rewrite scan_step.
    destruct (dict_get d VerifyCustody.Entry_Timestamp_UTC) as [| | | |ts| | |];
      try discriminate Hentry.
    assert (Horder : exists b, order_check (PyStr ts) (last_ts_of previous) = Ok b)
      by (destruct previous; cbn; eauto).
    destruct Horder as [b ->].
    apply (IH _ _ (Some ts) _ Hrest).
Qed.

(** X15: custody verification raises nothing, whatever else is wrong with
    the log, when [Chain_Of_Custody] is not a list (it then returns
    [False]) and when it is a list of mappings whose timestamps are
    strings. *)
Theorem custody_verify_returns_on_string_timestamps (coc : pydict) :
  match dict_get coc VerifyCustody.Chain_Of_Custody with
  | PyList entries => forallb str_timestamp entries
  | _ => true
  end = true ->
  exists ok, snd (VerifyCustody.verify_chain_of_custody coc []) = Ok ok /\
    ((forall entries, dict_get coc VerifyCustody.Chain_Of_Custody <> PyList entries) ->
     ok = false).
Proof.
  intros Hentries. unfold VerifyCustody.verify_chain_of_custody.
  destruct (dict_get coc VerifyCustody.Chain_Of_Custody) as [| | | | |entries| |];
    try (exists false; split; [|reflexivity];
         unfold pbind, ret, write, modify;
         destruct (nonempty_str (dict_get coc Event_ID)),
           (nonempty_str (dict_get coc Event_Hash)); reflexivity).
  assert (Hrun :
            forall ok0 out0,
              exists ok,
                snd ((ok1 <- VerifyCustody.scan_entries entries 1 ok0 PyNone;;
                      (if ok1 then write VerifyCustody.OkVerified else ret tt);;
                      ret ok1)%prog out0) = Ok ok /\
                ((forall l, PyList entries <> PyList l) -> ok = false)).
  { intros ok0 out0. unfold pbind.
    destruct (scan_str_timestamps entries 1 ok0 None out0 Hentries) as [ok1 Hscan].
    cbn [last_ts_of] in Hscan.
    destruct (VerifyCustody.scan_entries entries 1 ok0 PyNone out0) as [out1 r].
    cbn [snd] in Hscan. subst r. exists ok1.
    split; [now destruct ok1|]. intros Hnot. now destruct (Hnot entries). }
  unfold pbind at 1 2. unfold ret at 1 2 3 4, write at 1 2, modify at 1 2.
  destruct (nonempty_str (dict_get coc Event_ID)),
    (nonempty_str (dict_get coc Event_Hash)); cbn [negb]; apply Hrun.
Qed.

(** A log with its entries out of order, whose timestamps are strings. *)
Lemma custody_ok_iff_no_findings_witness :
  false = no_findings (VerifyCustody.findings [VerifyCustody.ErrOrder 2]).
Proof.
  apply (custody_ok_iff_no_findings log_out_of_order). reflexivity.
Defined.

Lemma custody_verify_returns_on_string_timestamps_witness :
  exists ok,
    snd (VerifyCustody.verify_chain_of_custody log_out_of_order []) = Ok ok /\
    ((forall entries,
         dict_get log_out_of_order VerifyCustody.Chain_Of_Custody <> PyList entries) ->
     ok = false).
Proof.
  apply (custody_verify_returns_on_string_timestamps log_out_of_order). reflexivity.
Defined.

(** How verification of a log with a list of entries runs: the scan, from
    what the identity checks left. *)
Lemma verify_list (coc : pydict) (entries : list pyvalue) :
  dict_get coc VerifyCustody.Chain_Of_Custody = PyList entries ->
  exists ok0 out0,
    VerifyCustody.verify_chain_of_custody coc []
    = (ok1 <- VerifyCustody.scan_entries entries 1 ok0 PyNone;;
       (if ok1 then write VerifyCustody.OkVerified else ret tt);;
       ret ok1)%prog out0.
Proof.
  intros Hentries. unfold VerifyCustody.verify_chain_of_custody. rewrite Hentries.
  unfold pbind at 1 2. unfold ret at 1 2 3 4, write at 1 2, modify at 1 2.
  destruct (nonempty_str (dict_get coc Event_ID)),
    (nonempty_str (dict_get coc Event_Hash)); cbn [negb];
    do 2 eexists; reflexivity.
Qed.

Lemma not_str_no_order (ts : pyvalue) (p : pystr) :
  match ts with PyStr _ => false | _ => true end = true ->
  py_le ts (PyStr p) = Raise TypeError.
Proof. destruct ts as [|b|z|f|t|l|d|i]; try discriminate; reflexivity. Qed.

Lemma scan_raises (bad : pyvalue) (after : list pyvalue) (before : list pyvalue) :
  forall (i : Z) (ok : bool) (previous : option pystr)
         (out : list VerifyCustody.message),
  forallb str_timestamp before = true ->
  (is_dict bad = false ->
   snd (VerifyCustody.scan_entries (before ++ bad :: after) i ok
          (last_ts_of previous) out) = Raise AttributeError) /\
  (is_dict bad = true -> str_timestamp bad = false ->
   before <> [] \/ previous <> None ->
   snd (VerifyCustody.scan_entries (before ++ bad :: after) i ok
          (last_ts_of previous) out) = Raise TypeError).
Proof.
  induction before as [|entry rest IH]; intros i ok previous out Hbefore.
  - cbn [app]. split.
    + intros Hbad. now rewrite scan_not_a_mapping.
    + intros Hdict Hts [Hne|Hprev]; [now destruct Hne|].
      destruct bad as [| | | | | |d|]; try discriminate Hdict.
      destruct previous as [p|]; [|now destruct Hprev].
      rewrite scan_step. unfold order_check. cbn [last_ts_of is_none].
      rewrite not_str_no_order; [reflexivity|].
      cbn [str_timestamp] in Hts.
      now destruct (dict_get d VerifyCustody.Entry_Timestamp_UTC).
  - cbn [forallb] in Hbefore. apply andb_true_iff in Hbefore as [Hentry Hrest].
    destruct entry as [| | | | | |d|]; try discriminate Hentry.
    cbn [str_timestamp] in Hentry. cbn [app]. rewrite scan_step.
    destruct (dict_get d VerifyCustody.Entry_Timestamp_UTC) as [| | | |ts| | |];
      try discriminate Hentry.
    assert (Horder : exists b, order_check (PyStr ts) (last_ts_of previous) = Ok b)
      by (destruct previous; cbn; eauto).
    destruct Horder as [b ->].
    destruct (IH (i + 1) (ok && no_findings (field_errors i d) && negb b) (Some ts)
                (out ++ field_errors i d
                     ++ (if b then [VerifyCustody.ErrOrder i] else [])) Hrest)
      as [Hattr Htype].
    split; [exact Hattr|].
    intros Hdict Hts _. apply Htype; auto. right. discriminate.
Qed.

(** X16: after entries that are mappings with string timestamps, an entry
    that is not a mapping makes custody verification raise an
    [AttributeError], and, when it is not the first, a mapping whose
    timestamp is missing or not a string makes it raise a [TypeError];
    neither is reported as a finding with a [False] result. *)
Theorem custody_verify_raises_on_malformed_entry (coc : pydict)
    (before after : list pyvalue) (bad : pyvalue) :
  dict_get coc VerifyCustody.Chain_Of_Custody = PyList (before ++ bad :: after) ->
  forallb str_timestamp before = true ->
  (is_dict bad = false ->
   snd (VerifyCustody.verify_chain_of_custody coc []) = Raise AttributeError) /\
  (is_dict bad = true -> str_timestamp bad = false -> before <> [] ->
   snd (VerifyCustody.verify_chain_of_custody coc []) = Raise TypeError).
Proof.
  intros Hentries Hbefore.
  destruct (verify_list coc _ Hentries) as (ok0 & out0 & ->).
  destruct (scan_raises bad after before 1 ok0 None out0 Hbefore) as [Hattr Htype].
  cbn [last_ts_of] in Hattr, Htype. unfold pbind.
  split.
  - intros Hbad. specialize (Hattr Hbad).
    destruct (VerifyCustody.scan_entries _ 1 ok0 PyNone out0) as [out1 r].
    cbn [snd] in Hattr. now subst r.
  - intros Hdict Hts Hne. specialize (Htype Hdict Hts (or_introl Hne)).
    destruct (VerifyCustody.scan_entries _ 1 ok0 PyNone out0) as [out1 r].
    cbn [snd] in Htype. now subst r.
Qed.

(** An entry that is a string after one good entry; an entry without a
    timestamp after one good entry. *)
Lemma custody_verify_raises_on_malformed_entry_witness :
  snd (VerifyCustody.verify_chain_of_custody
         (custody_log (PyStr (lit "E1")) (PyStr (lit "h1"))
            [custody_entry T1 "A"; PyStr (lit "B")]) []) = Raise AttributeError /\
  snd (VerifyCustody.verify_chain_of_custody log_missing_timestamp [])
    = Raise TypeError.
Proof.
  split.
  - exact (proj1 (custody_verify_raises_on_malformed_entry
                    (custody_log (PyStr (lit "E1")) (PyStr (lit "h1"))
                       [custody_entry T1 "A"; PyStr (lit "B")])
                    [custody_entry T1 "A"] [] (PyStr (lit "B")) eq_refl eq_refl)
             eq_refl).
  - exact (proj2 (custody_verify_raises_on_malformed_entry log_missing_timestamp
                    [custody_entry T1 "A"] [] _ eq_refl eq_refl)
             eq_refl eq_refl ltac:(discriminate)).
Defined.

(** ** Appending to a custody log: every outcome *)

Lemma dict_lookup_set_same (d : pydict) (k : pystr) (v : pyvalue) :
  dict_lookup (dict_set d k v) k = Some v.
Proof.
  induction d as [|[key x] r IH]; simpl.
  - now rewrite str_eqb_refl.
  - destruct (str_eqb key k) eqn:Hkey; simpl; now rewrite Hkey.
Qed.

Lemma dict_get_set_same (d : pydict) (k : pystr) (v : pyvalue) :
  dict_get (dict_set d k v) k = v.
Proof. unfold dict_get. now rewrite dict_lookup_set_same. Qed.

Lemma bound_to_other (coc : pydict) (k k' : pystr) (v : pyvalue) :
  k <> k' -> dict_get (bound_to k v coc) k' = dict_get coc k'.
Proof.
  intros Hne. unfold bound_to. destruct (is_none (dict_get coc k)); [|reflexivity].
  now apply dict_get_set_other.
Qed.

Lemma bound_to_bound (coc : pydict) (k : pystr) (v : pyvalue) :
  is_none (dict_get coc k) = false -> bound_to k v coc = coc.
Proof. intros Hbound. unfold bound_to. now rewrite Hbound. Qed.

Lemma bound_to_same (coc : pydict) (k : pystr) (v : pyvalue) :
  dict_get (bound_to k v coc) k
  = if is_none (dict_get coc k) then v else dict_get coc k.
Proof.
  unfold bound_to. destruct (is_none (dict_get coc k)) eqn:Hk; [|reflexivity].
  apply dict_get_set_same.
Qed.

(** Binding an identity field: set when unset, kept when equal, and the
    mismatch raised otherwise. *)
Lemma bind_field_step {A} (k v : pystr) (mismatch : pyexn)
    (rest : unit -> prog pydict A) (coc : pydict) :
  (bound <- ExportCustody.get k ;;
   (if is_none bound then ExportCustody.set_item k (PyStr v)
    else
      current <- ExportCustody.item k ;;
      if negb (py_eq current (PyStr v)) then raise mismatch else ret tt) ;;
   rest tt)%prog coc
  = if unset_or (dict_get coc k) v then rest tt (bound_to k (PyStr v) coc)
    else (coc, Raise mismatch).
Proof.
  unfold ExportCustody.get, ExportCustody.item, ExportCustody.set_item.
  unfold pbind, gets, modify, ret, raise, unset_or, bound_to.
  destruct (is_none (dict_get coc k)) eqn:Hk; [reflexivity|].
  rewrite (dict_item_bound _ _ Hk). cbn [orb].
  now destruct (py_eq (dict_get coc k) (PyStr v)).
Qed.

Section Append.

Variables event_id event_hash bundle_file : pystr.
Variables holder_name holder_role action location notes now_utc : pystr.

Let append : prog pydict unit :=
  ExportCustody.append_coc_entry event_id event_hash bundle_file
    holder_name holder_role action location notes now_utc.
Let entry : pyvalue :=
  new_entry holder_name holder_role action location notes now_utc.
Let with_id : pydict -> pydict := bound_to Event_ID (PyStr event_id).
Let with_hash : pydict -> pydict := bound_to Event_Hash (PyStr event_hash).
Let with_file : pydict -> pydict :=
  bound_to ExportCustody.Evidence_Bundle_File (PyStr bundle_file).

(** The run of [append_coc_entry], branch by branch. *)
Lemma append_run (coc : pydict) :
  append coc =
  if unset_or (dict_get coc Event_ID) event_id then
    if unset_or (dict_get coc Event_Hash) event_hash then
      let bound := with_file (with_hash (with_id coc)) in
      match dict_item bound VerifyCustody.Chain_Of_Custody with
      | Ok (PyList l) =>
          (dict_set bound VerifyCustody.Chain_Of_Custody (PyList (l ++ [entry])), Ok tt)
      | Ok _ => (bound, Raise AttributeError)
      | Raise e => (bound, Raise e)
      end
    else (with_id coc, Raise ExportCustody.hash_identity_mismatch)
  else (coc, Raise ExportCustody.record_identity_mismatch).
Proof.
  assert (Hhash_kept : dict_get (with_id coc) Event_Hash = dict_get coc Event_Hash)
    by (apply bound_to_other; discriminate).
  subst append entry. unfold ExportCustody.append_coc_entry.
  rewrite (bind_field_step Event_ID event_id _ (fun _ => _)).
  destruct (unset_or (dict_get coc Event_ID) event_id); [|reflexivity].
  fold with_id.
  rewrite (bind_field_step Event_Hash event_hash _ (fun _ => _)).
  rewrite Hhash_kept.
  destruct (unset_or (dict_get coc Event_Hash) event_hash); [|reflexivity].
  fold with_hash.
  unfold ExportCustody.get, ExportCustody.item, ExportCustody.set_item.
  unfold pbind, gets, modify, ret, raise.
  set (bound := with_hash (with_id coc)).
  assert (Hwith_file :
            with_file bound
            = if is_none (dict_get bound ExportCustody.Evidence_Bundle_File)
              then dict_set bound ExportCustody.Evidence_Bundle_File (PyStr bundle_file)
              else bound) by reflexivity.
  cbv zeta. rewrite Hwith_file.
  destruct (is_none (dict_get bound ExportCustody.Evidence_Bundle_File));
    destruct (dict_item _ VerifyCustody.Chain_Of_Custody) as [[| | | | |l| |]|e];
    reflexivity.
Qed.

Lemma bound_to_lookup_other (coc : pydict) (k k' : pystr) (v : pyvalue) :
  k <> k' -> dict_lookup (bound_to k v coc) k' = dict_lookup coc k'.
Proof.
  intros Hne. unfold bound_to. destruct (is_none (dict_get coc k)); [|reflexivity].
  now apply dict_lookup_set_other.
Qed.

Lemma bound_lookup_chain (coc : pydict) :
  dict_lookup (with_file (with_hash (with_id coc))) VerifyCustody.Chain_Of_Custody
  = dict_lookup coc VerifyCustody.Chain_Of_Custody.
Proof.
  subst with_file with_hash with_id.
  now rewrite !bound_to_lookup_other by discriminate.
Qed.

(** How a call ends. *)
Lemma append_result (coc : pydict) :
  snd (append coc) =
  if unset_or (dict_get coc Event_ID) event_id then
    if unset_or (dict_get coc Event_Hash) event_hash then
      match dict_lookup coc VerifyCustody.Chain_Of_Custody with
      | Some (PyList _) => Ok tt
      | Some _ => Raise AttributeError
      | None => Raise KeyError
      end
    else Raise ExportCustody.hash_identity_mismatch
  else Raise ExportCustody.record_identity_mismatch.
Proof.
  rewrite append_run.
  destruct (unset_or (dict_get coc Event_ID) event_id); [|reflexivity].
  destruct (unset_or (dict_get coc Event_Hash) event_hash); [|reflexivity].
  cbv zeta. unfold dict_item. rewrite bound_lookup_chain.
  destruct (dict_lookup coc VerifyCustody.Chain_Of_Custody) as [[| | | | |l| |]|];
    reflexivity.
Qed.

(** The log a successful call leaves. *)
Lemma append_run_ok (coc coc' : pydict) :
  append coc = (coc', Ok tt) ->
  unset_or (dict_get coc Event_ID) event_id = true /\
  unset_or (dict_get coc Event_Hash) event_hash = true /\
  exists l,
    dict_get coc VerifyCustody.Chain_Of_Custody = PyList l /\
    coc' = dict_set (with_file (with_hash (with_id coc)))
             VerifyCustody.Chain_Of_Custody (PyList (l ++ [entry])).
Proof.
  rewrite append_run.
  destruct (unset_or (dict_get coc Event_ID) event_id); [|discriminate].
  destruct (unset_or (dict_get coc Event_Hash) event_hash); [|discriminate].
  cbv zeta. unfold dict_item. rewrite bound_lookup_chain. unfold dict_get.
  destruct (dict_lookup coc VerifyCustody.Chain_Of_Custody) as [[| | | | |l| |]|];
    try discriminate.
  intros [= <-]. eauto.
Qed.

Lemma unset_or_bound (coc : pydict) (k : pystr) (s : pystr) :
  unset_or (dict_get coc k) s = true ->
  dict_get (bound_to k (PyStr s) coc) k = PyStr s.
Proof.
  unfold unset_or. rewrite bound_to_same.
  destruct (is_none (dict_get coc k)); [reflexivity|].
  cbn [orb]. apply py_eq_str_r.
Qed.


(** The log a successful call leaves, field by field. *)
Lemma append_leaves (coc coc' : pydict) :
  append coc = (coc', Ok tt) ->
  dict_get coc' Event_ID = PyStr event_id /\
  dict_get coc' Event_Hash = PyStr event_hash /\
  dict_get coc' ExportCustody.Evidence_Bundle_File
    = (if is_none (dict_get coc ExportCustody.Evidence_Bundle_File)
       then PyStr bundle_file
       else dict_get coc ExportCustody.Evidence_Bundle_File) /\
  (exists l,
     dict_get coc VerifyCustody.Chain_Of_Custody = PyList l /\
     dict_get coc' VerifyCustody.Chain_Of_Custody = PyList (l ++ [entry])) /\
  (forall k,
     k <> Event_ID -> k <> Event_Hash -> k <> ExportCustody.Evidence_Bundle_File ->
     k <> VerifyCustody.Chain_Of_Custody ->
     dict_get coc' k = dict_get coc k).
Proof.
  intros Happend.
  apply append_run_ok in Happend as (Hid & Hhash & l & Hchain & ->).
  subst with_file with_hash with_id.
  repeat apply conj.
  - rewrite dict_get_set_other, !bound_to_other by discriminate.
    now apply unset_or_bound.
  - rewrite dict_get_set_other, bound_to_other by discriminate.
    apply unset_or_bound. now rewrite bound_to_other by discriminate.
  - rewrite dict_get_set_other by discriminate.
    rewrite bound_to_same. now rewrite !bound_to_other by discriminate.
  - exists l. split; [assumption|]. apply dict_get_set_same.
  - intros k Hk1 Hk2 Hk3 Hk4.
    rewrite dict_get_set_other by congruence.
    rewrite !bound_to_other by congruence. reflexivity.
Qed.

(** X18: the log a successful call leaves: [Event_ID] and [Event_Hash]
    are the supplied ones, [Evidence_Bundle_File] is the one it had or, if it
    was unset, the supplied path, [Chain_Of_Custody] is the list it was with
    the new entry after it, and every other field is as it was. *)
Theorem append_success_state (coc coc' : pydict) :
  append coc = (coc', Ok tt) ->
  dict_get coc' Event_ID = PyStr event_id /\
  dict_get coc' Event_Hash = PyStr event_hash /\
  dict_get coc' ExportCustody.Evidence_Bundle_File
    = (if is_none (dict_get coc ExportCustody.Evidence_Bundle_File)
       then PyStr bundle_file
       else dict_get coc ExportCustody.Evidence_Bundle_File) /\
  (exists l,
     dict_get coc VerifyCustody.Chain_Of_Custody = PyList l /\
     dict_get coc' VerifyCustody.Chain_Of_Custody = PyList (l ++ [entry])) /\
  (forall k,
     k <> Event_ID -> k <> Event_Hash -> k <> ExportCustody.Evidence_Bundle_File ->
     k <> VerifyCustody.Chain_Of_Custody ->
     dict_get coc' k = dict_get coc k).
Proof. apply append_leaves. Qed.

Lemma bound_to_kept (coc : pydict) (k k' : pystr) (v : pyvalue) :
  is_none (dict_get coc k') = false ->
  dict_get (bound_to k v coc) k' = dict_get coc k'.
Proof.
  intros Hbound. unfold bound_to.
  destruct (is_none (dict_get coc k)) eqn:Hk; [|reflexivity].
  apply dict_get_set_other. intros ->. congruence.
Qed.

Lemma bound_to_stays_bound (coc : pydict) (k k' : pystr) (v : pyvalue) :
  is_none (dict_get coc k') = false ->
  is_none (dict_get (bound_to k v coc) k') = false.
Proof. intros Hbound. now rewrite bound_to_kept. Qed.

(** X19: whatever the outcome of a call, the log it leaves is the log it
    was given with fields added: no field that was set, other than
    [Chain_Of_Custody], has changed; a list under [Chain_Of_Custody] is the
    list it was, with at most the new entry after it; and it is unchanged
    when the call raised. *)
Theorem append_only (coc : pydict) :
  (forall k,
     k <> VerifyCustody.Chain_Of_Custody ->
     is_none (dict_get coc k) = false ->
     dict_get (fst (append coc)) k = dict_get coc k) /\
  (forall l,
     dict_get coc VerifyCustody.Chain_Of_Custody = PyList l ->
     dict_get (fst (append coc)) VerifyCustody.Chain_Of_Custody = PyList l \/
     dict_get (fst (append coc)) VerifyCustody.Chain_Of_Custody
       = PyList (l ++ [entry])) /\
  (snd (append coc) <> Ok tt ->
   dict_get (fst (append coc)) VerifyCustody.Chain_Of_Custody
     = dict_get coc VerifyCustody.Chain_Of_Custody).
Proof.
  rewrite append_run.
  assert (Hkept :
            forall k, is_none (dict_get coc k) = false ->
                      dict_get (with_file (with_hash (with_id coc))) k = dict_get coc k).
  { intros k Hk. subst with_file with_hash with_id.
    rewrite !bound_to_kept; auto using bound_to_stays_bound. }
  assert (Hchain :
            dict_get (with_file (with_hash (with_id coc))) VerifyCustody.Chain_Of_Custody
            = dict_get coc VerifyCustody.Chain_Of_Custody).
  { unfold dict_get. now rewrite bound_lookup_chain. }
  destruct (unset_or (dict_get coc Event_ID) event_id);
    [|cbn [fst snd]; repeat apply conj; auto].
  destruct (unset_or (dict_get coc Event_Hash) event_hash).
  - cbv zeta. unfold dict_item. rewrite bound_lookup_chain.
    destruct (dict_lookup coc VerifyCustody.Chain_Of_Custody) as [v|] eqn:Hlookup.
    + assert (Hget : dict_get coc VerifyCustody.Chain_Of_Custody = v)
        by (unfold dict_get; now rewrite Hlookup).
      destruct v as [| | | | |l| |]; cbn [fst snd]; repeat apply conj;
        try (intros k Hne Hk; apply (Hkept k Hk));
        try (intros l' Hl'; left; congruence);
        try (intros _; exact Hchain).
      * intros k Hne Hk. rewrite dict_get_set_other by congruence. now apply Hkept.
      * intros l' Hl'. right. rewrite dict_get_set_same. congruence.
      * intros Hnot. now destruct Hnot.
    + cbn [fst snd]. repeat apply conj; auto.
      intros l Hl. left. congruence.
  - cbn [fst snd]. subst with_id. repeat apply conj.
    + intros k Hne Hk. now apply bound_to_kept.
    + intros l Hl. left. rewrite bound_to_other by discriminate. exact Hl.
    + intros _. now rewrite bound_to_other by discriminate.
Qed.

Lemma new_entry_well_formed :
  entry_well_formed entry
  = VerifyCustody.is_valid_utc_z (PyStr now_utc)
    && nonempty_str (PyStr holder_name)
    && nonempty_str (PyStr holder_role)
    && nonempty_str (PyStr action).
Proof. reflexivity. Qed.

Lemma new_entry_timestamp : entry_timestamp entry = now_utc.
Proof. reflexivity. Qed.

(** The log after a successful call, as verification reads it. *)
Lemma append_then_verify (coc coc' : pydict) (entries : list pyvalue) :
  append coc = (coc', Ok tt) ->
  dict_get coc VerifyCustody.Chain_Of_Custody = PyList entries ->
  forallb entry_well_formed entries = true ->
  nonempty_str (PyStr event_id) = true ->
  nonempty_str (PyStr event_hash) = true ->
  entry_well_formed entry = true ->
  let violations := order_violations (timestamps entries ++ [now_utc]) 1 None in
  VerifyCustody.verify_chain_of_custody coc' []
    = (map VerifyCustody.ErrOrder violations
         ++ (if no_findings violations then [VerifyCustody.OkVerified] else []),
       Ok (no_findings violations)).
Proof.
  intros Happend Hentries Hwf Hid Hhash Hentry.
  destruct (append_leaves coc coc' Happend)
    as (Hid' & Hhash' & _ & (l & Hl & Hl') & _).
  rewrite Hentries in Hl. injection Hl as <-.
  assert (Hstamps : timestamps (entries ++ [entry]) = timestamps entries ++ [now_utc]).
  { unfold timestamps. rewrite map_app. cbn [map]. now rewrite new_entry_timestamp. }
  rewrite <- Hstamps.
  apply verify_well_formed_log.
  - now rewrite Hid'.
  - now rewrite Hhash'.
  - exact Hl'.
  - rewrite forallb_app, Hwf. cbn [forallb]. now rewrite Hentry.
Qed.

(** X20: appending keeps a log verifiable.  When the entries of the log
    are well formed, the supplied [Event_ID], [Event_Hash], holder, role and
    action are non-empty, and the clock's reading is a valid timestamp later
    than every timestamp of the log, the log a successful call leaves
    passes custody verification. *)
Theorem append_keeps_log_verifiable (coc coc' : pydict) (entries : list pyvalue) :
  append coc = (coc', Ok tt) ->
  dict_get coc VerifyCustody.Chain_Of_Custody = PyList entries ->
  forallb entry_well_formed entries = true ->
  nonempty_str (PyStr event_id) = true ->
  nonempty_str (PyStr event_hash) = true ->
  nonempty_str (PyStr holder_name) = true ->
  nonempty_str (PyStr holder_role) = true ->
  nonempty_str (PyStr action) = true ->
  VerifyCustody.is_valid_utc_z (PyStr now_utc) = true ->
  ascending (timestamps entries ++ [now_utc]) = true ->
  VerifyCustody.verify_chain_of_custody coc' [] = ([VerifyCustody.OkVerified], Ok true).
Proof.
  intros Happend Hentries Hwf Hid Hhash Hholder Hrole Haction Hvalid Hasc.
  assert (Hentry : entry_well_formed entry = true)
    by now rewrite new_entry_well_formed, Hvalid, Hholder, Hrole, Haction.
  rewrite (append_then_verify coc coc' entries Happend Hentries Hwf Hid Hhash Hentry).
  now rewrite (ascending_from_start _ 1 Hasc).
Qed.

(** X21: a successful call with non-empty fields, made when the clock's
    reading (which has a resolution of one second) is a valid timestamp not
    later than that of the last entry, on a log that was in order, leaves a
    log that fails custody verification, with one ordering finding, for the
    new entry. *)
Theorem append_not_later_fails_verification (coc coc' : pydict)
    (before : list pyvalue) (last : pyvalue) :
  append coc = (coc', Ok tt) ->
  dict_get coc VerifyCustody.Chain_Of_Custody = PyList (before ++ [last]) ->
  forallb entry_well_formed (before ++ [last]) = true ->
  ascending (timestamps (before ++ [last])) = true ->
  nonempty_str (PyStr event_id) = true ->
  nonempty_str (PyStr event_hash) = true ->
  nonempty_str (PyStr holder_name) = true ->
  nonempty_str (PyStr holder_role) = true ->
  nonempty_str (PyStr action) = true ->
  VerifyCustody.is_valid_utc_z (PyStr now_utc) = true ->
  str_leb now_utc (entry_timestamp last) = true ->
  VerifyCustody.verify_chain_of_custody coc' []
    = ([VerifyCustody.ErrOrder (Z.of_nat (length before) + 2)], Ok false).
Proof.
  intros Happend Hentries Hwf Hasc Hid Hhash Hholder Hrole Haction Hvalid Hnot_later.
  assert (Hentry : entry_well_formed entry = true)
    by now rewrite new_entry_well_formed, Hvalid, Hholder, Hrole, Haction.
  rewrite (append_then_verify coc coc' _ Happend Hentries Hwf Hid Hhash Hentry).
  unfold timestamps in *. rewrite map_app in *. cbn [map] in *.
  rewrite <- app_assoc. cbn [app].
  rewrite (one_violation _ [] _ _ 1 None
             (ascending_from_start _ 1 Hasc) Hnot_later eq_refl).
  rewrite length_map. cbn [map app no_findings].
  do 2 f_equal. f_equal. lia.
Qed.

(** X22: on the log [init_or_load_coc] returns, a call of
    [append_coc_entry] fails only with one of the two identity errors, and
    on the log it starts when there is no file the call succeeds. *)
Theorem append_after_init_or_load (path : file_state) (coc : pydict) :
  ExportCustody.init_or_load_coc path = Ok coc ->
  snd (append coc)
    = (if unset_or (dict_get coc Event_ID) event_id then
         if unset_or (dict_get coc Event_Hash) event_hash then Ok tt
         else Raise ExportCustody.hash_identity_mismatch
       else Raise ExportCustody.record_identity_mismatch) /\
  (path = NoFile -> snd (append coc) = Ok tt).
Proof.
  intros Hload. rewrite append_result.
  assert (Hlist : exists l,
             dict_lookup coc VerifyCustody.Chain_Of_Custody = Some (PyList l)).
  { unfold ExportCustody.init_or_load_coc, ExportCustody.load_json_file in Hload.
    destruct path as [| |data]; unfold bind in Hload.
    - injection Hload as <-. now exists [].
    - discriminate.
    - destruct data as [| | | | | |d|]; try discriminate.
      destruct (dict_lookup d VerifyCustody.Chain_Of_Custody)
        as [[| | | | |l| |]|] eqn:Hlookup; try discriminate.
      injection Hload as <-. eauto. }
  destruct Hlist as [l ->]. split; [reflexivity|].
  intros ->. injection Hload as <-. reflexivity.
Qed.

End Append.

(** The first entry of a new log: the log [init_or_load_coc] starts, after
    a call with every field given, passes verification. *)
Lemma append_keeps_log_verifiable_witness :
  VerifyCustody.verify_chain_of_custody
    (fst (ExportCustody.append_coc_entry (lit "E1") (lit "h1") (lit "bundle.json")
            (lit "A") (lit "Attorney") (lit "Created") [] []
            (lit "2025-01-12T18:42:10Z") ExportCustody.new_log)) []
  = ([VerifyCustody.OkVerified], Ok true).
Proof.
  apply (append_keeps_log_verifiable (lit "E1") (lit "h1") (lit "bundle.json")
           (lit "A") (lit "Attorney") (lit "Created") [] []
           (lit "2025-01-12T18:42:10Z") ExportCustody.new_log _ []);
    reflexivity.
Defined.

(** A second entry stamped with the second of the first. *)
Lemma append_not_later_fails_verification_witness :
  VerifyCustody.verify_chain_of_custody
    (fst (ExportCustody.append_coc_entry (lit "E1") (lit "h1") (lit "bundle.json")
            (lit "B") (lit "Attorney") (lit "Transferred") [] []
            (lit "2025-01-12T18:42:10Z") log_bound)) []
  = ([VerifyCustody.ErrOrder 2], Ok false).
Proof.
  apply (append_not_later_fails_verification (lit "E1") (lit "h1") (lit "bundle.json")
           (lit "B") (lit "Attorney") (lit "Transferred") [] []
           (lit "2025-01-12T18:42:10Z") log_bound _ [] (custody_entry T1 "A"));
    reflexivity.
Defined.

(** A successful call on [log_bound], and what it leaves. *)
Lemma append_success_state_witness :
  exists l,
    dict_get log_bound VerifyCustody.Chain_Of_Custody = PyList l /\
    dict_get
      (fst (ExportCustody.append_coc_entry (lit "E1") (lit "h1") (lit "other.json")
              (lit "B") (lit "Attorney") (lit "Transferred") [] []
              (lit "2025-01-12T18:42:11Z") log_bound))
      VerifyCustody.Chain_Of_Custody
    = PyList (l ++ [new_entry (lit "B") (lit "Attorney") (lit "Transferred") [] []
                      (lit "2025-01-12T18:42:11Z")]).
Proof.
  apply (append_success_state (lit "E1") (lit "h1") (lit "other.json")
           (lit "B") (lit "Attorney") (lit "Transferred") [] []
           (lit "2025-01-12T18:42:11Z") log_bound _ eq_refl).
Defined.

(** A stored log bound to [E1], loaded and appended to for [E2]. *)
Lemma append_after_init_or_load_witness :
  snd (ExportCustody.append_coc_entry (lit "E2") (lit "h1") (lit "bundle.json")
         (lit "B") (lit "Attorney") (lit "Transferred") [] []
         (lit "2025-01-12T18:42:11Z") log_bound)
  = Raise ExportCustody.record_identity_mismatch.
Proof.
  apply (append_after_init_or_load (lit "E2") (lit "h1") (lit "bundle.json")
           (lit "B") (lit "Attorney") (lit "Transferred") [] []
           (lit "2025-01-12T18:42:11Z") (JsonFile (PyDict log_bound)) log_bound eq_refl).
Defined.

(** ** The command-line tools for custody logs and bundles *)

(** X23: [verify_chain_of_custody.py] exits with 0 exactly when the file
    holds a mapping that is a custody log in order (identity set, entries
    well formed, timestamps strictly increasing); it exits with 1 when the
    file is missing or is not JSON; it raises an [AttributeError] when the
    file holds JSON that is not a mapping; and whenever it returns, its exit
    code is 0 or 1. *)
Theorem custody_tool_exit_code (coc_file : file_state) :
  (snd (VerifyCustody.main coc_file) = Ok 0 <->
   exists coc, coc_file = JsonFile (PyDict coc) /\ custody_in_order coc) /\
  (coc_file = NoFile \/ coc_file = BadJson ->
   snd (VerifyCustody.main coc_file) = Ok 1) /\
  (forall v, coc_file = JsonFile v -> is_dict v = false ->
             snd (VerifyCustody.main coc_file) = Raise AttributeError) /\
  (forall code, snd (VerifyCustody.main coc_file) = Ok code -> code = 0 \/ code = 1).
Proof.
  unfold VerifyCustody.main. split; [|split; [|split]].
  - destruct coc_file as [| |v]; cbn [VerifyCustody.load_json_file snd];
      try (split; [discriminate|intros (coc & Hfile & _); discriminate Hfile]).
    destruct v as [| | | | | |d|];
      try (split; [discriminate|intros (coc & Hfile & _); discriminate Hfile]).
    pose proof (verify_passes_iff d) as Hpasses.
    destruct (VerifyCustody.verify_chain_of_custody d []) as [out [[|]|exc]];
      cbn [snd negb] in *.
    + split; [intros _|reflexivity]. exists d. split; [reflexivity|].
      now apply Hpasses.
    + split; [discriminate|].
      intros (coc & [= <-] & Horder). apply Hpasses in Horder. discriminate Horder.
    + split; [discriminate|].
      intros (coc & [= <-] & Horder). apply Hpasses in Horder. discriminate Horder.
  - intros [-> | ->]; reflexivity.
  - intros v -> Hv. cbn [VerifyCustody.load_json_file].
    destruct v; try discriminate Hv; reflexivity.
  - intros code. destruct (VerifyCustody.load_json_file coc_file) as [v|exc];
      [|intros [= <-]; now right].
    destruct v as [| | | | | |d|]; try discriminate.
    destruct (VerifyCustody.verify_chain_of_custody d []) as [out [[|]|exc]];
      cbn [snd negb]; intros [= <-]; auto.
Qed.

Section BundleTool.
Context `{Runtime}.

Lemma conclude_passes (run : list VerifyBundle.message * result bool) :
  snd (VerifyBundle.conclude run) = Ok 0 <-> snd run = Ok true.
Proof.
  destruct run as [out [[|]|exc]]; cbn; split; congruence.
Qed.

Lemma conclude_code (run : list VerifyBundle.message * result bool) (code : Z) :
  snd (VerifyBundle.conclude run) = Ok code -> code = 0 \/ code = 1.
Proof.
  destruct run as [out [[|]|exc]]; cbn; intros [= <-]; auto.
Qed.

Lemma event_bundle_consistent (bundle : pydict) :
  snd (VerifyBundle.verify_event_bundle bundle []) = Ok true <->
  bundle_consistent (fun record => HashEvent.hash_event record sha256_name)
    (lit "Event") (lit "Event_Hash") bundle.
Proof. apply event_bundle_passes. Qed.

Lemma challenge_bundle_consistent (bundle : pydict) :
  snd (VerifyBundle.verify_challenge_bundle bundle []) = Ok true <->
  bundle_consistent (fun record => HashChallenge.hash_challenge record sha256_name)
    (lit "Challenge") (lit "Challenge_Hash") bundle.
Proof. apply challenge_bundle_passes. Qed.

(** The type [main] reads, against a type it knows. *)
Lemma bundle_type_is (d : pydict) (name : pystr) :
  name <> [] ->
  py_eq match dict_lookup d VerifyBundle.Bundle_Type with
        | Some v => v
        | None => PyStr []
        end (PyStr name) = true <->
  dict_get d VerifyBundle.Bundle_Type = PyStr name.
Proof.
  intros Hname. unfold dict_get.
  destruct (dict_lookup d VerifyBundle.Bundle_Type) as [v|].
  - apply py_eq_str_r.
  - rewrite py_eq_str_r. split; [intros [= <-]; now destruct Hname|discriminate].
Qed.

(** X24: [verify_bundle.py] exits with 0 exactly when the file holds a
    mapping whose [Bundle_Type] is the event type and which is consistent as
    an event bundle, or whose [Bundle_Type] is the challenge type and which
    is consistent as a challenge bundle.  With any other [Bundle_Type] it
    verifies nothing and exits with 1; it exits with 1 when the file is
    missing or is not JSON, raises an [AttributeError] when the file holds
    JSON that is not a mapping, and whenever it returns, its exit code is 0
    or 1. *)
Theorem bundle_tool_exit_code (bundle_file : file_state) :
  (snd (VerifyBundle.main bundle_file) = Ok 0 <->
   exists bundle,
     bundle_file = JsonFile (PyDict bundle) /\
     ((dict_get bundle VerifyBundle.Bundle_Type = VerifyBundle.event_bundle_type /\
       bundle_consistent (fun record => HashEvent.hash_event record sha256_name)
         (lit "Event") (lit "Event_Hash") bundle) \/
      (dict_get bundle VerifyBundle.Bundle_Type = VerifyBundle.challenge_bundle_type /\
       bundle_consistent (fun record => HashChallenge.hash_challenge record sha256_name)
         (lit "Challenge") (lit "Challenge_Hash") bundle))) /\
  (forall bundle,
     bundle_file = JsonFile (PyDict bundle) ->
     dict_get bundle VerifyBundle.Bundle_Type <> VerifyBundle.event_bundle_type ->
     dict_get bundle VerifyBundle.Bundle_Type <> VerifyBundle.challenge_bundle_type ->
     exists bundle_type,
       VerifyBundle.main bundle_file = ([VerifyBundle.ErrBundleType bundle_type], Ok 1)) /\
  (bundle_file = NoFile \/ bundle_file = BadJson ->
   snd (VerifyBundle.main bundle_file) = Ok 1) /\
  (forall v, bundle_file = JsonFile v -> is_dict v = false ->
             snd (VerifyBundle.main bundle_file) = Raise AttributeError) /\
  (forall code, snd (VerifyBundle.main bundle_file) = Ok code -> code = 0 \/ code = 1).
Proof.
  assert (Hevent : forall d,
             py_eq match dict_lookup d VerifyBundle.Bundle_Type with
                   | Some v => v
                   | None => PyStr []
                   end VerifyBundle.event_bundle_type = true <->
             dict_get d VerifyBundle.Bundle_Type = VerifyBundle.event_bundle_type)
    by (intros d; apply bundle_type_is; discriminate).
  assert (Hchallenge : forall d,
             py_eq match dict_lookup d VerifyBundle.Bundle_Type with
                   | Some v => v
                   | None => PyStr []
                   end VerifyBundle.challenge_bundle_type = true <->
             dict_get d VerifyBundle.Bundle_Type = VerifyBundle.challenge_bundle_type)
    by (intros d; apply bundle_type_is; discriminate).
  unfold VerifyBundle.main. split; [|split; [|split; [|split]]].
  - destruct bundle_file as [| |v]; cbn [VerifyBundle.load_json_file snd];
      try (split; [discriminate|intros (bd & Hfile & _); discriminate Hfile]).
    destruct v as [| | | | | |d|];
      try (split; [cbn; discriminate|intros (bd & Hfile & _); discriminate Hfile]).
    cbv zeta. specialize (Hevent d). specialize (Hchallenge d).
    destruct (py_eq _ VerifyBundle.event_bundle_type).
    + rewrite conclude_passes, event_bundle_consistent. split.
      * intros Hok. exists d. split; [reflexivity|]. left. split; [|exact Hok].
        now apply Hevent.
      * intros (bd & [= <-] & [[_ Hok]|[Htype _]]); [exact Hok|].
        rewrite (proj1 Hevent eq_refl) in Htype. discriminate Htype.
    + destruct (py_eq _ VerifyBundle.challenge_bundle_type).
      * rewrite conclude_passes, challenge_bundle_consistent. split.
        -- intros Hok. exists d. split; [reflexivity|]. right. split; [|exact Hok].
           now apply Hchallenge.
        -- intros (bd & [= <-] & [[Htype _]|[_ Hok]]); [|exact Hok].
           apply Hevent in Htype. discriminate Htype.
      * cbn [snd]. split; [discriminate|].
        intros (bd & [= <-] & [[Htype _]|[Htype _]]).
        -- apply Hevent in Htype. discriminate Htype.
        -- apply Hchallenge in Htype. discriminate Htype.
  - intros bundle -> Hnot_event Hnot_challenge. cbn [VerifyBundle.load_json_file].
    cbv zeta. specialize (Hevent bundle). specialize (Hchallenge bundle).
    destruct (py_eq _ VerifyBundle.event_bundle_type);
      [destruct Hnot_event; now apply Hevent|].
    destruct (py_eq _ VerifyBundle.challenge_bundle_type);
      [destruct Hnot_challenge; now apply Hchallenge|].
    eauto.
  - intros [-> | ->]; reflexivity.
  - intros v -> Hv. cbn [VerifyBundle.load_json_file].
    destruct v; try discriminate Hv; reflexivity.
  - intros code. destruct (VerifyBundle.load_json_file bundle_file) as [v|exc];
      [|intros [= <-]; now right].
    destruct v as [| | | | | |d|]; try discriminate.
    cbv zeta.
    destruct (py_eq _ VerifyBundle.event_bundle_type); [apply conclude_code|].
    destruct (py_eq _ VerifyBundle.challenge_bundle_type); [apply conclude_code|].
    intros [= <-]. now right.
Qed.

End BundleTool.

(** ** The canonical encoding is injective *)

Lemma Ok_eq {A} (a b : A) : Ok a = Ok b -> a = b.
Proof. now intros [= ->]. Qed.

Section Utf8.
Local Open Scope N_scope.

Lemma lor_disjoint (a x n : N) :
  x < 2 ^ n -> a mod 2 ^ n = 0 -> N.lor a x = a + x.
Proof.
  intros Hx Ha.
  assert (Hland : N.land a x = 0).
  { apply N.bits_inj. intros k. rewrite N.land_spec, N.bits_0.
    destruct (N.lt_ge_cases k n) as [Hk|Hk].
    - assert (Hbit : N.testbit a k = false).
      { rewrite <- (N.mod_pow2_bits_low a n k Hk), Ha. apply N.bits_0. }
      now rewrite Hbit.
    - assert (Hbit : N.testbit x k = false).
      { destruct (N.eq_dec x 0) as [->|Hx0]; [apply N.bits_0|].
        apply N.bits_above_log2. apply N.log2_lt_pow2 in Hx; lia. }
      rewrite Hbit. apply andb_false_r. }
  rewrite <- N.lxor_lor by exact Hland.
  symmetry. now apply N.add_nocarry_lxor.
Qed.

Lemma land_63 (c : N) : N.land c 63 = c mod 64.
Proof. change 63 with (N.ones 6). now rewrite N.land_ones. Qed.

Lemma continuation (x : N) : N.lor 128 (N.land x 63) = 128 + x mod 64.
Proof.
  rewrite land_63. apply (lor_disjoint 128 _ 6); [|reflexivity].
  apply N.mod_lt. discriminate.
Qed.

Lemma utf8_first_char (c : N) (bs r : pybytes) :
  c < 1114112 ->
  Json.utf8_char c = Ok bs ->
  utf8_first (bs ++ r) = Some (c, r).
Proof.
  intros Hc. unfold Json.utf8_char.
  pose proof (N.div_mod c 64 ltac:(discriminate)) as Hc0.
  pose proof (N.mod_lt c 64 ltac:(discriminate)) as Hr0.
  pose proof (N.div_mod (c / 64) 64 ltac:(discriminate)) as Hc1.
  pose proof (N.mod_lt (c / 64) 64 ltac:(discriminate)) as Hr1.
  pose proof (N.div_mod (c / 64 / 64) 64 ltac:(discriminate)) as Hc2.
  pose proof (N.mod_lt (c / 64 / 64) 64 ltac:(discriminate)) as Hr2.
  assert (Hs6 : N.shiftr c 6 = c / 64) by (now rewrite N.shiftr_div_pow2).
  assert (Hs12 : N.shiftr c 12 = c / 64 / 64).
  { rewrite N.shiftr_div_pow2, N.Div0.div_div. reflexivity. }
  assert (Hs18 : N.shiftr c 18 = c / 64 / 64 / 64).
  { rewrite N.shiftr_div_pow2, !N.Div0.div_div. reflexivity. }
  rewrite !continuation, Hs6, Hs12, Hs18.
  set (q1 := c / 64) in *. set (q2 := q1 / 64) in *. set (q3 := q2 / 64) in *.
  set (m0 := c mod 64) in *. set (m1 := q1 mod 64) in *. set (m2 := q2 mod 64) in *.
  clearbody m0 m1 m2 q3 q2 q1. clear Hs6 Hs12 Hs18.
  destruct (c <? 128) eqn:H1.
  - intros Hbs. apply Ok_eq in Hbs. subst bs. cbn [app utf8_first]. now rewrite H1.
  - apply N.ltb_ge in H1. destruct (c <? 2048) eqn:H2.
    + apply N.ltb_lt in H2. intros Hbs. apply Ok_eq in Hbs. subst bs.
      rewrite (lor_disjoint 192 q1 5)
        by (first [reflexivity | change (2 ^ 5) with 32; lia]).
      cbn [app utf8_first].
      replace (192 + q1 <? 128) with false by (symmetry; apply N.ltb_ge; lia).
      replace (192 + q1 <? 224) with true by (symmetry; apply N.ltb_lt; lia).
      do 2 f_equal. lia.
    + apply N.ltb_ge in H2. destruct (c <? 65536) eqn:H3.
      * apply N.ltb_lt in H3.
        destruct ((55296 <=? c) && (c <=? 57343)); [discriminate|].
        intros Hbs. apply Ok_eq in Hbs. subst bs.
        rewrite (lor_disjoint 224 q2 4)
          by (first [reflexivity | change (2 ^ 4) with 16; lia]).
        cbn [app utf8_first].
        replace (224 + q2 <? 128) with false by (symmetry; apply N.ltb_ge; lia).
        replace (224 + q2 <? 224) with false by (symmetry; apply N.ltb_ge; lia).
        replace (224 + q2 <? 240) with true by (symmetry; apply N.ltb_lt; lia).
        do 2 f_equal. lia.
      * apply N.ltb_ge in H3. intros Hbs. apply Ok_eq in Hbs. subst bs.
        rewrite (lor_disjoint 240 q3 3)
          by (first [reflexivity | change (2 ^ 3) with 8; lia]).
        cbn [app utf8_first].
        replace (240 + q3 <? 128) with false by (symmetry; apply N.ltb_ge; lia).
        replace (240 + q3 <? 224) with false by (symmetry; apply N.ltb_ge; lia).
        replace (240 + q3 <? 240) with false by (symmetry; apply N.ltb_ge; lia).
        do 2 f_equal. lia.
Qed.

Lemma utf8_char_nonempty (c : N) (bs : pybytes) :
  Json.utf8_char c = Ok bs -> bs <> [].
Proof.
  unfold Json.utf8_char.
  destruct (c <? 128); [intros [= <-]; discriminate|].
  destruct (c <? 2048); [intros [= <-]; discriminate|].
  destruct (c <? 65536); [|intros [= <-]; discriminate].
  destruct ((55296 <=? c) && (c <=? 57343)); [discriminate|].
  intros [= <-]; discriminate.
Qed.

Lemma encode_utf8_cons (c : N) (s : pystr) (bytes : pybytes) :
  Json.encode_utf8 (c :: s) = Ok bytes ->
  exists bs rest,
    Json.utf8_char c = Ok bs /\ Json.encode_utf8 s = Ok rest /\ bytes = bs ++ rest.
Proof.
  unfold Json.encode_utf8. cbn [map Json.sequence].
  destruct (Json.utf8_char c) as [bs|e]; [|discriminate].
  cbn [bind]. destruct (Json.sequence (map Json.utf8_char s)) as [chunks|e];
    [|discriminate].
  cbn [bind concat]. intros [= <-]. eauto.
Qed.

(** Two strings with the same UTF-8 encoding are the same string. *)
Lemma encode_utf8_injective (s : pystr) :
  forall (t : pystr) (bytes : pybytes),
  str_in_range s = true -> str_in_range t = true ->
  Json.encode_utf8 s = Ok bytes -> Json.encode_utf8 t = Ok bytes -> s = t.
Proof.
  induction s as [|c s IH]; intros [|d t] bytes Hs Ht Hes Het.
  - reflexivity.
  - exfalso. injection Hes as <-.
    apply encode_utf8_cons in Het as (bs & rest & Hd & _ & Hbytes).
    apply utf8_char_nonempty in Hd. now destruct bs.
  - exfalso. injection Het as <-.
    apply encode_utf8_cons in Hes as (bs & rest & Hc & _ & Hbytes).
    apply utf8_char_nonempty in Hc. now destruct bs.
  - apply encode_utf8_cons in Hes as (bs & rest & Hc & Hs' & ->).
    apply encode_utf8_cons in Het as (bs' & rest' & Hd & Ht' & Heq).
    cbn [str_in_range forallb] in Hs, Ht.
    apply andb_true_iff in Hs as [Hc_range Hs], Ht as [Hd_range Ht].
    apply N.ltb_lt in Hc_range, Hd_range.
    pose proof (utf8_first_char c bs rest Hc_range Hc) as Hfirst.
    pose proof (utf8_first_char d bs' rest' Hd_range Hd) as Hfirst'.
    rewrite Heq, Hfirst' in Hfirst. injection Hfirst as Hcd Hrest. subst d rest'.
    f_equal. now apply (IH t rest).
Qed.

End Utf8.

Section Strings.
Local Open Scope N_scope.

Lemma unhex_hex_digit (n : N) : n < 16 -> unhex (Json.hex_digit n) = n.
Proof.
  intros Hn. unfold unhex, Json.hex_digit.
  destruct (n <? 10) eqn:Hlt.
  - apply N.ltb_lt in Hlt.
    replace (48 + n <? 58) with true by (symmetry; apply N.ltb_lt; lia). lia.
  - apply N.ltb_ge in Hlt.
    replace (87 + n <? 58) with false by (symmetry; apply N.ltb_ge; lia). lia.
Qed.

(** A character of a string, read back from its escaped form. *)
Lemma unescape_escape_char (c : N) (r : pystr) :
  unescape_first (Json.escape_char c ++ r) = Some (c, r).
Proof.
  unfold Json.escape_char.
  destruct (c =? 34) eqn:H34; [apply N.eqb_eq in H34; now subst|].
  destruct (c =? 92) eqn:H92; [apply N.eqb_eq in H92; now subst|].
  destruct (c =? 8) eqn:H8; [apply N.eqb_eq in H8; now subst|].
  destruct (c =? 12) eqn:H12; [apply N.eqb_eq in H12; now subst|].
  destruct (c =? 10) eqn:H10; [apply N.eqb_eq in H10; now subst|].
  destruct (c =? 13) eqn:H13; [apply N.eqb_eq in H13; now subst|].
  destruct (c =? 9) eqn:H9; [apply N.eqb_eq in H9; now subst|].
  destruct (c <? 32) eqn:H32.
  - apply N.ltb_lt in H32.
    pose proof (N.div_mod c 16 ltac:(discriminate)) as Hc.
    pose proof (N.mod_lt c 16 ltac:(discriminate)) as Hm.
    set (q := c / 16) in *. set (m := c mod 16) in *. clearbody q m.
    cbn [app unescape_first].
    change (92 =? 34) with false. change (92 =? 92) with true.
    change (117 =? 34) with false. change (117 =? 92) with false.
    change (117 =? 98) with false. change (117 =? 102) with false.
    change (117 =? 110) with false. change (117 =? 114) with false.
    change (117 =? 116) with false. cbv iota.
    rewrite !unhex_hex_digit by lia. do 2 f_equal. lia.
  - cbn [app unescape_first]. now rewrite H34, H92.
Qed.

Lemma unescape_closing_quote (r : pystr) : unescape_first (34 :: r) = None.
Proof. reflexivity. Qed.

(** The inside of a string literal up to its closing quote determines the
    string, and what follows the quote. *)
Lemma escaped_split (s : pystr) :
  forall (t r r' : pystr),
  flat_map Json.escape_char s ++ 34 :: r = flat_map Json.escape_char t ++ 34 :: r' ->
  s = t /\ r = r'.
Proof.
  induction s as [|c s IH]; intros [|d t] r r' Heq; cbn [flat_map app] in Heq.
  - injection Heq as ->. auto.
  - exfalso. apply (f_equal unescape_first) in Heq.
    rewrite <- app_assoc, unescape_escape_char in Heq. discriminate Heq.
  - exfalso. apply (f_equal unescape_first) in Heq.
    rewrite <- app_assoc, unescape_escape_char in Heq. discriminate Heq.
  - pose proof (f_equal unescape_first Heq) as Hfirst.
    rewrite <- !app_assoc, !unescape_escape_char in Hfirst.
    injection Hfirst as -> Hrest.
    apply IH in Hrest as [-> ->]. auto.
Qed.

Lemma string_literal_split (s t r r' : pystr) :
  Json.encode_basestring s ++ r = Json.encode_basestring t ++ r' ->
  s = t /\ r = r'.
Proof.
  unfold Json.encode_basestring. cbn [app]. rewrite <- !app_assoc. cbn [app].
  intros [= Heq]. now apply escaped_split.
Qed.

End Strings.

Section Integers.
Local Open Scope N_scope.

Lemma digits_split (d : Decimal.uint) :
  forall (d' : Decimal.uint) (r r' : pystr),
  lit (NilEmpty.string_of_uint d) ++ r = lit (NilEmpty.string_of_uint d') ++ r' ->
  no_digit_ahead r = true -> no_digit_ahead r' = true ->
  d = d' /\ r = r'.
Proof.
  induction d as [|d IH|d IH|d IH|d IH|d IH|d IH|d IH|d IH|d IH|d IH];
    intros [|d'|d'|d'|d'|d'|d'|d'|d'|d'|d'] r r' Heq Hr Hr';
    cbn in Heq;
    try (split; [reflexivity|exact Heq]);
    try (subst r; discriminate Hr);
    try (subst r'; discriminate Hr');
    try discriminate Heq;
    injection Heq as Heq; destruct (IH d' r r' Heq Hr Hr') as [-> ->]; auto.
Qed.

Lemma digits_head (d : Decimal.uint) :
  d <> Decimal.Nil ->
  exists c t, lit (NilEmpty.string_of_uint d) = c :: t /\ is_digit c = true.
Proof.
  destruct d; [intros Hd; now destruct Hd|..]; intros _; cbn; eauto.
Qed.

Lemma to_int_shape (z : Z) :
  exists d, d <> Decimal.Nil /\
    (Json.int_repr z = lit (NilEmpty.string_of_uint d) /\ Z.to_int z = Decimal.Pos d \/
     Json.int_repr z = 45 :: lit (NilEmpty.string_of_uint d) /\ Z.to_int z = Decimal.Neg d).
Proof.
  unfold Json.int_repr. destruct z as [|p|p]; cbn [Z.to_int NilZero.string_of_int].
  - exists (Decimal.D0 Decimal.Nil). split; [discriminate|]. left. split; reflexivity.
  - exists (Pos.to_uint p). pose proof (DecimalPos.Unsigned.to_uint_nonnil p) as Hp.
    split; [exact Hp|]. left. split; [|reflexivity].
    unfold NilZero.string_of_uint. now destruct (Pos.to_uint p).
  - exists (Pos.to_uint p). pose proof (DecimalPos.Unsigned.to_uint_nonnil p) as Hp.
    split; [exact Hp|]. right. split; [|reflexivity].
    unfold NilZero.string_of_uint. now destruct (Pos.to_uint p).
Qed.

(** The text of an integer, followed by no digit, determines the integer
    and what follows it. *)
Lemma int_split (z z' : Z) (r r' : pystr) :
  Json.int_repr z ++ r = Json.int_repr z' ++ r' ->
  no_digit_ahead r = true -> no_digit_ahead r' = true ->
  z = z' /\ r = r'.
Proof.
  intros Heq Hr Hr'.
  destruct (to_int_shape z) as (d & Hd & [[Ht Hz]|[Ht Hz]]);
    destruct (to_int_shape z') as (d' & Hd' & [[Ht' Hz']|[Ht' Hz']]);
    rewrite Ht, Ht' in Heq.
  - destruct (digits_split d d' r r' Heq Hr Hr') as [-> ->].
    split; [|reflexivity]. apply DecimalZ.to_int_inj. congruence.
  - exfalso. destruct (digits_head d Hd) as (c & t & Hc & Hdigit).
    rewrite Hc in Heq. injection Heq as -> _. discriminate Hdigit.
  - exfalso. destruct (digits_head d' Hd') as (c & t & Hc & Hdigit).
    rewrite Hc in Heq. injection Heq as <- _. discriminate Hdigit.
  - injection Heq as Heq.
    destruct (digits_split d d' r r' Heq Hr Hr') as [-> ->].
    split; [|reflexivity]. apply DecimalZ.to_int_inj. congruence.
Qed.

Lemma int_head (z : Z) :
  exists c t, Json.int_repr z = c :: t /\ ((c =? 45) || is_digit c = true).
Proof.
  destruct (to_int_shape z) as (d & Hd & [[Ht _]|[Ht _]]); rewrite Ht.
  - destruct (digits_head d Hd) as (c & t & -> & Hdigit).
    exists c, t. split; [reflexivity|]. rewrite Hdigit. apply orb_true_r.
  - eauto.
Qed.

End Integers.

Section Separated.
Local Open Scope N_scope.

Lemma join_cons (p : pystr) (ps : list pystr) :
  Json.join (lit ",") (p :: ps) = p ++ concat (map (cons 44) ps).
Proof.
  revert p. induction ps as [|q ps IH]; intros p.
  - cbn. now rewrite app_nil_r.
  - change (Json.join (lit ",") (p :: q :: ps))
      with (p ++ lit "," ++ Json.join (lit ",") (q :: ps)).
    rewrite IH. reflexivity.
Qed.

Lemma after_item_no_digit (closing : N) (ts : list pystr) (r : pystr) :
  is_digit closing = false ->
  no_digit_ahead (concat (map (cons 44) ts) ++ closing :: r) = true.
Proof. intros Hclosing. destruct ts; cbn; [now rewrite Hclosing|reflexivity]. Qed.

Variable A : Type.
Variable R : A -> A -> Prop.
Variable ok : A -> pystr -> Prop.
Variable closing : N.
Hypothesis closing_no_comma : closing <> 44.
Hypothesis closing_no_digit : is_digit closing = false.

(** [t] is the text of [x], and as the start of a text followed by no
    digit it tells [x], up to [R], from every other item. *)
Let told_apart (x : A) (t : pystr) : Prop :=
  forall x' t' r r',
    ok x' t' -> t ++ r = t' ++ r' ->
    no_digit_ahead r = true -> no_digit_ahead r' = true ->
    R x x' /\ r = r'.

Lemma separated_split (xs : list A) (ts : list pystr) :
  Forall2 told_apart xs ts ->
  forall xs' ts' r r',
    Forall2 ok xs' ts' ->
    concat (map (cons 44) ts) ++ closing :: r
      = concat (map (cons 44) ts') ++ closing :: r' ->
    Forall2 R xs xs' /\ r = r'.
Proof.
  induction 1 as [|x t xs ts Hx _ IH]; intros xs' ts' r r' Hok Heq;
    destruct Hok as [|x' t' xs' ts' Hx' Hok]; cbn [map concat app] in Heq.
  - injection Heq as ->. auto.
  - injection Heq as Hc _. now destruct closing_no_comma.
  - injection Heq as Hc _. symmetry in Hc. now destruct closing_no_comma.
  - injection Heq as Heq. rewrite <- !app_assoc in Heq.
    destruct (Hx x' t' _ _ Hx' Heq) as [Hxx' Hrest];
      try now apply after_item_no_digit.
    destruct (IH xs' ts' r r' Hok Hrest) as [Hrel ->]. auto.
Qed.

(** The same between brackets, where the first item follows the opening
    bracket at once; no item starts with the closing bracket. *)
Lemma bracketed_split (xs : list A) (ts : list pystr) :
  Forall2 told_apart xs ts ->
  Forall (fun t => exists c t0, t = c :: t0 /\ c <> closing) ts ->
  forall xs' ts' r r',
    Forall2 ok xs' ts' ->
    Forall (fun t => exists c t0, t = c :: t0 /\ c <> closing) ts' ->
    Json.join (lit ",") ts ++ closing :: r = Json.join (lit ",") ts' ++ closing :: r' ->
    Forall2 R xs xs' /\ r = r'.
Proof.
  intros Hxs Hheads xs' ts' r r' Hok Hheads' Heq.
  destruct Hxs as [|x t xs ts Hx Hxs]; destruct Hok as [|x' t' xs' ts' Hx' Hok].
  - injection Heq as ->. auto.
  - exfalso. rewrite join_cons in Heq.
    inversion Hheads' as [|? ? (c & t0 & -> & Hc) _]; subst.
    injection Heq as Heq _. now destruct Hc.
  - exfalso. rewrite join_cons in Heq.
    inversion Hheads as [|? ? (c & t0 & -> & Hc) _]; subst.
    injection Heq as Heq _. now destruct Hc.
  - rewrite !join_cons, <- !app_assoc in Heq.
    destruct (Hx x' t' _ _ Hx' Heq) as [Hxx' Hrest];
      try now apply after_item_no_digit.
    destruct (separated_split xs ts Hxs xs' ts' r r' Hok Hrest) as [Hrel ->]. auto.
Qed.

End Separated.

Lemma sequence_texts {A} (f : A -> result pystr) (l : list A) (ts : list pystr) :
  Json.sequence (map f l) = Ok ts -> Forall2 (fun x t => f x = Ok t) l ts.
Proof.
  intros Hseq. apply sequence_ok in Hseq.
  exact (Forall2_map_left (fun r t => r = Ok t) f l ts Hseq).
Qed.

Lemma Forall2_partner {A B} (R : A -> B -> Prop) (l : list A) (m : list B) (x : A) :
  Forall2 R l m -> In x l -> exists y, In y m /\ R x y.
Proof.
  induction 1 as [|a b l m Hab _ IH]; intros Hin; [contradiction|].
  destruct Hin as [->|Hin].
  - exists b. split; [now left|exact Hab].
  - destruct (IH Hin) as (y & Hy & Hxy). exists y. split; [now right|exact Hxy].
Qed.

Lemma Forall2_and_left {A B} (P : A -> Prop) (R : A -> B -> Prop)
    (l : list A) (m : list B) :
  Forall P l -> Forall2 R l m -> Forall2 (fun x y => P x /\ R x y) l m.
Proof.
  intros HP HR. induction HR as [|a b l m Hab _ IH]; constructor;
    inversion HP; subst; auto.
Qed.

Lemma Forall2_right {A B} (Q : B -> Prop) (R : A -> B -> Prop)
    (l : list A) (m : list B) :
  (forall x y, R x y -> Q y) -> Forall2 R l m -> Forall Q m.
Proof. intros HQ HR. induction HR; constructor; eauto. Qed.

Lemma In_dict_lookup (d : pydict) (k : pystr) (v : pyvalue) :
  NoDup (map fst d) -> In (k, v) d -> dict_lookup d k = Some v.
Proof.
  induction d as [|[k' v'] d IH]; intros Hnd Hin; [contradiction|].
  inversion Hnd as [|? ? Hk' Hd]; subst. cbn [dict_lookup].
  destruct Hin as [[= -> ->]|Hin].
  - now rewrite str_eqb_refl.
  - destruct (str_eqb k' k) eqn:Hk; [|now apply IH].
    apply str_eqb_eq in Hk. subst k'. exfalso. apply Hk'.
    change k with (fst (k, v)). now apply in_map.
Qed.

Lemma insert_item_map {V W} (f : V -> W) (x : pystr * V) (l : list (pystr * V)) :
  Json.insert_item (fst x, f (snd x)) (map (fun kv => (fst kv, f (snd kv))) l)
  = map (fun kv => (fst kv, f (snd kv))) (Json.insert_item x l).
Proof.
  induction l as [|y l IH]; [reflexivity|].
  cbn [map Json.insert_item fst]. destruct (str_leb (fst x) (fst y)); [reflexivity|].
  cbn [map]. now rewrite IH.
Qed.

Lemma sort_items_map {V W} (f : V -> W) (l : list (pystr * V)) :
  Json.sort_items (map (fun kv => (fst kv, f (snd kv))) l)
  = map (fun kv => (fst kv, f (snd kv))) (Json.sort_items l).
Proof.
  induction l as [|x l IH]; [reflexivity|].
  cbn [map]. unfold Json.sort_items in *. cbn [fold_right]. rewrite IH.
  apply insert_item_map.
Qed.

Section Structure.
Context `{Runtime}.
Local Open Scope N_scope.

Lemma opens_same_kind (v v' : pyvalue) (c : N) :
  opens v c = true -> opens v' c = true ->
  match v, v' with
  | PyNone, PyNone => True
  | PyBool b, PyBool b' => b = b'
  | PyInt _, PyInt _ => True
  | PyStr _, PyStr _ => True
  | PyList _, PyList _ => True
  | PyDict _, PyDict _ => True
  | _, _ => False
  end.
Proof.
  destruct v as [|[|]| | | | | |], v' as [|[|]| | | | | |];
    cbn [opens]; intros Hv Hv';
    try discriminate Hv; try discriminate Hv'; try exact I; try reflexivity;
    exfalso;
    repeat match goal with
      | H : (c =? _) = true |- _ => apply N.eqb_eq in H; subst c
      end;
    try discriminate;
    try (vm_compute in Hv; discriminate Hv);
    try (vm_compute in Hv'; discriminate Hv').
Qed.

Lemma opens_no_bracket (v : pyvalue) (c : N) :
  opens v c = true -> c <> 93.
Proof.
  intros Hv ->. destruct v as [|[|]| | | | | |]; vm_compute in Hv; discriminate Hv.
Qed.

Lemma dumps_opens (v : pyvalue) (t : pystr) :
  float_free v = true -> Json.dumps v = Ok t ->
  exists c t0, t = c :: t0 /\ opens v c = true.
Proof.
  destruct v as [|[|]|z|f|s|l|d|i]; intros Hfree Hv; try discriminate.
  - apply Ok_eq in Hv. subst t. now eexists _, _.
  - apply Ok_eq in Hv. subst t. now eexists _, _.
  - apply Ok_eq in Hv. subst t. now eexists _, _.
  - change (Ok (Json.int_repr z) = Ok t) in Hv. apply Ok_eq in Hv. subst t.
    apply int_head.
  - change (Ok (Json.encode_basestring s) = Ok t) in Hv. apply Ok_eq in Hv. subst t.
    now eexists _, _.
  - rewrite dumps_list in Hv.
    destruct (Json.sequence (map Json.dumps l)) as [parts|e]; [|discriminate].
    apply Ok_eq in Hv. subst t. now eexists _, _.
  - rewrite dumps_dict in Hv.
    destruct (Json.sequence _) as [fields|e]; [|discriminate].
    apply Ok_eq in Hv. subst t. now eexists _, _.
Qed.

(** The text of [v], as the start of a text followed by no digit, tells
    [v] from every other record. *)
Let determines (v : pyvalue) : Prop :=
  forall v' t' r r' t,
    Json.dumps v = Ok t ->
    float_free v = true ->
    (float_free v' = true /\ distinct_keys v' = true /\ Json.dumps v' = Ok t') ->
    t ++ r = t' ++ r' ->
    no_digit_ahead r = true -> no_digit_ahead r' = true ->
    same_record v v' = true /\ r = r'.

Lemma forall2b_Forall2 (l m : list pyvalue) :
  Forall2 (fun x y => same_record x y = true) l m -> forall2b same_record l m = true.
Proof. induction 1 as [|x y l m Hxy _ IH]; cbn; [reflexivity|now rewrite Hxy, IH]. Qed.

Lemma heads_of_items (l : list pyvalue) (ts : list pystr) :
  forallb float_free l = true ->
  Forall2 (fun x t => Json.dumps x = Ok t) l ts ->
  Forall (fun t => exists c t0, t = c :: t0 /\ c <> 93) ts.
Proof.
  intros Hfree Hts. induction Hts as [|x t l ts Hx _ IH]; constructor;
    cbn [forallb] in Hfree; apply andb_true_iff in Hfree as [Hx_free Hl_free].
  - destruct (dumps_opens x t Hx_free Hx) as (c & t0 & -> & Hc).
    exists c, t0. split; [reflexivity|]. now apply (opens_no_bracket x).
  - now apply IH.
Qed.

Lemma list_determined (l : list pyvalue) :
  Forall determines l -> determines (PyList l).
Proof.
  intros IH v' t' r r' t Hv Hfree (Hfree' & Hkeys' & Hv') Heq Hr Hr'.
  destruct (dumps_opens _ _ Hfree Hv) as (c & t0 & Ht & Hc).
  destruct (dumps_opens _ _ Hfree' Hv') as (c' & t0' & Ht' & Hc').
  assert (Hcc' : c = c') by (rewrite Ht, Ht' in Heq; now injection Heq).
  subst c'. pose proof (opens_same_kind _ _ _ Hc Hc') as Hkind.
  destruct v' as [| | | | |l'| |]; try contradiction. clear Ht Ht' Hc Hc' Hkind t0 t0' c.
  rewrite dumps_list in Hv, Hv'.
  destruct (Json.sequence (map Json.dumps l)) as [ts|e] eqn:Hts; [|discriminate].
  destruct (Json.sequence (map Json.dumps l')) as [ts'|e] eqn:Hts'; [|discriminate].
  cbn [bind] in Hv, Hv'. apply Ok_eq in Hv, Hv'. subst t t'.
  apply sequence_texts in Hts, Hts'.
  cbn [float_free distinct_keys] in Hfree, Hfree', Hkeys'.
  change (lit "[") with [91] in Heq. change (lit "]") with [93] in Heq.
  cbn [app] in Heq. injection Heq as Heq. rewrite <- !app_assoc in Heq. cbn [app] in Heq.
  assert (Hitems :
            Forall2 (fun x y => same_record x y = true) l l' /\ r = r').
  { apply (bracketed_split pyvalue (fun x y => same_record x y = true)
             (fun x' t' => float_free x' = true /\ distinct_keys x' = true /\
                           Json.dumps x' = Ok t')
             93 ltac:(discriminate) eq_refl l ts) with (xs' := l') (ts' := ts').
    - clear Heq. revert Hfree IH.
      induction Hts as [|x t l0 ts0 Hx _ IHts]; intros Hfree IH; constructor.
      + cbn [forallb] in Hfree. apply andb_true_iff in Hfree as [Hx_free _].
        inversion IH as [|? ? Hdet _]; subst.
        intros x' tx' rx rx' Hok Hsplit Hrx Hrx'.
        now apply (Hdet x' tx' rx rx' t).
      + cbn [forallb] in Hfree. apply andb_true_iff in Hfree as [_ Hl_free].
        inversion IH; subst. now apply IHts.
    - now apply (heads_of_items l).
    - clear Heq Hts. revert Hfree' Hkeys'.
      induction Hts' as [|x t l0 ts0 Hx _ IHts]; intros Hfree' Hkeys'; constructor;
        cbn [forallb] in Hfree', Hkeys';
        apply andb_true_iff in Hfree' as [Hx_free Hl_free];
        apply andb_true_iff in Hkeys' as [Hx_keys Hl_keys]; auto.
    - now apply (heads_of_items l').
    - exact Heq. }
  destruct Hitems as [Hitems ->]. split; [|reflexivity].
  cbn [same_record]. now apply forall2b_Forall2.
Qed.

Lemma dict_field_text (k : pystr) (v : pyvalue) (t : pystr) :
  Json.dict_field (k, Json.dumps v) = Ok t ->
  exists tv, Json.dumps v = Ok tv /\ t = Json.encode_basestring k ++ 58 :: tv.
Proof.
  unfold Json.dict_field. cbn [fst snd].
  destruct (Json.dumps v) as [tv|e]; [|discriminate].
  cbn [bind]. intros Ht. apply Ok_eq in Ht. subst t. now exists tv.
Qed.

Lemma forallb_sorted {V} (f : pystr * V -> bool) (d : list (pystr * V)) :
  forallb f d = true -> Forall (fun kv => f kv = true) (Json.sort_items d).
Proof.
  intros Hall. eapply Permutation_Forall; [symmetry; apply sort_items_perm|].
  apply Forall_forall. now apply forallb_forall.
Qed.

Lemma dict_determined (d : pydict) :
  Forall (fun kv => determines (snd kv)) d -> determines (PyDict d).
Proof.
  intros IH v' t' r r' t Hv Hfree (Hfree' & Hkeys' & Hv') Heq Hr Hr'.
  destruct (dumps_opens _ _ Hfree Hv) as (c & t0 & Ht & Hc).
  destruct (dumps_opens _ _ Hfree' Hv') as (c' & t0' & Ht' & Hc').
  assert (Hcc' : c = c') by (rewrite Ht, Ht' in Heq; now injection Heq).
  subst c'. pose proof (opens_same_kind _ _ _ Hc Hc') as Hkind.
  destruct v' as [| | | | | |d'|]; try contradiction. clear Ht Ht' Hc Hc' Hkind t0 t0' c.
  rewrite dumps_dict, sort_items_map, map_map in Hv, Hv'.
  cbn [fst snd] in Hv, Hv'.
  set (field := fun kv : pystr * pyvalue =>
                  Json.dict_field (fst kv, Json.dumps (snd kv))) in *.
  destruct (Json.sequence (map field (Json.sort_items d))) as [ts|e] eqn:Hts;
    [|discriminate].
  destruct (Json.sequence (map field (Json.sort_items d'))) as [ts'|e] eqn:Hts';
    [|discriminate].
  cbn [bind] in Hv, Hv'. apply Ok_eq in Hv, Hv'. subst t t'.
  apply sequence_texts in Hts, Hts'.
  cbn [float_free distinct_keys] in Hfree, Hfree', Hkeys'.
  apply andb_true_iff in Hkeys' as [Hdistinct' Hkeys'].
  apply forallb_sorted in Hfree, Hfree', Hkeys'.
  assert (IHs : Forall (fun kv => determines (snd kv)) (Json.sort_items d))
    by (eapply Permutation_Forall; [symmetry; apply sort_items_perm|exact IH]).
  change (lit "{") with [123] in Heq. change (lit "}") with [125] in Heq.
  cbn [app] in Heq. injection Heq as Heq. rewrite <- !app_assoc in Heq. cbn [app] in Heq.
  assert (Hheads : forall sd fs,
             Forall2 (fun kv t => field kv = Ok t) sd fs ->
             Forall (fun t => exists c t0, t = c :: t0 /\ c <> 125) fs).
  { intros sd fs Hfs. induction Hfs as [|[k v] f sd fs Hf _ IHfs]; constructor; auto.
    apply dict_field_text in Hf as (tv & _ & ->).
    exists 34, (flat_map Json.escape_char k ++ [34] ++ 58 :: tv).
    split; [|discriminate]. unfold Json.encode_basestring. cbn [app].
    now rewrite <- app_assoc. }
  assert (Hitems :
            Forall2 (fun kv kv' : pystr * pyvalue =>
                       fst kv = fst kv' /\ same_record (snd kv) (snd kv') = true)
              (Json.sort_items d) (Json.sort_items d') /\ r = r').
  { apply (bracketed_split (pystr * pyvalue)
             (fun kv kv' => fst kv = fst kv' /\ same_record (snd kv) (snd kv') = true)
             (fun kv' t' => float_free (snd kv') = true /\
                            distinct_keys (snd kv') = true /\ field kv' = Ok t')
             125 ltac:(discriminate) eq_refl (Json.sort_items d) ts)
      with (xs' := Json.sort_items d') (ts' := ts').
    - clear Heq. revert Hfree IHs.
      induction Hts as [|[k v] t sd ts0 Hkv _ IHts]; intros Hfree IHs; constructor.
      + inversion Hfree as [|? ? Hv_free _]; subst.
        inversion IHs as [|? ? Hdet _]; subst. cbn [snd] in Hv_free, Hdet.
        intros [k' v'] tx' rx rx' (Hv'_free & Hv'_keys & Hkv') Hsplit Hrx Hrx'.
        apply dict_field_text in Hkv as (tv & Hv & ->).
        apply dict_field_text in Hkv' as (tv' & Hv' & ->).
        cbn [fst snd] in *. rewrite <- !app_assoc in Hsplit.
        apply string_literal_split in Hsplit as [-> Hsplit].
        cbn [app] in Hsplit. injection Hsplit as Hsplit.
        destruct (Hdet v' tv' rx rx' tv Hv Hv_free (conj Hv'_free (conj Hv'_keys Hv'))
                    Hsplit Hrx Hrx') as [Hsame ->].
        auto.
      + inversion Hfree; subst. inversion IHs; subst. now apply IHts.
    - now apply (Hheads (Json.sort_items d)).
    - clear Heq Hts. revert Hfree' Hkeys'.
      induction Hts' as [|kv t sd ts0 Hkv _ IHts]; intros Hfree' Hkeys'; constructor;
        inversion Hfree'; inversion Hkeys'; subst; auto.
    - now apply (Hheads (Json.sort_items d')).
    - exact Heq. }
  destruct Hitems as [Hitems ->]. split; [|reflexivity].
  cbn [same_record]. apply andb_true_iff. split.
  - apply Nat.eqb_eq.
    rewrite <- (Permutation_length (sort_items_perm d)),
      <- (Permutation_length (sort_items_perm d')).
    eapply Forall2_length, Hitems.
  - apply forallb_forall. intros kv Hin.
    assert (Hin_sorted : In kv (Json.sort_items d))
      by (eapply Permutation_in; [symmetry; apply sort_items_perm|exact Hin]).
    destruct (Forall2_partner _ _ _ _ Hitems Hin_sorted) as ([k' v'] & Hin' & Hk & Hsame).
    cbn [fst snd] in Hk, Hsame. rewrite Hk.
    assert (Hin_d' : In (k', v') d')
      by (eapply Permutation_in; [apply sort_items_perm|exact Hin']).
    rewrite (In_dict_lookup d' k' v' (distinct_NoDup _ Hdistinct') Hin_d').
    exact Hsame.
Qed.

(** The text of a record without floats tells it from every other such
    record whose mappings have no key twice. *)
Lemma dumps_determines (v : pyvalue) : determines v.
Proof.
  induction v as [|b|z|f|s|l IH|d IH|i] using pyvalue_nested_ind;
    [| | | | |now apply list_determined|now apply dict_determined|];
    intros v' t' r r' t Hv Hfree (Hfree' & Hkeys' & Hv') Heq Hr Hr';
    try discriminate Hfree; try discriminate Hv;
    destruct (dumps_opens _ _ Hfree Hv) as (c & t0 & Ht & Hc);
    destruct (dumps_opens _ _ Hfree' Hv') as (c' & t0' & Ht' & Hc');
    assert (Hcc' : c = c') by (rewrite Ht, Ht' in Heq; now injection Heq);
    subst c'; pose proof (opens_same_kind _ _ _ Hc Hc') as Hkind;
    destruct v' as [|b'|z'|f'|s'|l'|d'|i']; try contradiction;
    clear Ht Ht' Hc Hc' t0 t0' c.
  - apply Ok_eq in Hv, Hv'. subst t t'. apply app_inv_head in Heq. auto.
  - subst b'. rewrite Hv in Hv'. apply Ok_eq in Hv'. subst t'.
    apply app_inv_head in Heq. split; [|exact Heq]. now destruct b.
  - change (Ok (Json.int_repr z) = Ok t) in Hv.
    change (Ok (Json.int_repr z') = Ok t') in Hv'.
    apply Ok_eq in Hv, Hv'. subst t t'.
    destruct (int_split z z' r r' Heq Hr Hr') as [-> ->].
    split; [|reflexivity]. apply Z.eqb_refl.
  - change (Ok (Json.encode_basestring s) = Ok t) in Hv.
    change (Ok (Json.encode_basestring s') = Ok t') in Hv'.
    apply Ok_eq in Hv, Hv'. subst t t'.
    destruct (string_literal_split s s' r r' Heq) as [-> ->].
    split; [|reflexivity]. apply str_eqb_refl.
Qed.

End Structure.

Section InRange.
Context `{Runtime}.
Local Open Scope N_scope.

Lemma lit_in_range (text : string) : str_in_range (lit text) = true.
Proof.
  unfold lit, str_in_range. induction text as [|a text IH]; [reflexivity|].
  cbn [list_ascii_of_string map forallb]. rewrite IH, andb_true_r.
  apply N.ltb_lt. pose proof (N_ascii_bounded a). lia.
Qed.

Lemma str_in_range_app (s t : pystr) :
  str_in_range (s ++ t) = str_in_range s && str_in_range t.
Proof. apply forallb_app. Qed.

Lemma hex_digit_in_range (n : N) : n < 32 -> (Json.hex_digit n <? 1114112) = true.
Proof.
  intros Hn. apply N.ltb_lt. unfold Json.hex_digit. destruct (n <? 10); lia.
Qed.

Lemma escape_char_in_range (c : N) :
  c < 1114112 -> str_in_range (Json.escape_char c) = true.
Proof.
  intros Hc. unfold Json.escape_char.
  repeat match goal with
    | |- context [if (c =? ?k) then _ else _] => destruct (c =? k); [reflexivity|]
    end.
  destruct (c <? 32) eqn:H32.
  - apply N.ltb_lt in H32.
    pose proof (N.div_mod c 16 ltac:(discriminate)) as Hdiv.
    pose proof (N.mod_lt c 16 ltac:(discriminate)) as Hmod.
    set (q := c / 16) in *. set (m := c mod 16) in *. clearbody q m.
    unfold str_in_range. cbn [forallb].
    rewrite !hex_digit_in_range by lia. reflexivity.
  - cbn. apply andb_true_iff. split; [now apply N.ltb_lt|reflexivity].
Qed.

Lemma encode_basestring_in_range (s : pystr) :
  str_in_range s = true -> str_in_range (Json.encode_basestring s) = true.
Proof.
  intros Hs. unfold Json.encode_basestring.
  change (str_in_range ([34] ++ flat_map Json.escape_char s ++ [34]) = true).
  rewrite !str_in_range_app. cbn [andb].
  change (str_in_range [34]) with true. rewrite andb_true_r. cbn [andb].
  induction s as [|c s IH]; [reflexivity|].
  cbn [flat_map]. cbn [str_in_range forallb] in Hs.
  apply andb_true_iff in Hs as [Hc Hs]. apply N.ltb_lt in Hc.
  now rewrite str_in_range_app, escape_char_in_range, IH.
Qed.

Lemma join_in_range (parts : list pystr) :
  Forall (fun p => str_in_range p = true) parts ->
  str_in_range (Json.join (lit ",") parts) = true.
Proof.
  intros [|p ps Hp Hps]; [reflexivity|].
  rewrite join_cons, str_in_range_app, Hp. cbn [andb].
  induction Hps as [|q ps Hq _ IH]; [reflexivity|].
  cbn [map concat]. change (44 :: q) with ([44] ++ q).
  now rewrite !str_in_range_app, Hq, IH.
Qed.

Lemma bracketed_in_range (open close : string) (parts : list pystr) :
  Forall (fun p => str_in_range p = true) parts ->
  str_in_range (lit open ++ Json.join (lit ",") parts ++ lit close) = true.
Proof.
  intros Hparts. now rewrite !str_in_range_app, !lit_in_range, join_in_range.
Qed.

(** The text of a record whose strings are in range is in range. *)
Lemma dumps_in_range (v : pyvalue) :
  forall t, strs_in_range v = true -> Json.dumps v = Ok t -> str_in_range t = true.
Proof.
  induction v as [|b|z|f|s|l IH|d IH|i] using pyvalue_nested_ind; intros t Hrange Hv.
  - apply Ok_eq in Hv. now subst t.
  - destruct b; apply Ok_eq in Hv; now subst t.
  - change (Ok (Json.int_repr z) = Ok t) in Hv. apply Ok_eq in Hv. subst t.
    apply lit_in_range.
  - change (Ok (Json.floatstr f) = Ok t) in Hv. apply Ok_eq in Hv. subst t.
    destruct f as [s|[|]| |s m e]; apply lit_in_range.
  - change (Ok (Json.encode_basestring s) = Ok t) in Hv. apply Ok_eq in Hv. subst t.
    now apply encode_basestring_in_range.
  - rewrite dumps_list in Hv.
    destruct (Json.sequence (map Json.dumps l)) as [ts|e] eqn:Hts; [|discriminate].
    cbn [bind] in Hv. apply Ok_eq in Hv. subst t.
    apply bracketed_in_range. apply sequence_texts in Hts.
    cbn [strs_in_range] in Hrange. revert Hrange IH.
    induction Hts as [|x t l ts Hx _ IHts]; intros Hrange IH; constructor;
      cbn [forallb] in Hrange; apply andb_true_iff in Hrange as [Hx_range Hl_range];
      inversion IH; subst; auto.
  - rewrite dumps_dict, sort_items_map, map_map in Hv. cbn [fst snd] in Hv.
    set (field := fun kv : pystr * pyvalue =>
                    Json.dict_field (fst kv, Json.dumps (snd kv))) in *.
    destruct (Json.sequence (map field (Json.sort_items d))) as [ts|e] eqn:Hts;
      [|discriminate].
    cbn [bind] in Hv. apply Ok_eq in Hv. subst t.
    apply bracketed_in_range. apply sequence_texts in Hts.
    cbn [strs_in_range] in Hrange. apply forallb_sorted in Hrange.
    assert (IHs : Forall (fun kv => forall t, strs_in_range (snd kv) = true ->
                                    Json.dumps (snd kv) = Ok t -> str_in_range t = true)
                    (Json.sort_items d))
      by (eapply Permutation_Forall; [symmetry; apply sort_items_perm|exact IH]).
    clear IH. revert Hrange IHs.
    induction Hts as [|[k v] t sd ts Hkv _ IHts]; intros Hrange IHs; constructor;
      inversion Hrange as [|? ? Hkv_range Hsd_range]; inversion IHs as [|? ? Hdet Hsd];
      subst; auto.
    cbn [fst snd] in *. apply andb_true_iff in Hkv_range as [Hk Hv].
    apply dict_field_text in Hkv as (tv & Htv & ->).
    change (58 :: tv) with ([58] ++ tv).
    rewrite !str_in_range_app, encode_basestring_in_range, (Hdet tv) by assumption.
    reflexivity.
  - discriminate.
Qed.

End InRange.

Section Injective.
Context `{Runtime}.

(** Two records with the same canonical bytes. *)
Lemma serialize_injective (a b : pyvalue) (bytes : pybytes) :
  float_free a = true -> float_free b = true ->
  strs_in_range a = true -> strs_in_range b = true ->
  distinct_keys b = true ->
  HashEvent.canonical_serialize a = Ok bytes ->
  HashEvent.canonical_serialize b = Ok bytes ->
  same_record a b = true.
Proof.
  intros Ha Hb Ha_range Hb_range Hb_keys.
  unfold HashEvent.canonical_serialize.
  destruct (Json.dumps a) as [ta|e] eqn:Hta; [|discriminate].
  destruct (Json.dumps b) as [tb|e] eqn:Htb; [|discriminate].
  cbn [bind]. intros Hbytes_a Hbytes_b.
  assert (Htext : ta = tb).
  { apply (encode_utf8_injective ta tb bytes); auto.
    - now apply (dumps_in_range a).
    - now apply (dumps_in_range b). }
  subst tb.
  destruct (dumps_determines a b ta [] [] ta Hta Ha (conj Hb (conj Hb_keys Htb))
              eq_refl eq_refl eq_refl) as [Hsame _].
  exact Hsame.
Qed.

(** X25: on records without floats (strings in range, no key twice), the
    canonical bytes identify the record: a second record has the canonical
    bytes of the first exactly when the two are equal as unordered
    key/value structures; for [hash_event.py] and for [hash_challenge.py]. *)
Theorem canonical_bytes_identify_record (a b : pyvalue) (bytes : pybytes) :
  float_free a = true -> float_free b = true ->
  strs_in_range a = true -> strs_in_range b = true ->
  distinct_keys a = true -> distinct_keys b = true ->
  (HashEvent.canonical_serialize a = Ok bytes ->
   (HashEvent.canonical_serialize b = Ok bytes <-> same_record a b = true)) /\
  (HashChallenge.canonical_serialize a = Ok bytes ->
   (HashChallenge.canonical_serialize b = Ok bytes <-> same_record a b = true)).
Proof.
  intros Ha Hb Ha_range Hb_range Ha_keys Hb_keys.
  assert (Hevent :
            HashEvent.canonical_serialize a = Ok bytes ->
            (HashEvent.canonical_serialize b = Ok bytes <-> same_record a b = true)).
  { intros Hbytes. split.
    - intros Hbytes'. now apply (serialize_injective a b bytes).
    - intros Hsame. rewrite <- Hbytes. unfold HashEvent.canonical_serialize.
      now rewrite (dumps_same_record a b Ha_keys Hsame). }
  split; [exact Hevent|exact Hevent].
Qed.

End Injective.

(** The records [{a: 1, b: 2}] and [{b: 2, a: 1}] and their bytes. *)
Lemma canonical_bytes_identify_record_witness :
  same_record record_a1_b2 record_b2_a1 = true.
Proof.
  apply (proj1 (@canonical_bytes_identify_record sample_runtime
                  record_a1_b2 record_b2_a1
                  [123; 34; 97; 34; 58; 49; 44; 34; 98; 34; 58; 50; 125]%N
                  eq_refl eq_refl eq_refl eq_refl eq_refl eq_refl)
           eq_refl).
  reflexivity.
Defined.
